(** * SceneManager: transform composition, tagged registries and render passes

    A shallow embedding of [Source/SceneManager.cpp].  C++ [float] values are
    idealised as real numbers; [int] values are integers in [Z]; the
    [std::string] tags are strings; the member array [m_textureIDs] is a list
    of fixed length indexed through a checked accessor; the [std::vector] of
    materials is a list.  Every member function is a computation in a small
    state-and-fault monad over the pair of the [SceneManager] object and the
    OpenGL context it drives. *)

From Stdlib Require Import ZArith Reals Lra Lia String.
From stdpp Require Import gmap strings list.

Local Open Scope Z_scope.

(* ===================================================================== *)
(** ** GLM: the vector and matrix operations used by the scene manager   *)
(* ===================================================================== *)

Module Glm.

Local Open Scope R_scope.

Record vec2 := Vec2 { v2x : R; v2y : R }.
Record vec3 := Vec3 { v3x : R; v3y : R; v3z : R }.
Record vec4 := Vec4 { v4x : R; v4y : R; v4z : R; v4w : R }.

(** [glm::mat4] is column-major: [m[i]] is the i-th column. *)
Record mat4 := Mat4 { col0 : vec4; col1 : vec4; col2 : vec4; col3 : vec4 }.

Definition vec4_scale (v : vec4) (k : R) : vec4 :=
  Vec4 (v4x v * k) (v4y v * k) (v4z v * k) (v4w v * k).

Definition vec4_add (a b : vec4) : vec4 :=
  Vec4 (v4x a + v4x b) (v4y a + v4y b) (v4z a + v4z b) (v4w a + v4w b).

(** [glm::mat4(1.0f)] *)
Definition identity : mat4 :=
  Mat4 (Vec4 1 0 0 0) (Vec4 0 1 0 0) (Vec4 0 0 1 0) (Vec4 0 0 0 1).

(** [operator*(mat4, vec4)]: the linear combination of the columns. *)
Definition mat4_mul_vec4 (m : mat4) (v : vec4) : vec4 :=
  vec4_add (vec4_add (vec4_scale (col0 m) (v4x v)) (vec4_scale (col1 m) (v4y v)))
           (vec4_add (vec4_scale (col2 m) (v4z v)) (vec4_scale (col3 m) (v4w v))).

(** [operator*(mat4, mat4)]: column j of the product is
    [m1[0] * m2[j][0] + m1[1] * m2[j][1] + m1[2] * m2[j][2] + m1[3] * m2[j][3]]. *)
Definition mat4_mul_col (m1 : mat4) (c : vec4) : vec4 :=
  vec4_add (vec4_add (vec4_add (vec4_scale (col0 m1) (v4x c)) (vec4_scale (col1 m1) (v4y c)))
                     (vec4_scale (col2 m1) (v4z c)))
           (vec4_scale (col3 m1) (v4w c)).

Definition mat4_mul (m1 m2 : mat4) : mat4 :=
  Mat4 (mat4_mul_col m1 (col0 m2)) (mat4_mul_col m1 (col1 m2))
       (mat4_mul_col m1 (col2 m2)) (mat4_mul_col m1 (col3 m2)).

(** [glm::radians]: degrees times pi/180. *)
Definition radians (degrees : R) : R := degrees * (PI / 180).

Definition dot3 (a b : vec3) : R :=
  v3x a * v3x b + v3y a * v3y b + v3z a * v3z b.

Definition inversesqrt (x : R) : R := 1 / sqrt x.

(** [glm::normalize(v) = v * inversesqrt(dot(v, v))] *)
Definition normalize (v : vec3) : vec3 :=
  let k := inversesqrt (dot3 v v) in
  Vec3 (v3x v * k) (v3y v * k) (v3z v * k).

(** [glm::scale(v)] of [gtx/transform.hpp]: [scale(mat4(1), v)]. *)
Definition scale (v : vec3) : mat4 :=
  let m := identity in
  Mat4 (vec4_scale (col0 m) (v3x v)) (vec4_scale (col1 m) (v3y v))
       (vec4_scale (col2 m) (v3z v)) (col3 m).

(** [glm::translate(v)]: [translate(mat4(1), v)], which replaces the last
    column by [m[0]*v[0] + m[1]*v[1] + m[2]*v[2] + m[3]]. *)
Definition translate (v : vec3) : mat4 :=
  let m := identity in
  Mat4 (col0 m) (col1 m) (col2 m)
       (vec4_add (vec4_add (vec4_add (vec4_scale (col0 m) (v3x v)) (vec4_scale (col1 m) (v3y v)))
                           (vec4_scale (col2 m) (v3z v)))
                 (col3 m)).

(** [glm::rotate(angle, v)]: [rotate(mat4(1), angle, v)], the axis-angle
    rotation built from [c = cos angle], [s = sin angle], the normalised
    axis and [temp = (1 - c) * axis]. *)
Definition rotate (angle : R) (v : vec3) : mat4 :=
  let m := identity in
  let c := cos angle in
  let s := sin angle in
  let axis := normalize v in
  let temp := Vec3 ((1 - c) * v3x axis) ((1 - c) * v3y axis) ((1 - c) * v3z axis) in
  let r00 := c + v3x temp * v3x axis in
  let r01 := v3x temp * v3y axis + s * v3z axis in
  let r02 := v3x temp * v3z axis - s * v3y axis in
  let r10 := v3y temp * v3x axis - s * v3z axis in
  let r11 := c + v3y temp * v3y axis in
  let r12 := v3y temp * v3z axis + s * v3x axis in
  let r20 := v3z temp * v3x axis + s * v3y axis in
  let r21 := v3z temp * v3y axis - s * v3x axis in
  let r22 := c + v3z temp * v3z axis in
  Mat4
    (vec4_add (vec4_add (vec4_scale (col0 m) r00) (vec4_scale (col1 m) r01))
              (vec4_scale (col2 m) r02))
    (vec4_add (vec4_add (vec4_scale (col0 m) r10) (vec4_scale (col1 m) r11))
              (vec4_scale (col2 m) r12))
    (vec4_add (vec4_add (vec4_scale (col0 m) r20) (vec4_scale (col1 m) r21))
              (vec4_scale (col2 m) r22))
    (col3 m).

(** *** What the five factors do to a point, in the words of the spec

    These are the textbook maps: scale each coordinate, rotate about the X,
    the Y and the Z axis by an angle in degrees, and translate. *)

Definition scale_point (s p : vec3) : vec3 :=
  Vec3 (v3x s * v3x p) (v3y s * v3y p) (v3z s * v3z p).

Definition rotateX_point (deg : R) (p : vec3) : vec3 :=
  let a := radians deg in
  Vec3 (v3x p) (v3y p * cos a - v3z p * sin a) (v3y p * sin a + v3z p * cos a).

Definition rotateY_point (deg : R) (p : vec3) : vec3 :=
  let a := radians deg in
  Vec3 (v3x p * cos a + v3z p * sin a) (v3y p) (v3z p * cos a - v3x p * sin a).

Definition rotateZ_point (deg : R) (p : vec3) : vec3 :=
  let a := radians deg in
  Vec3 (v3x p * cos a - v3y p * sin a) (v3x p * sin a + v3y p * cos a) (v3z p).

Definition translate_point (t p : vec3) : vec3 :=
  Vec3 (v3x p + v3x t) (v3y p + v3y t) (v3z p + v3z t).

(** A point in homogeneous coordinates. *)
Definition point (p : vec3) : vec4 := Vec4 (v3x p) (v3y p) (v3z p) 1.

End Glm.

Import Glm.

(* ===================================================================== *)
(** ** Faults and the state monad                                         *)
(* ===================================================================== *)

(** The ways a call can fail to return normally: dereferencing the null
    shader-manager pointer, indexing [m_textureIDs] outside its bounds, and
    (for the model only) a loop running out of fuel, which the totality
    lemmas rule out. *)
Inductive fault : Set := NullDereference | ArrayOutOfBounds | OutOfFuel.

Inductive Result (A : Type) : Type :=
| OK (a : A)
| Fault (f : fault).
Arguments OK {A} a.
Arguments Fault {A} f.

#[global] Instance Result_ret : MRet Result := fun A a => OK a.
#[global] Instance Result_bind : MBind Result := fun A B k r =>
  match r with
  | OK a => k a
  | Fault f => Fault f
  end.

(** [while (cond) body], with fuel. *)
Fixpoint while {S : Type} (fuel : nat) (cond : S -> bool)
    (body : S -> Result S) (s : S) : Result S :=
  match fuel with
  | O => Fault OutOfFuel
  | Datatypes.S fuel' =>
      if cond s then
        match body s with
        | OK s' => while fuel' cond body s'
        | Fault f => Fault f
        end
      else OK s
  end.

(** A C array read [a[i]]; an index outside the array is a fault. *)
Definition array_get {A : Type} (a : list A) (i : Z) : Result A :=
  if (i <? 0) then Fault ArrayOutOfBounds
  else match a !! Z.to_nat i with
       | Some x => OK x
       | None => Fault ArrayOutOfBounds
       end.

(** A C array write [a[i] = x]. *)
Definition array_set {A : Type} (a : list A) (i : Z) (x : A) : Result (list A) :=
  if (i <? 0) then Fault ArrayOutOfBounds
  else if (Z.to_nat i <? length a)%nat then OK (<[Z.to_nat i := x]> a)
  else Fault ArrayOutOfBounds.

(** [std::string::compare]: negative, zero or positive. *)
Definition string_compare (a b : string) : Z :=
  match String.compare a b with
  | Eq => 0
  | Lt => -1
  | Gt => 1
  end.

(* ===================================================================== *)
(** ** The OpenGL context                                                 *)
(* ===================================================================== *)

Inductive Capability : Set := GL_BLEND | GL_DEPTH_TEST | GL_CULL_FACE.
Inductive BlendFactor : Set := GL_ZERO | GL_ONE | GL_SRC_ALPHA | GL_ONE_MINUS_SRC_ALPHA.
Inductive CullMode : Set := GL_BACK | GL_FRONT.
Inductive TexParam : Set :=
  GL_TEXTURE_WRAP_S | GL_TEXTURE_WRAP_T | GL_TEXTURE_MIN_FILTER | GL_TEXTURE_MAG_FILTER.
Inductive TexParamValue : Set := GL_REPEAT | GL_LINEAR | GL_NEAREST_MIPMAP_LINEAR.
Inductive InternalFormat : Set := GL_RGB8 | GL_RGBA8.
Inductive PixelFormat : Set := GL_RGB | GL_RGBA.

Inductive Mesh : Set :=
  BoxMesh | CylinderMesh | SphereMesh | PrismMesh | PlaneMesh | TorusMesh
| Pyramid3Mesh | TaperedCylinderMesh.

(** A decoded image as [stbi_load] returns it. *)
Record Image := {
  img_width : Z;
  img_height : Z;
  img_channels : Z;
  img_rows : list (list Byte.byte)
}.

Record TexImage := {
  ti_internal : InternalFormat;
  ti_width : Z;
  ti_height : Z;
  ti_format : PixelFormat;
  ti_rows : list (list Byte.byte)
}.

Record TextureObject := {
  tex_wrap_s : TexParamValue;
  tex_wrap_t : TexParamValue;
  tex_min_filter : TexParamValue;
  tex_mag_filter : TexParamValue;
  tex_image : option TexImage;
  tex_mipmaps : bool
}.

(** A texture object as OpenGL creates it on first bind. *)
Definition new_texture : TextureObject :=
  {| tex_wrap_s := GL_REPEAT; tex_wrap_t := GL_REPEAT;
     tex_min_filter := GL_NEAREST_MIPMAP_LINEAR; tex_mag_filter := GL_LINEAR;
     tex_image := None; tex_mipmaps := false |}.

Record GLContext := {
  gl_blend : bool;
  gl_blend_src : BlendFactor;
  gl_blend_dst : BlendFactor;
  gl_depth_mask : bool;
  gl_depth_test : bool;
  gl_cull_face : bool;
  gl_cull_mode : CullMode;
  gl_unpack_alignment : Z;
  (** the selected texture unit, as an offset from [GL_TEXTURE0] *)
  gl_active_texture : Z;
  (** the [GL_TEXTURE_2D] binding of each unit; an absent unit binds 0 *)
  gl_bound : gmap Z Z;
  (** how many texture names [glGenTextures] has handed out so far *)
  gl_generated : Z;
  (** the texture objects that exist, by name *)
  gl_textures : gmap Z TextureObject;
  (** the draw calls issued, most recent first *)
  gl_draws : list Mesh
}.

Definition gl_set_cap (c : Capability) (b : bool) (g : GLContext) : GLContext :=
  match c with
  | GL_BLEND =>
      {| gl_blend := b; gl_blend_src := gl_blend_src g; gl_blend_dst := gl_blend_dst g;
         gl_depth_mask := gl_depth_mask g; gl_depth_test := gl_depth_test g;
         gl_cull_face := gl_cull_face g; gl_cull_mode := gl_cull_mode g;
         gl_unpack_alignment := gl_unpack_alignment g;
         gl_active_texture := gl_active_texture g; gl_bound := gl_bound g;
         gl_generated := gl_generated g; gl_textures := gl_textures g;
         gl_draws := gl_draws g |}
  | GL_DEPTH_TEST =>
      {| gl_blend := gl_blend g; gl_blend_src := gl_blend_src g; gl_blend_dst := gl_blend_dst g;
         gl_depth_mask := gl_depth_mask g; gl_depth_test := b;
         gl_cull_face := gl_cull_face g; gl_cull_mode := gl_cull_mode g;
         gl_unpack_alignment := gl_unpack_alignment g;
         gl_active_texture := gl_active_texture g; gl_bound := gl_bound g;
         gl_generated := gl_generated g; gl_textures := gl_textures g;
         gl_draws := gl_draws g |}
  | GL_CULL_FACE =>
      {| gl_blend := gl_blend g; gl_blend_src := gl_blend_src g; gl_blend_dst := gl_blend_dst g;
         gl_depth_mask := gl_depth_mask g; gl_depth_test := gl_depth_test g;
         gl_cull_face := b; gl_cull_mode := gl_cull_mode g;
         gl_unpack_alignment := gl_unpack_alignment g;
         gl_active_texture := gl_active_texture g; gl_bound := gl_bound g;
         gl_generated := gl_generated g; gl_textures := gl_textures g;
         gl_draws := gl_draws g |}
  end.

Definition gl_set_blend_func (s d : BlendFactor) (g : GLContext) : GLContext :=
  {| gl_blend := gl_blend g; gl_blend_src := s; gl_blend_dst := d;
     gl_depth_mask := gl_depth_mask g; gl_depth_test := gl_depth_test g;
     gl_cull_face := gl_cull_face g; gl_cull_mode := gl_cull_mode g;
     gl_unpack_alignment := gl_unpack_alignment g;
     gl_active_texture := gl_active_texture g; gl_bound := gl_bound g;
     gl_generated := gl_generated g; gl_textures := gl_textures g;
     gl_draws := gl_draws g |}.

Definition gl_set_depth_mask (b : bool) (g : GLContext) : GLContext :=
  {| gl_blend := gl_blend g; gl_blend_src := gl_blend_src g; gl_blend_dst := gl_blend_dst g;
     gl_depth_mask := b; gl_depth_test := gl_depth_test g;
     gl_cull_face := gl_cull_face g; gl_cull_mode := gl_cull_mode g;
     gl_unpack_alignment := gl_unpack_alignment g;
     gl_active_texture := gl_active_texture g; gl_bound := gl_bound g;
     gl_generated := gl_generated g; gl_textures := gl_textures g;
     gl_draws := gl_draws g |}.

Definition gl_set_cull_mode (m : CullMode) (g : GLContext) : GLContext :=
  {| gl_blend := gl_blend g; gl_blend_src := gl_blend_src g; gl_blend_dst := gl_blend_dst g;
     gl_depth_mask := gl_depth_mask g; gl_depth_test := gl_depth_test g;
     gl_cull_face := gl_cull_face g; gl_cull_mode := m;
     gl_unpack_alignment := gl_unpack_alignment g;
     gl_active_texture := gl_active_texture g; gl_bound := gl_bound g;
     gl_generated := gl_generated g; gl_textures := gl_textures g;
     gl_draws := gl_draws g |}.

Definition gl_set_unpack_alignment (a : Z) (g : GLContext) : GLContext :=
  {| gl_blend := gl_blend g; gl_blend_src := gl_blend_src g; gl_blend_dst := gl_blend_dst g;
     gl_depth_mask := gl_depth_mask g; gl_depth_test := gl_depth_test g;
     gl_cull_face := gl_cull_face g; gl_cull_mode := gl_cull_mode g;
     gl_unpack_alignment := a;
     gl_active_texture := gl_active_texture g; gl_bound := gl_bound g;
     gl_generated := gl_generated g; gl_textures := gl_textures g;
     gl_draws := gl_draws g |}.

(** The texture-related part of the context, updated together. *)
Definition gl_set_textures (active : Z) (bound : gmap Z Z) (generated : Z)
    (textures : gmap Z TextureObject) (g : GLContext) : GLContext :=
  {| gl_blend := gl_blend g; gl_blend_src := gl_blend_src g; gl_blend_dst := gl_blend_dst g;
     gl_depth_mask := gl_depth_mask g; gl_depth_test := gl_depth_test g;
     gl_cull_face := gl_cull_face g; gl_cull_mode := gl_cull_mode g;
     gl_unpack_alignment := gl_unpack_alignment g;
     gl_active_texture := active; gl_bound := bound;
     gl_generated := generated; gl_textures := textures;
     gl_draws := gl_draws g |}.

Definition gl_log_draw (m : Mesh) (g : GLContext) : GLContext :=
  {| gl_blend := gl_blend g; gl_blend_src := gl_blend_src g; gl_blend_dst := gl_blend_dst g;
     gl_depth_mask := gl_depth_mask g; gl_depth_test := gl_depth_test g;
     gl_cull_face := gl_cull_face g; gl_cull_mode := gl_cull_mode g;
     gl_unpack_alignment := gl_unpack_alignment g;
     gl_active_texture := gl_active_texture g; gl_bound := gl_bound g;
     gl_generated := gl_generated g; gl_textures := gl_textures g;
     gl_draws := m :: gl_draws g |}.

(** The texture name bound to [GL_TEXTURE_2D] on the active unit. *)
Definition gl_current_texture (g : GLContext) : Z :=
  default 0 (gl_bound g !! gl_active_texture g).

(** Apply [f] to the texture object bound on the active unit. *)
Definition gl_update_current (f : TextureObject -> TextureObject) (g : GLContext) : GLContext :=
  let name := gl_current_texture g in
  gl_set_textures (gl_active_texture g) (gl_bound g) (gl_generated g)
    (<[name := f (default new_texture (gl_textures g !! name))]> (gl_textures g)) g.

(** [glIsTexture]: the name denotes an existing texture object. *)
Definition glIsTexture (g : GLContext) (name : Z) : bool :=
  bool_decide (is_Some (gl_textures g !! name)).

(* ===================================================================== *)
(** ** The shader manager                                                 *)
(* ===================================================================== *)

(** A value stored in a named uniform of the active shader program. *)
Inductive Uniform : Type :=
| UBool (b : bool)
| UInt (i : Z)
| UFloat (f : R)
| UVec2 (v : vec2)
| UVec3 (v : vec3)
| UVec4 (v : vec4)
| UMat4 (m : mat4)
| USampler2D (slot : Z).

(** Modelled from the spec: the [ShaderManager] class is not part of the
    sources; the spec describes it as named-uniform setters for a 4x4 matrix,
    3-, 4- and 2-component vectors, float, int and bool, each an immediate
    write.  Its state is the table of uniform values by name. *)
Module ShaderManager.
Definition setBoolValue (name : string) (v : bool) (u : gmap string Uniform) :=
  <[name := UBool v]> u.
Definition setIntValue (name : string) (v : Z) (u : gmap string Uniform) :=
  <[name := UInt v]> u.
Definition setFloatValue (name : string) (v : R) (u : gmap string Uniform) :=
  <[name := UFloat v]> u.
Definition setVec2Value (name : string) (v : vec2) (u : gmap string Uniform) :=
  <[name := UVec2 v]> u.
Definition setVec3Value (name : string) (v : vec3) (u : gmap string Uniform) :=
  <[name := UVec3 v]> u.
Definition setVec4Value (name : string) (v : vec4) (u : gmap string Uniform) :=
  <[name := UVec4 v]> u.
Definition setMat4Value (name : string) (v : mat4) (u : gmap string Uniform) :=
  <[name := UMat4 v]> u.
Definition setSampler2DValue (name : string) (slot : Z) (u : gmap string Uniform) :=
  <[name := USampler2D slot]> u.
End ShaderManager.

(** The names of the uniforms, as in the anonymous namespace of the source. *)
Definition g_ModelName : string := "model".
Definition g_ColorValueName : string := "objectColor".
Definition g_TextureValueName : string := "objectTexture".
Definition g_UseTextureName : string := "bUseTexture".
Definition g_UseLightingName : string := "bUseLighting".

(* ===================================================================== *)
(** ** The scene manager object                                           *)
(* ===================================================================== *)

(** The two structs of [SceneManager.h], each in a module of its own so that
    both can have a field called [tag]. *)
Module TEXTURE_INFO.
Record t := make {
  ID : Z;
  tag : string
}.
End TEXTURE_INFO.

Module OBJECT_MATERIAL.
Record t := make {
  diffuseColor : vec3;
  specularColor : vec3;
  shininess : R;
  tag : string
}.
End OBJECT_MATERIAL.

(** Modelled from the spec: the length of the member array [m_textureIDs] is
    declared in [SceneManager.h], which is not part of the sources; the spec
    gives the texture-unit limit as 16. *)
Definition MAX_TEXTURES : nat := 16.

Record SceneManager := {
  (** [None] is the null pointer; [Some u] points to a shader manager whose
      uniform table is [u] *)
  m_pShaderManager : option (gmap string Uniform);
  (** the meshes that [m_basicMeshes] has loaded *)
  m_basicMeshes : list Mesh;
  m_loadedTextures : Z;
  m_textureIDs : list TEXTURE_INFO.t;
  m_objectMaterials : list OBJECT_MATERIAL.t
}.

(** Everything a member function can read or change. *)
Record World := {
  this : SceneManager;
  gl : GLContext;
  (** the image codec: what [stbi_load] decodes from each path, top row
      first, or nothing when the file is unreadable or malformed *)
  disk : string -> option Image;
  (** [stbi_set_flip_vertically_on_load] *)
  stbi_flip : bool;
  (** the indeterminate contents of an uninitialised local of type
      [OBJECT_MATERIAL] *)
  uninitialised : OBJECT_MATERIAL.t
}.

Definition M (A : Type) : Type := World -> Result (A * World).

#[global] Instance M_ret : MRet M := fun A a w => OK (a, w).
#[global] Instance M_bind : MBind M := fun A B k c w =>
  match c w with
  | OK (a, w') => k a w'
  | Fault f => Fault f
  end.

Definition with_this (s : SceneManager) (w : World) : World :=
  {| this := s; gl := gl w; disk := disk w; stbi_flip := stbi_flip w;
     uninitialised := uninitialised w |}.

Definition with_gl (g : GLContext) (w : World) : World :=
  {| this := this w; gl := g; disk := disk w; stbi_flip := stbi_flip w;
     uninitialised := uninitialised w |}.

Definition with_flip (b : bool) (w : World) : World :=
  {| this := this w; gl := gl w; disk := disk w; stbi_flip := b;
     uninitialised := uninitialised w |}.

Definition with_shader (p : option (gmap string Uniform)) (s : SceneManager) : SceneManager :=
  {| m_pShaderManager := p; m_basicMeshes := m_basicMeshes s;
     m_loadedTextures := m_loadedTextures s; m_textureIDs := m_textureIDs s;
     m_objectMaterials := m_objectMaterials s |}.

Definition with_meshes (l : list Mesh) (s : SceneManager) : SceneManager :=
  {| m_pShaderManager := m_pShaderManager s; m_basicMeshes := l;
     m_loadedTextures := m_loadedTextures s; m_textureIDs := m_textureIDs s;
     m_objectMaterials := m_objectMaterials s |}.

Definition with_textures (n : Z) (a : list TEXTURE_INFO.t) (s : SceneManager) : SceneManager :=
  {| m_pShaderManager := m_pShaderManager s; m_basicMeshes := m_basicMeshes s;
     m_loadedTextures := n; m_textureIDs := a;
     m_objectMaterials := m_objectMaterials s |}.

Definition with_materials (l : list OBJECT_MATERIAL.t) (s : SceneManager) : SceneManager :=
  {| m_pShaderManager := m_pShaderManager s; m_basicMeshes := m_basicMeshes s;
     m_loadedTextures := m_loadedTextures s; m_textureIDs := m_textureIDs s;
     m_objectMaterials := l |}.

(** Read the object. *)
Definition get_this : M SceneManager := fun w => OK (this w, w).

(** A call of a member function that does not change the object. *)
Definition call_const {A : Type} (f : SceneManager -> Result A) : M A := fun w =>
  match f (this w) with
  | OK a => OK (a, w)
  | Fault e => Fault e
  end.

(** An OpenGL call that changes the context and returns nothing. *)
Definition gl_call (f : GLContext -> GLContext) : M unit := fun w =>
  OK (tt, with_gl (f (gl w)) w).

(** [m_pShaderManager->method(...)]: a fault when the pointer is null. *)
Definition shader_call (f : gmap string Uniform -> gmap string Uniform) : M unit := fun w =>
  match m_pShaderManager (this w) with
  | Some u => OK (tt, with_this (with_shader (Some (f u)) (this w)) w)
  | None => Fault NullDereference
  end.

(** [m_basicMeshes->LoadXMesh()] *)
Definition load_mesh (m : Mesh) : M unit := fun w =>
  OK (tt, with_this (with_meshes (m :: m_basicMeshes (this w)) (this w)) w).

(** [m_basicMeshes->DrawXMesh()]: issues one draw call. *)
Definition draw_mesh (m : Mesh) : M unit := gl_call (gl_log_draw m).

(** *** The OpenGL entry points the scene manager calls *)

Definition glEnable (c : Capability) : M unit := gl_call (gl_set_cap c true).
Definition glDisable (c : Capability) : M unit := gl_call (gl_set_cap c false).
Definition glBlendFunc (s d : BlendFactor) : M unit := gl_call (gl_set_blend_func s d).
Definition glDepthMask (b : bool) : M unit := gl_call (gl_set_depth_mask b).
Definition glCullFace (m : CullMode) : M unit := gl_call (gl_set_cull_mode m).
Definition glPixelStorei_UNPACK_ALIGNMENT (a : Z) : M unit :=
  gl_call (gl_set_unpack_alignment a).

(** [glGenTextures(1, &id)]: hands out the next unused texture name.  The
    name denotes no texture object until it is first bound. *)
Definition glGenTextures1 : M Z := fun w =>
  let g := gl w in
  let name := gl_generated g + 1 in
  OK (name, with_gl (gl_set_textures (gl_active_texture g) (gl_bound g) name (gl_textures g) g) w).

(** [glBindTexture(GL_TEXTURE_2D, name)]: binds on the active unit and
    creates the texture object on the first bind of a non-zero name. *)
Definition glBindTexture (name : Z) : M unit := gl_call (fun g =>
  let textures :=
    if (name =? 0) then gl_textures g
    else match gl_textures g !! name with
         | Some _ => gl_textures g
         | None => <[name := new_texture]> (gl_textures g)
         end in
  gl_set_textures (gl_active_texture g) (<[gl_active_texture g := name]> (gl_bound g))
    (gl_generated g) textures g).

(** [glActiveTexture(GL_TEXTURE0 + i)] *)
Definition glActiveTexture (i : Z) : M unit := gl_call (fun g =>
  gl_set_textures i (gl_bound g) (gl_generated g) (gl_textures g) g).

Definition set_tex_param (p : TexParam) (v : TexParamValue) (t : TextureObject) : TextureObject :=
  match p with
  | GL_TEXTURE_WRAP_S =>
      {| tex_wrap_s := v; tex_wrap_t := tex_wrap_t t; tex_min_filter := tex_min_filter t;
         tex_mag_filter := tex_mag_filter t; tex_image := tex_image t;
         tex_mipmaps := tex_mipmaps t |}
  | GL_TEXTURE_WRAP_T =>
      {| tex_wrap_s := tex_wrap_s t; tex_wrap_t := v; tex_min_filter := tex_min_filter t;
         tex_mag_filter := tex_mag_filter t; tex_image := tex_image t;
         tex_mipmaps := tex_mipmaps t |}
  | GL_TEXTURE_MIN_FILTER =>
      {| tex_wrap_s := tex_wrap_s t; tex_wrap_t := tex_wrap_t t; tex_min_filter := v;
         tex_mag_filter := tex_mag_filter t; tex_image := tex_image t;
         tex_mipmaps := tex_mipmaps t |}
  | GL_TEXTURE_MAG_FILTER =>
      {| tex_wrap_s := tex_wrap_s t; tex_wrap_t := tex_wrap_t t; tex_min_filter := tex_min_filter t;
         tex_mag_filter := v; tex_image := tex_image t;
         tex_mipmaps := tex_mipmaps t |}
  end.

(** [glTexParameteri(GL_TEXTURE_2D, p, v)] *)
Definition glTexParameteri (p : TexParam) (v : TexParamValue) : M unit :=
  gl_call (gl_update_current (set_tex_param p v)).

(** [glTexImage2D(GL_TEXTURE_2D, 0, internal, width, height, 0, format,
    GL_UNSIGNED_BYTE, image)] *)
Definition glTexImage2D (internal : InternalFormat) (width height : Z)
    (format : PixelFormat) (image : list (list Byte.byte)) : M unit :=
  gl_call (gl_update_current (fun t =>
    {| tex_wrap_s := tex_wrap_s t; tex_wrap_t := tex_wrap_t t;
       tex_min_filter := tex_min_filter t; tex_mag_filter := tex_mag_filter t;
       tex_image := Some {| ti_internal := internal; ti_width := width;
                            ti_height := height; ti_format := format;
                            ti_rows := image |};
       tex_mipmaps := tex_mipmaps t |})).

(** [glGenerateMipmap(GL_TEXTURE_2D)] *)
Definition glGenerateMipmap : M unit :=
  gl_call (gl_update_current (fun t =>
    {| tex_wrap_s := tex_wrap_s t; tex_wrap_t := tex_wrap_t t;
       tex_min_filter := tex_min_filter t; tex_mag_filter := tex_mag_filter t;
       tex_image := tex_image t; tex_mipmaps := true |})).

(** *** The image codec *)

Definition stbi_set_flip_vertically_on_load (b : bool) : M unit := fun w =>
  OK (tt, with_flip b w).

(** [stbi_load(filename, &width, &height, &channels, 0)]: the decoded image,
    with its rows in reverse order when the flip flag is set, or null. *)
Definition stbi_load (filename : string) : M (option Image) := fun w =>
  match disk w filename with
  | Some img =>
      OK (Some {| img_width := img_width img; img_height := img_height img;
                  img_channels := img_channels img;
                  img_rows := if stbi_flip w then rev (img_rows img) else img_rows img |}, w)
  | None => OK (None, w)
  end.

(* ===================================================================== *)
(** ** Texture registry                                                   *)
(* ===================================================================== *)

(** Change one entry of [m_textureIDs] in place: [m_textureIDs[i].field = v]. *)
Definition texture_entry_update (i : Z) (f : TEXTURE_INFO.t -> TEXTURE_INFO.t) : M unit :=
  fun w =>
    match array_get (m_textureIDs (this w)) i with
    | OK e =>
        match array_set (m_textureIDs (this w)) i (f e) with
        | OK a => OK (tt, with_this (with_textures (m_loadedTextures (this w)) a (this w)) w)
        | Fault e => Fault e
        end
    | Fault e => Fault e
    end.

Definition set_ID (v : Z) (e : TEXTURE_INFO.t) : TEXTURE_INFO.t :=
  TEXTURE_INFO.make v (TEXTURE_INFO.tag e).

Definition set_tag (v : string) (e : TEXTURE_INFO.t) : TEXTURE_INFO.t :=
  TEXTURE_INFO.make (TEXTURE_INFO.ID e) v.

(** [m_loadedTextures++] *)
Definition increment_loadedTextures : M unit := fun w =>
  OK (tt, with_this (with_textures (m_loadedTextures (this w) + 1)
                       (m_textureIDs (this w)) (this w)) w).

(** [SceneManager::CreateGLTexture].  The console output and the release of
    the decoded pixel buffer are not modelled. *)
Definition CreateGLTexture (filename : string) (tag : string) : M bool :=
  stbi_set_flip_vertically_on_load true ;;
  image ← stbi_load filename ;
  match image with
  | Some image =>
      let width := img_width image in
      let height := img_height image in
      let colorChannels := img_channels image in
      textureID ← glGenTextures1 ;
      glBindTexture textureID ;;
      glTexParameteri GL_TEXTURE_WRAP_S GL_REPEAT ;;
      glTexParameteri GL_TEXTURE_WRAP_T GL_REPEAT ;;
      glTexParameteri GL_TEXTURE_MIN_FILTER GL_LINEAR ;;
      glTexParameteri GL_TEXTURE_MAG_FILTER GL_LINEAR ;;
      let register : M bool :=
        glGenerateMipmap ;;
        glBindTexture 0 ;;
        s ← get_this ;
        texture_entry_update (m_loadedTextures s) (set_ID textureID) ;;
        texture_entry_update (m_loadedTextures s) (set_tag tag) ;;
        increment_loadedTextures ;;
        mret true in
      if colorChannels =? 3 then
        glTexImage2D GL_RGB8 width height GL_RGB (img_rows image) ;; register
      else if colorChannels =? 4 then
        glTexImage2D GL_RGBA8 width height GL_RGBA (img_rows image) ;; register
      else
        mret false
  | None => mret false
  end.

(** [for (int i = first; i < first + count; i++) body(i)] *)
Fixpoint for_range (first : Z) (count : nat) (body : Z -> M unit) : M unit :=
  match count with
  | O => mret tt
  | S count' => body first ;; for_range (first + 1) count' body
  end.

(** [SceneManager::BindGLTextures] *)
Definition BindGLTextures : M unit :=
  s ← get_this ;
  for_range 0 (Z.to_nat (m_loadedTextures s)) (fun i =>
    glActiveTexture i ;;
    e ← call_const (fun s => array_get (m_textureIDs s) i) ;
    glBindTexture (TEXTURE_INFO.ID e)).

(** [SceneManager::DestroyGLTextures] *)
Definition DestroyGLTextures : M unit :=
  s ← get_this ;
  for_range 0 (Z.to_nat (m_loadedTextures s)) (fun i =>
    name ← glGenTextures1 ;
    texture_entry_update i (set_ID name)).

(** [SceneManager::FindTextureID].  The loop state is
    [(textureID, index, bFound)]. *)
Definition FindTextureID (s : SceneManager) (tag : string) : Result Z :=
  let textureID := -1 in
  let index := 0 in
  let bFound := false in
  r ← while (S (Z.to_nat (m_loadedTextures s)))
        (fun '(textureID, index, bFound) =>
           (index <? m_loadedTextures s) && Bool.eqb bFound false)
        (fun '(textureID, index, bFound) =>
           e ← array_get (m_textureIDs s) index ;
           if string_compare (TEXTURE_INFO.tag e) tag =? 0
           then OK (TEXTURE_INFO.ID e, index, true)
           else OK (textureID, index + 1, bFound))
        (textureID, index, bFound) ;
  let '(textureID, _, _) := r in
  OK textureID.

(** [SceneManager::FindTextureSlot].  The loop state is
    [(textureSlot, index, bFound)]. *)
Definition FindTextureSlot (s : SceneManager) (tag : string) : Result Z :=
  let textureSlot := -1 in
  let index := 0 in
  let bFound := false in
  r ← while (S (Z.to_nat (m_loadedTextures s)))
        (fun '(textureSlot, index, bFound) =>
           (index <? m_loadedTextures s) && Bool.eqb bFound false)
        (fun '(textureSlot, index, bFound) =>
           e ← array_get (m_textureIDs s) index ;
           if string_compare (TEXTURE_INFO.tag e) tag =? 0
           then OK (index, index, true)
           else OK (textureSlot, index + 1, bFound))
        (textureSlot, index, bFound) ;
  let '(textureSlot, _, _) := r in
  OK textureSlot.

(* ===================================================================== *)
(** ** Material registry                                                  *)
(* ===================================================================== *)

(** [SceneManager::FindMaterial].  The reference parameter [material] is
    passed in and returned next to the boolean; the loop state is
    [(index, bFound, material)]. *)
Definition FindMaterial (s : SceneManager) (tag : string)
    (material : OBJECT_MATERIAL.t) : Result (bool * OBJECT_MATERIAL.t) :=
  if (length (m_objectMaterials s) =? 0)%nat then
    OK (false, material)
  else
    let index := 0 in
    let bFound := false in
    r ← while (S (length (m_objectMaterials s)))
          (fun '(index, bFound, material) =>
             (index <? Z.of_nat (length (m_objectMaterials s))) && Bool.eqb bFound false)
          (fun '(index, bFound, material) =>
             e ← array_get (m_objectMaterials s) index ;
             if string_compare (OBJECT_MATERIAL.tag e) tag =? 0
             then OK (index, true,
                      OBJECT_MATERIAL.make (OBJECT_MATERIAL.diffuseColor e)
                        (OBJECT_MATERIAL.specularColor e)
                        (OBJECT_MATERIAL.shininess e)
                        (OBJECT_MATERIAL.tag material))
             else OK (index + 1, bFound, material))
          (index, bFound, material) ;
    let '(_, _, material) := r in
    OK (true, material).

(** [m_objectMaterials.push_back(m)] *)
Definition materials_push_back (m : OBJECT_MATERIAL.t) : M unit := fun w =>
  OK (tt, with_this (with_materials (m_objectMaterials (this w) ++ [m]) (this w)) w).

(* ===================================================================== *)
(** ** Transform composer and shader state binder                         *)
(* ===================================================================== *)

(** [NULL != p] *)
Definition not_null {A : Type} (p : option A) : bool :=
  match p with
  | Some _ => true
  | None => false
  end.

(** The matrix [SetTransformations] computes: the C++ product
    [translation * rotationZ * rotationY * rotationX * scale], which
    associates to the left. *)
Definition modelView (scaleXYZ : vec3)
    (XrotationDegrees YrotationDegrees ZrotationDegrees : R)
    (positionXYZ : vec3) : mat4 :=
  let scale := Glm.scale scaleXYZ in
  let rotationX := rotate (radians XrotationDegrees) (Vec3 1 0 0) in
  let rotationY := rotate (radians YrotationDegrees) (Vec3 0 1 0) in
  let rotationZ := rotate (radians ZrotationDegrees) (Vec3 0 0 1) in
  let translation := translate positionXYZ in
  mat4_mul (mat4_mul (mat4_mul (mat4_mul translation rotationZ) rotationY) rotationX) scale.

(** [SceneManager::SetTransformations] *)
Definition SetTransformations (scaleXYZ : vec3)
    (XrotationDegrees YrotationDegrees ZrotationDegrees : R)
    (positionXYZ : vec3) : M unit :=
  let modelView :=
    modelView scaleXYZ XrotationDegrees YrotationDegrees ZrotationDegrees positionXYZ in
  s ← get_this ;
  if not_null (m_pShaderManager s) then
    shader_call (ShaderManager.setMat4Value g_ModelName modelView)
  else mret tt.

(** [SceneManager::SetShaderColor].  The [false] passed to [setIntValue]
    converts to the integer 0. *)
Definition SetShaderColor (redColorValue greenColorValue blueColorValue alphaValue : R) : M unit :=
  let currentColor := Vec4 redColorValue greenColorValue blueColorValue alphaValue in
  s ← get_this ;
  if not_null (m_pShaderManager s) then
    shader_call (ShaderManager.setIntValue g_UseTextureName 0) ;;
    shader_call (ShaderManager.setVec4Value g_ColorValueName currentColor)
  else mret tt.

(** [SceneManager::SetShaderTexture].  The [true] passed to [setIntValue]
    converts to the integer 1. *)
Definition SetShaderTexture (textureTag : string) : M unit :=
  s ← get_this ;
  if not_null (m_pShaderManager s) then
    shader_call (ShaderManager.setIntValue g_UseTextureName 1) ;;
    textureID ← call_const (fun s => FindTextureSlot s textureTag) ;
    shader_call (ShaderManager.setSampler2DValue g_TextureValueName textureID)
  else mret tt.

(** [SceneManager::SetTextureUVScale] *)
Definition SetTextureUVScale (u v : R) : M unit :=
  s ← get_this ;
  if not_null (m_pShaderManager s) then
    shader_call (ShaderManager.setVec2Value "UVscale" (Vec2 u v))
  else mret tt.

(** The declaration [OBJECT_MATERIAL material;] of an uninitialised local. *)
Definition declare_uninitialised : M OBJECT_MATERIAL.t := fun w =>
  OK (uninitialised w, w).

(** [SceneManager::SetShaderMaterial] *)
Definition SetShaderMaterial (materialTag : string) : M unit :=
  s ← get_this ;
  if (0 <? length (m_objectMaterials s))%nat then
    material ← declare_uninitialised ;
    '(bReturn, material) ← call_const (fun s => FindMaterial s materialTag material) ;
    if Bool.eqb bReturn true then
      shader_call (ShaderManager.setVec3Value "material.diffuseColor"
                     (OBJECT_MATERIAL.diffuseColor material)) ;;
      shader_call (ShaderManager.setVec3Value "material.specularColor"
                     (OBJECT_MATERIAL.specularColor material)) ;;
      shader_call (ShaderManager.setFloatValue "material.shininess"
                     (OBJECT_MATERIAL.shininess material))
    else mret tt
  else mret tt.

(* ===================================================================== *)
(** ** Scene preparation                                                  *)
(* ===================================================================== *)

Section Scene.
Local Open Scope R_scope.

(** [SceneManager::DefineObjectMaterials].  Each local is assigned all four
    of its fields before it is pushed. *)
Definition DefineObjectMaterials : M unit :=
  let copper :=
    OBJECT_MATERIAL.make (Vec3 0.72 0.43 0.2) (Vec3 0.95 0.7 0.45)
      256 "copper" in
  materials_push_back copper ;;
  let plasticBlack :=
    OBJECT_MATERIAL.make (Vec3 0.06 0.06 0.06) (Vec3 0.2 0.2 0.2)
      8 "plasticBlack" in
  materials_push_back plasticBlack ;;
  let glass :=
    OBJECT_MATERIAL.make (Vec3 0.55 0.6 0.7) (Vec3 1.5 1.5 1.5)
      160 "glass" in
  materials_push_back glass ;;
  let floorMat :=
    OBJECT_MATERIAL.make (Vec3 0.22 0.22 0.24) (Vec3 0.85 0.85 0.9)
      128 "floorMat" in
  materials_push_back floorMat ;;
  let wallMat :=
    OBJECT_MATERIAL.make (Vec3 0.6 0.55 0.45) (Vec3 0.02 0.02 0.02)
      4 "wallMat" in
  materials_push_back wallMat ;;
  let zebraMat :=
    OBJECT_MATERIAL.make (Vec3 0.9 0.9 0.9) (Vec3 0.2 0.2 0.2)
      10 "zebraMat" in
  materials_push_back zebraMat ;;
  let mirrorMat :=
    OBJECT_MATERIAL.make (Vec3 0.75 0.75 0.75) (Vec3 1 1 1)
      256 "mirrorMat" in
  materials_push_back mirrorMat ;;
  let chevronMat :=
    OBJECT_MATERIAL.make (Vec3 0.85 0.85 0.85) (Vec3 0.15 0.15 0.15)
      12 "chevronMat" in
  materials_push_back chevronMat ;;
  let boxFurMat :=
    OBJECT_MATERIAL.make (Vec3 0.6 0.6 0.6) (Vec3 0.2 0.2 0.2)
      10 "boxFurMat" in
  materials_push_back boxFurMat.

(** [SceneManager::SetupSceneLights] *)
Definition SetupSceneLights : M unit :=
  shader_call (ShaderManager.setBoolValue "bUseLighting" true) ;;
  (* Directional Light  final boost for full-room glow *)
  shader_call (ShaderManager.setVec3Value "directionalLight.direction" (Vec3 (-0.2) (-1) (-0.3))) ;;
  shader_call (ShaderManager.setVec3Value "directionalLight.ambient" (Vec3 0.28 0.28 0.28)) ;;
  shader_call (ShaderManager.setVec3Value "directionalLight.diffuse" (Vec3 0.38 0.38 0.38)) ;;
  shader_call (ShaderManager.setVec3Value "directionalLight.specular" (Vec3 0.5 0.5 0.5)) ;;
  shader_call (ShaderManager.setBoolValue "directionalLight.bActive" true) ;;
  shader_call (ShaderManager.setVec3Value "pointLights[0].position" (Vec3 0 10.15 (-3.5))) ;;
  shader_call (ShaderManager.setVec3Value "pointLights[0].ambient" (Vec3 0.22 0.2 0.15)) ;;
  shader_call (ShaderManager.setVec3Value "pointLights[0].diffuse" (Vec3 1.08 0.95 0.78)) ;;
  shader_call (ShaderManager.setVec3Value "pointLights[0].specular" (Vec3 1.25 1.1 0.9)) ;;
  shader_call (ShaderManager.setFloatValue "pointLights[0].constant" 1) ;;
  shader_call (ShaderManager.setFloatValue "pointLights[0].linear" 0.11) ;;
  shader_call (ShaderManager.setFloatValue "pointLights[0].quadratic" 0.038) ;;
  shader_call (ShaderManager.setVec3Value "pointLights[1].position" (Vec3 0 5.5 (-1))) ;;
  shader_call (ShaderManager.setVec3Value "pointLights[1].ambient" (Vec3 0.2 0.2 0.2)) ;;
  shader_call (ShaderManager.setVec3Value "pointLights[1].diffuse" (Vec3 0.4 0.4 0.4)) ;;
  shader_call (ShaderManager.setVec3Value "pointLights[1].specular" (Vec3 0.2 0.2 0.2)) ;;
  shader_call (ShaderManager.setFloatValue "pointLights[1].constant" 1) ;;
  shader_call (ShaderManager.setFloatValue "pointLights[1].linear" 0.09) ;;
  shader_call (ShaderManager.setFloatValue "pointLights[1].quadratic" 0.032) ;;
  shader_call (ShaderManager.setBoolValue "pointLights[1].bActive" true) ;;
  shader_call (ShaderManager.setVec3Value "pointLights[2].position" (Vec3 0 10.9 (-3.5))) ;;
  shader_call (ShaderManager.setVec3Value "pointLights[2].ambient" (Vec3 0.12 0.1 0.08)) ;;
  shader_call (ShaderManager.setVec3Value "pointLights[2].diffuse" (Vec3 0.45 0.38 0.28)) ;;
  shader_call (ShaderManager.setVec3Value "pointLights[2].specular" (Vec3 0.55 0.5 0.4)) ;;
  shader_call (ShaderManager.setFloatValue "pointLights[2].constant" 1) ;;
  shader_call (ShaderManager.setFloatValue "pointLights[2].linear" 0.09) ;;
  shader_call (ShaderManager.setFloatValue "pointLights[2].quadratic" 0.032) ;;
  shader_call (ShaderManager.setBoolValue "pointLights[2].bActive" true) ;;
  shader_call (ShaderManager.setVec3Value "pointLights[3].position" (Vec3 (-1.2) 11.5 (-6))) ;;
  shader_call (ShaderManager.setVec3Value "pointLights[3].ambient" (Vec3 0.05 0.045 0.035)) ;;
  shader_call (ShaderManager.setVec3Value "pointLights[3].diffuse" (Vec3 0.15 0.13 0.11)) ;;
  shader_call (ShaderManager.setVec3Value "pointLights[3].specular" (Vec3 0.05 0.045 0.035)) ;;
  shader_call (ShaderManager.setFloatValue "pointLights[3].constant" 1) ;;
  shader_call (ShaderManager.setFloatValue "pointLights[3].linear" 0.09) ;;
  shader_call (ShaderManager.setFloatValue "pointLights[3].quadratic" 0.032) ;;
  shader_call (ShaderManager.setBoolValue "pointLights[3].bActive" true) ;;
  shader_call (ShaderManager.setVec3Value "pointLights[4].position" (Vec3 1.2 11.5 (-6))) ;;
  shader_call (ShaderManager.setVec3Value "pointLights[4].ambient" (Vec3 0.05 0.045 0.035)) ;;
  shader_call (ShaderManager.setVec3Value "pointLights[4].diffuse" (Vec3 0.15 0.13 0.11)) ;;
  shader_call (ShaderManager.setVec3Value "pointLights[4].specular" (Vec3 0.05 0.045 0.035)) ;;
  shader_call (ShaderManager.setFloatValue "pointLights[4].constant" 1) ;;
  shader_call (ShaderManager.setFloatValue "pointLights[4].linear" 0.09) ;;
  shader_call (ShaderManager.setFloatValue "pointLights[4].quadratic" 0.032) ;;
  shader_call (ShaderManager.setBoolValue "pointLights[4].bActive" true) ;;
  (* Disable unused light types *)
  shader_call (ShaderManager.setBoolValue "spotLight.bActive" false).

(** [SceneManager::LoadSceneTextures].  The results of [CreateGLTexture] are
    discarded. *)
Definition LoadSceneTextures : M unit :=
  glPixelStorei_UNPACK_ALIGNMENT 1%Z ;;
  CreateGLTexture "textures/agedrustic.jpg" "Copper" ;;
  CreateGLTexture "textures/frostedglass.jpg" "FrostedGlass" ;;
  CreateGLTexture "textures/DarkBrownEpoxyFloor.jpg" "Floor" ;;
  CreateGLTexture "textures/Wall_Plaster_Cream_Dark.jpg" "Wall" ;;
  CreateGLTexture "textures/Zebra_Top.jpg" "ZebraFur" ;;
  CreateGLTexture "textures/Mirror.jpg" "Mirror" ;;
  CreateGLTexture "textures/FeltChevron.jpg" "ChevronFur" ;;
  CreateGLTexture "textures/BoxFur.jpg" "BoxFur" ;;
  BindGLTextures.

(** [SceneManager::PrepareScene] *)
Definition PrepareScene : M unit :=
  LoadSceneTextures ;;
  DefineObjectMaterials ;;
  SetupSceneLights ;;
  load_mesh BoxMesh ;;
  load_mesh CylinderMesh ;;
  load_mesh SphereMesh ;;
  load_mesh PrismMesh ;;
  load_mesh PlaneMesh ;;
  load_mesh TorusMesh ;;
  load_mesh Pyramid3Mesh ;;
  load_mesh TaperedCylinderMesh ;;
  DefineObjectMaterials ;;
  SetupSceneLights.

(* ===================================================================== *)
(** ** Scene rendering                                                    *)
(* ===================================================================== *)

(** [SceneManager::RenderScene], from the reset of the render state for the
    opaque pass to the last opaque object (the switch cap). *)
Definition RenderScene_opaque : M unit :=
  glDisable GL_BLEND ;;
  glBlendFunc GL_SRC_ALPHA GL_ONE_MINUS_SRC_ALPHA ;;
  glDepthMask true ;;
  shader_call (ShaderManager.setBoolValue "bUseLighting" true) ;;
  glEnable GL_DEPTH_TEST ;;
  glDisable GL_CULL_FACE ;;
  let XrotationDegrees := 0 in
  let YrotationDegrees := 0 in
  let ZrotationDegrees := 0 in
  (* Floor plane *)
  let scaleXYZ := Vec3 8 1 6 in
  let positionXYZ := Vec3 0 0 0 in
  SetTransformations scaleXYZ 0 0 0 positionXYZ ;;
  SetShaderMaterial "floorMat" ;;
  SetShaderTexture "Floor" ;;
  SetTextureUVScale 3 3 ;;
  draw_mesh PlaneMesh ;;
  (* Backdrop wall *)
  let scaleXYZ := Vec3 8 1 12 in
  let positionXYZ := Vec3 0 12 (-6) in
  SetTransformations scaleXYZ (-90) 0 0 positionXYZ ;;
  SetShaderMaterial "wallMat" ;;
  SetShaderTexture "Wall" ;;
  SetTextureUVScale 2 2 ;;
  shader_call (ShaderManager.setVec4Value g_ColorValueName (Vec4 1 1 1 1)) ;;
  draw_mesh PlaneMesh ;;
  (* MIRROR FRAME: TOP ROW *)
  let scaleXYZ := Vec3 1.2 1.2 0.15 in
  (* Mirror Frame: Top Left Tile *)
  let positionXYZ := Vec3 (-1.8) 16 (-5.9) in
  SetTransformations scaleXYZ 0 0 (-90) positionXYZ ;;
  SetShaderMaterial "zebraMat" ;;
  SetShaderTexture "ZebraFur" ;;
  SetTextureUVScale 1 1 ;;
  draw_mesh BoxMesh ;;
  (* Mirror Frame: Top Mid-Left Tile *)
  let positionXYZ := Vec3 (-0.6) 16 (-5.9) in
  SetTransformations scaleXYZ 0 0 0 positionXYZ ;;
  SetShaderMaterial "zebraMat" ;;
  SetShaderTexture "ZebraFur" ;;
  SetTextureUVScale 1 1 ;;
  draw_mesh BoxMesh ;;
  (* Mirror Frame: Top Mid-Right Tile *)
  let positionXYZ := Vec3 0.6 16 (-5.9) in
  SetTransformations scaleXYZ 0 0 (-90) positionXYZ ;;
  SetShaderMaterial "zebraMat" ;;
  SetShaderTexture "ZebraFur" ;;
  SetTextureUVScale 1 1 ;;
  draw_mesh BoxMesh ;;
  (* Mirror Frame: Top Right Tile *)
  let positionXYZ := Vec3 1.8 16 (-5.9) in
  SetTransformations scaleXYZ 0 0 0 positionXYZ ;;
  SetShaderMaterial "zebraMat" ;;
  SetShaderTexture "ZebraFur" ;;
  SetTextureUVScale 1 1 ;;
  draw_mesh BoxMesh ;;
  (* MIRROR FRAME: LEFT COLUMN *)
  (* Mirror Frame: Left Tile 1 *)
  let scaleXYZ := Vec3 1.2 1.2 0.15 in
  let positionXYZ := Vec3 (-1.8) 14.8 (-5.9) in
  SetTransformations scaleXYZ 0 0 180 positionXYZ ;;
  SetShaderMaterial "zebraMat" ;;
  SetShaderTexture "ZebraFur" ;;
  SetTextureUVScale 1 1 ;;
  draw_mesh BoxMesh ;;
  (* Mirror Frame: Left Tile 2 *)
  let positionXYZ := Vec3 (-1.8) 13.6 (-5.9) in
  SetTransformations scaleXYZ 0 0 270 positionXYZ ;;
  SetShaderMaterial "zebraMat" ;;
  SetShaderTexture "ZebraFur" ;;
  SetTextureUVScale 1 1 ;;
  draw_mesh BoxMesh ;;
  (* Mirror Frame: Left Tile 3 *)
  let positionXYZ := Vec3 (-1.8) 12.4 (-5.9) in
  SetTransformations scaleXYZ 0 0 180 positionXYZ ;;
  SetShaderMaterial "zebraMat" ;;
  SetShaderTexture "ZebraFur" ;;
  SetTextureUVScale 1 1 ;;
  draw_mesh BoxMesh ;;
  (* MIRROR FRAME: RIGHT COLUMN *)
  (* Mirror Frame: Right Tile 1 *)
  let positionXYZ := Vec3 1.8 14.8 (-5.9) in
  SetTransformations scaleXYZ 0 0 90 positionXYZ ;;
  SetShaderMaterial "zebraMat" ;;
  SetShaderTexture "ZebraFur" ;;
  SetTextureUVScale 1 1 ;;
  draw_mesh BoxMesh ;;
  (* Mirror Frame: Right Tile 2 *)
  let positionXYZ := Vec3 1.8 13.6 (-5.9) in
  SetTransformations scaleXYZ 0 0 0 positionXYZ ;;
  SetShaderMaterial "zebraMat" ;;
  SetShaderTexture "ZebraFur" ;;
  SetTextureUVScale 1 1 ;;
  draw_mesh BoxMesh ;;
  (* Mirror Frame: Right Tile 3 *)
  let positionXYZ := Vec3 1.8 12.4 (-5.9) in
  SetTransformations scaleXYZ 0 0 90 positionXYZ ;;
  SetShaderMaterial "zebraMat" ;;
  SetShaderTexture "ZebraFur" ;;
  SetTextureUVScale 1 1 ;;
  draw_mesh BoxMesh ;;
  (* MIRROR FRAME: BOTTOM ROW *)
  (* Mirror Frame: Bottom Left Tile *)
  let positionXYZ := Vec3 (-0.6) 12.4 (-5.9) in
  SetTransformations scaleXYZ 0 0 90 positionXYZ ;;
  SetShaderMaterial "zebraMat" ;;
  SetShaderTexture "ZebraFur" ;;
  SetTextureUVScale 1 1 ;;
  draw_mesh BoxMesh ;;
  (* Mirror Frame: Bottom Right Tile *)
  let positionXYZ := Vec3 0.6 12.4 (-5.9) in
  SetTransformations scaleXYZ 0 0 180 positionXYZ ;;
  SetShaderMaterial "zebraMat" ;;
  SetShaderTexture "ZebraFur" ;;
  SetTextureUVScale 1 1 ;;
  draw_mesh BoxMesh ;;
  (* MIRROR: Inner Reflective Surface *)
  let scaleXYZ := Vec3 2.4 2.4 0.1 in
  let positionXYZ := Vec3 0 14.2 (-5.92) in
  SetTransformations scaleXYZ 0 0 0 positionXYZ ;;
  SetShaderMaterial "mirrorMat" ;;
  SetShaderTexture "Mirror" ;;
  SetTextureUVScale 1 1 ;;
  draw_mesh BoxMesh ;;
  (* CABINET: SUPPORT PEGS *)
  let scaleXYZ := Vec3 0.4 1 0.4 in
  (* Front Left Peg *)
  let positionXYZ := Vec3 (-2.8) 0.5 (-0.7) in
  SetTransformations scaleXYZ 0 0 0 positionXYZ ;;
  SetShaderColor 0.05 0.05 0.05 1 ;;
  draw_mesh BoxMesh ;;
  (* Front Right Peg *)
  let positionXYZ := Vec3 2.8 0.5 (-0.7) in
  SetTransformations scaleXYZ 0 0 0 positionXYZ ;;
  SetShaderColor 0.05 0.05 0.05 1 ;;
  draw_mesh BoxMesh ;;
  (* Back Left Peg *)
  let positionXYZ := Vec3 (-2.8) 0.5 (-5.3) in
  SetTransformations scaleXYZ 0 0 0 positionXYZ ;;
  SetShaderColor 0.05 0.05 0.05 1 ;;
  draw_mesh BoxMesh ;;
  (* Back Right Peg *)
  let positionXYZ := Vec3 2.8 0.5 (-5.3) in
  SetTransformations scaleXYZ 0 0 0 positionXYZ ;;
  SetShaderColor 0.05 0.05 0.05 1 ;;
  draw_mesh BoxMesh ;;
  (* CABINET: MAIN BODY *)
  let scaleXYZ := Vec3 6 4.5 5 in
  let positionXYZ := Vec3 0 3.25 (-3) in
  SetTransformations scaleXYZ 0 0 0 positionXYZ ;;
  SetShaderMaterial "mirrorMat" ;;
  SetShaderTexture "Mirror" ;;
  SetTextureUVScale 1 1 ;;
  draw_mesh BoxMesh ;;
  (* CABINET: TOP MIRROR PANEL *)
  let scaleXYZ := Vec3 5.6 0.325 4.6 in
  let positionXYZ := Vec3 0 5.66 (-3) in
  SetTransformations scaleXYZ 0 0 0 positionXYZ ;;
  SetShaderMaterial "mirrorMat" ;;
  SetShaderTexture "Mirror" ;;
  SetTextureUVScale 1 1 ;;
  draw_mesh BoxMesh ;;
  (* CABINET: TOP OVERHANG STRIPS *)
  (* Front Overhang Strip *)
  let scaleXYZ := Vec3 6.4 0.325 0.5 in
  let positionXYZ := Vec3 0 5.66 (-0.445) in
  SetTransformations scaleXYZ 0 0 0 positionXYZ ;;
  SetShaderColor 0.05 0.05 0.05 1 ;;
  draw_mesh BoxMesh ;;
  (* Back Overhang Strip *)
  let scaleXYZ := Vec3 6.4 0.325 0.5 in
  let positionXYZ := Vec3 0 5.66 (-5.55) in
  SetTransformations scaleXYZ 0 0 0 positionXYZ ;;
  SetShaderColor 0.05 0.05 0.05 1 ;;
  draw_mesh BoxMesh ;;
  (* Left Overhang Strip *)
  let scaleXYZ := Vec3 0.41 0.325 4.7 in
  let positionXYZ := Vec3 (-3) 5.66 (-3) in
  SetTransformations scaleXYZ 0 0 0 positionXYZ ;;
  SetShaderColor 0.05 0.05 0.05 1 ;;
  draw_mesh BoxMesh ;;
  (* Right Overhang Strip *)
  let positionXYZ := Vec3 3 5.66 (-3) in
  SetTransformations scaleXYZ 0 0 0 positionXYZ ;;
  SetShaderColor 0.05 0.05 0.05 1 ;;
  draw_mesh BoxMesh ;;
  (* CABINET: FRONT EDGE PANELS THIN BLACK *)
  (* Left Edge Strip *)
  let scaleXYZ := Vec3 0.2 4.5 0.5 in
  let positionXYZ := Vec3 (-3) 3.25 (-0.65) in
  SetTransformations scaleXYZ 0 0 0 positionXYZ ;;
  SetShaderColor 0.05 0.05 0.05 1 ;;
  draw_mesh BoxMesh ;;
  (* Right Edge Strip *)
  let positionXYZ := Vec3 3 3.25 (-0.65) in
  SetTransformations scaleXYZ 0 0 0 positionXYZ ;;
  SetShaderColor 0.05 0.05 0.05 1 ;;
  draw_mesh BoxMesh ;;
  (* Bottom Edge Strip *)
  let scaleXYZ := Vec3 6 0.2 0.1 in
  let positionXYZ := Vec3 0 1.1 (-0.45) in
  SetTransformations scaleXYZ 0 0 0 positionXYZ ;;
  SetShaderColor 0.05 0.05 0.05 1 ;;
  draw_mesh BoxMesh ;;
  (* CABINET: RIGHT SIDE EDGE STRIPS *)
  (* Right Top Edge Strip *)
  let scaleXYZ := Vec3 0.2 0.5 4.2 in
  let positionXYZ := Vec3 3 5.3 (-3) in
  SetTransformations scaleXYZ 0 0 0 positionXYZ ;;
  SetShaderColor 0.05 0.05 0.05 1 ;;
  draw_mesh BoxMesh ;;
  (* Right Back Edge Strip *)
  let scaleXYZ := Vec3 0.2 4.5 0.5 in
  let positionXYZ := Vec3 3 3.25 (-5.35) in
  SetTransformations scaleXYZ 0 0 0 positionXYZ ;;
  SetShaderColor 0.05 0.05 0.05 1 ;;
  draw_mesh BoxMesh ;;
  (* Right Bottom Strip *)
  let scaleXYZ := Vec3 0.2 0.5 4.2 in
  let positionXYZ := Vec3 3 1.25 (-3) in
  SetTransformations scaleXYZ 0 0 0 positionXYZ ;;
  SetShaderColor 0.05 0.05 0.05 1 ;;
  draw_mesh BoxMesh ;;
  (* CABINET: LEFT SIDE EDGE STRIPS *)
  (* Left Top Edge Strip *)
  let scaleXYZ := Vec3 0.2 0.5 4.2 in
  let positionXYZ := Vec3 (-3) 5.3 (-3) in
  SetTransformations scaleXYZ 0 0 0 positionXYZ ;;
  SetShaderColor 0.05 0.05 0.05 1 ;;
  draw_mesh BoxMesh ;;
  (* Left Back Edge Strip *)
  let scaleXYZ := Vec3 0.2 4.5 0.5 in
  let positionXYZ := Vec3 (-3) 3.25 (-5.35) in
  SetTransformations scaleXYZ 0 0 0 positionXYZ ;;
  SetShaderColor 0.05 0.05 0.05 1 ;;
  draw_mesh BoxMesh ;;
  (* Left Bottom Strip *)
  let scaleXYZ := Vec3 0.2 0.5 4.2 in
  let positionXYZ := Vec3 (-3) 1.25 (-3) in
  SetTransformations scaleXYZ 0 0 0 positionXYZ ;;
  SetShaderColor 0.05 0.05 0.05 1 ;;
  draw_mesh BoxMesh ;;
  (* CABINET: FRONT VERTICAL FRAME STRIPS *)
  (* Front Left Door Frame Strip *)
  let scaleXYZ := Vec3 0.2 4.3 0.1 in
  let positionXYZ := Vec3 (-2.2) 3.35 (-0.45) in
  SetTransformations scaleXYZ 0 0 0 positionXYZ ;;
  SetShaderColor 0.05 0.05 0.05 1 ;;
  draw_mesh BoxMesh ;;
  (* Front Right Door Frame Strip *)
  let positionXYZ := Vec3 2.2 3.35 (-0.45) in
  SetTransformations scaleXYZ 0 0 0 positionXYZ ;;
  SetShaderColor 0.05 0.05 0.05 1 ;;
  draw_mesh BoxMesh ;;
  (* CABINET: FRONT HORIZONTAL FRAME STRIPS *)
  (* Top Door Frame Strip *)
  let scaleXYZ := Vec3 4.2 0.2 0.1 in
  let positionXYZ := Vec3 0 5.1 (-0.45) in
  SetTransformations scaleXYZ 0 0 0 positionXYZ ;;
  SetShaderColor 0.05 0.05 0.05 1 ;;
  draw_mesh BoxMesh ;;
  (* Bottom Door Frame Strip *)
  let positionXYZ := Vec3 0 1.6 (-0.45) in
  SetTransformations scaleXYZ 0 0 0 positionXYZ ;;
  SetShaderColor 0.05 0.05 0.05 1 ;;
  draw_mesh BoxMesh ;;
  (* CABINET: DOOR OUTER TRIM PIECES *)
  (* Left Door - Left Trim *)
  let scaleXYZ := Vec3 0.3 2.7 0.1 in
  let positionXYZ := Vec3 (-2) 3.35 (-0.45) in
  SetTransformations scaleXYZ 0 0 0 positionXYZ ;;
  SetShaderColor 0.05 0.05 0.05 1 ;;
  draw_mesh BoxMesh ;;
  (* Left Door - Right Trim *)
  let positionXYZ := Vec3 (-0.1) 3.35 (-0.45) in
  SetTransformations scaleXYZ 0 0 0 positionXYZ ;;
  SetShaderColor 0.05 0.05 0.05 1 ;;
  draw_mesh BoxMesh ;;
  (* Left Door - Top Trim *)
  let scaleXYZ := Vec3 2.2 0.3 0.1 in
  let positionXYZ := Vec3 (-1.1) 4.84 (-0.45) in
  SetTransformations scaleXYZ 0 0 0 positionXYZ ;;
  SetShaderColor 0.05 0.05 0.05 1 ;;
  draw_mesh BoxMesh ;;
  (* Left Door - Bottom Trim *)
  let positionXYZ := Vec3 (-1.1) 1.86 (-0.45) in
  SetTransformations scaleXYZ 0 0 0 positionXYZ ;;
  SetShaderColor 0.05 0.05 0.05 1 ;;
  draw_mesh BoxMesh ;;
  (* Right Door - Left Trim *)
  let scaleXYZ := Vec3 0.3 2.7 0.1 in
  let positionXYZ := Vec3 0.1 3.35 (-0.45) in
  SetTransformations scaleXYZ 0 0 0 positionXYZ ;;
  SetShaderColor 0.05 0.05 0.05 1 ;;
  draw_mesh BoxMesh ;;
  (* Right Door - Right Trim *)
  let positionXYZ := Vec3 2 3.35 (-0.45) in
  SetTransformations scaleXYZ 0 0 0 positionXYZ ;;
  SetShaderColor 0.05 0.05 0.05 1 ;;
  draw_mesh BoxMesh ;;
  (* Right Door - Top Trim *)
  let scaleXYZ := Vec3 2.2 0.3 0.1 in
  let positionXYZ := Vec3 1.1 4.84 (-0.45) in
  SetTransformations scaleXYZ 0 0 0 positionXYZ ;;
  SetShaderColor 0.05 0.05 0.05 1 ;;
  draw_mesh BoxMesh ;;
  (* Right Door - Bottom Trim *)
  let positionXYZ := Vec3 1.1 1.86 (-0.45) in
  SetTransformations scaleXYZ 0 0 0 positionXYZ ;;
  SetShaderColor 0.05 0.05 0.05 1 ;;
  draw_mesh BoxMesh ;;
  (* CABINET: DOOR RING *)
  (* Left Door Ring Handle *)
  let scaleXYZ := Vec3 0.4 0.4 0.25 in
  let positionXYZ := Vec3 (-1.1) 3.35 (-0.45) in
  SetTransformations scaleXYZ 0 0 0 positionXYZ ;;
  SetShaderColor 0.05 0.05 0.05 1 ;;
  draw_mesh TorusMesh ;;
  (* Right Door Ring *)
  let positionXYZ := Vec3 1.1 3.35 (-0.45) in
  SetTransformations scaleXYZ 0 0 0 positionXYZ ;;
  SetShaderColor 0.05 0.05 0.05 1 ;;
  draw_mesh TorusMesh ;;
  (* CABINET: DOOR HANDLE CONNECTORS *)
  (* Left Door - Vertical Connector Top *)
  let scaleXYZ := Vec3 0.2 1.1 0.1 in
  let positionXYZ := Vec3 (-1.1) 4.3 (-0.45) in
  SetTransformations scaleXYZ 0 0 0 positionXYZ ;;
  SetShaderColor 0.05 0.05 0.05 1 ;;
  draw_mesh BoxMesh ;;
  (* Left Door - Vertical Connector Bottom *)
  let positionXYZ := Vec3 (-1.1) 2.4 (-0.45) in
  SetTransformations scaleXYZ 0 0 0 positionXYZ ;;
  SetShaderColor 0.05 0.05 0.05 1 ;;
  draw_mesh BoxMesh ;;
  (* Left Door - Horizontal Connector Left *)
  let scaleXYZ := Vec3 0.4 0.2 0.1 in
  let positionXYZ := Vec3 (-1.75) 3.35 (-0.45) in
  SetTransformations scaleXYZ 0 0 0 positionXYZ ;;
  SetShaderColor 0.05 0.05 0.05 1 ;;
  draw_mesh BoxMesh ;;
  (* Left Door - Horizontal Connector Right *)
  let positionXYZ := Vec3 (-0.45) 3.35 (-0.45) in
  SetTransformations scaleXYZ 0 0 0 positionXYZ ;;
  SetShaderColor 0.05 0.05 0.05 1 ;;
  draw_mesh BoxMesh ;;
  (* Right Door - Vertical Connector Top *)
  let scaleXYZ := Vec3 0.2 1.1 0.1 in
  let positionXYZ := Vec3 1.1 4.3 (-0.45) in
  SetTransformations scaleXYZ 0 0 0 positionXYZ ;;
  SetShaderColor 0.05 0.05 0.05 1 ;;
  draw_mesh BoxMesh ;;
  (* Right Door - Vertical Connector Bottom *)
  let positionXYZ := Vec3 1.1 2.4 (-0.45) in
  SetTransformations scaleXYZ 0 0 0 positionXYZ ;;
  SetShaderColor 0.05 0.05 0.05 1 ;;
  draw_mesh BoxMesh ;;
  (* Right Door - Horizontal Connector Right *)
  let scaleXYZ := Vec3 0.4 0.2 0.1 in
  let positionXYZ := Vec3 1.75 3.35 (-0.45) in
  SetTransformations scaleXYZ 0 0 0 positionXYZ ;;
  SetShaderColor 0.05 0.05 0.05 1 ;;
  draw_mesh BoxMesh ;;
  (* Right Door - Horizontal Connector Left *)
  let positionXYZ := Vec3 0.45 3.35 (-0.45) in
  SetTransformations scaleXYZ 0 0 0 positionXYZ ;;
  SetShaderColor 0.05 0.05 0.05 1 ;;
  draw_mesh BoxMesh ;;
  (* Left Door - Handle Base Plate Stacked Pyramids *)
  (* Upper Pyramid Flipped *)
  let scaleXYZ := Vec3 0.15 0.15 0.15 in
  let positionXYZ := Vec3 (-0.125) 3.3 (-0.435) in
  SetTransformations scaleXYZ 20 0 180 positionXYZ ;;
  SetShaderColor 0.85 0.65 0.2 1 ;;
  draw_mesh Pyramid3Mesh ;;
  (* Lower Pyramid *)
  let scaleXYZ := Vec3 0.15 0.15 0.15 in
  let positionXYZ := Vec3 (-0.125) 3.35 (-0.435) in
  SetTransformations scaleXYZ 20 0 0 positionXYZ ;;
  SetShaderColor 0.85 0.65 0.2 1 ;;
  draw_mesh Pyramid3Mesh ;;
  (* Right Door - Handle Base Plate Stacked Pyramids *)
  (* Upper Pyramid Flipped - RIGHT *)
  let scaleXYZ := Vec3 0.15 0.15 0.15 in
  let positionXYZ := Vec3 0.125 3.3 (-0.435) in
  SetTransformations scaleXYZ 20 0 180 positionXYZ ;;
  SetShaderColor 0.85 0.65 0.2 1 ;;
  draw_mesh Pyramid3Mesh ;;
  (* Lower Pyramid - RIGHT *)
  let scaleXYZ := Vec3 0.15 0.15 0.15 in
  let positionXYZ := Vec3 0.125 3.35 (-0.435) in
  SetTransformations scaleXYZ 20 0 0 positionXYZ ;;
  SetShaderColor 0.85 0.65 0.2 1 ;;
  draw_mesh Pyramid3Mesh ;;
  (* Gold Spheres Ornate - LEFT Base Plate *)
  let scaleXYZ := Vec3 0.02 0.02 0.02 in
  SetShaderColor 0.85 0.65 0.2 1 ;;
  let positionXYZ := Vec3 (-0.185) 3.39 (-0.4) in
  SetTransformations scaleXYZ 0 0 0 positionXYZ ;;
  draw_mesh SphereMesh ;;
  let positionXYZ := Vec3 (-0.06) 3.39 (-0.4) in
  SetTransformations scaleXYZ 0 0 0 positionXYZ ;;
  draw_mesh SphereMesh ;;
  let positionXYZ := Vec3 (-0.19) 3.26 (-0.4) in
  SetTransformations scaleXYZ 0 0 0 positionXYZ ;;
  draw_mesh SphereMesh ;;
  let positionXYZ := Vec3 (-0.06) 3.26 (-0.4) in
  SetTransformations scaleXYZ 0 0 0 positionXYZ ;;
  draw_mesh SphereMesh ;;
  (* Gold Spheres Ornate - RIGHT Base Plate *)
  let scaleXYZ := Vec3 0.02 0.02 0.02 in
  SetShaderColor 0.85 0.65 0.2 1 ;;
  let positionXYZ := Vec3 0.06 3.39 (-0.4) in
  SetTransformations scaleXYZ 0 0 0 positionXYZ ;;
  draw_mesh SphereMesh ;;
  let positionXYZ := Vec3 0.185 3.39 (-0.4) in
  SetTransformations scaleXYZ 0 0 0 positionXYZ ;;
  draw_mesh SphereMesh ;;
  let positionXYZ := Vec3 0.06 3.26 (-0.4) in
  SetTransformations scaleXYZ 0 0 0 positionXYZ ;;
  draw_mesh SphereMesh ;;
  let positionXYZ := Vec3 0.185 3.26 (-0.4) in
  SetTransformations scaleXYZ 0 0 0 positionXYZ ;;
  draw_mesh SphereMesh ;;
  (* CABINET HANDLE: LEFT CLASP ARMS *)
  (* Arm Cylinder Left Side *)
  let scaleXYZ := Vec3 0.005 0.03 0.005 in
  let positionXYZ := Vec3 (-0.13) 3.33 (-0.39) in
  SetTransformations scaleXYZ 90 0 0 positionXYZ ;;
  SetShaderColor 0.85 0.65 0.2 1 ;;
  draw_mesh CylinderMesh ;;
  (* Left Torus End Cap Left Side *)
  let scaleXYZ := Vec3 0.005 0.005 0.005 in
  let positionXYZ := Vec3 (-0.13) 3.33 (-0.36) in
  SetTransformations scaleXYZ 180 90 0 positionXYZ ;;
  SetShaderColor 0.85 0.65 0.2 1 ;;
  draw_mesh TorusMesh ;;
  (* Inner Sphere Connector Left Side *)
  let scaleXYZ := Vec3 0.0055 0.0055 0.0055 in
  let positionXYZ := Vec3 (-0.13) 3.33 (-0.36) in
  SetTransformations scaleXYZ 0 0 0 positionXYZ ;;
  SetShaderColor 0.85 0.65 0.2 1 ;;
  draw_mesh SphereMesh ;;
  (* Arm Cylinder Right Side *)
  let scaleXYZ := Vec3 0.005 0.03 0.005 in
  let positionXYZ := Vec3 (-0.12) 3.33 (-0.39) in
  SetTransformations scaleXYZ 90 0 0 positionXYZ ;;
  SetShaderColor 0.85 0.65 0.2 1 ;;
  draw_mesh CylinderMesh ;;
  (* Right Torus End Cap Right Side *)
  let scaleXYZ := Vec3 0.005 0.005 0.005 in
  let positionXYZ := Vec3 (-0.12) 3.33 (-0.36) in
  SetTransformations scaleXYZ 180 90 0 positionXYZ ;;
  SetShaderColor 0.85 0.65 0.2 1 ;;
  draw_mesh TorusMesh ;;
  (* Inner Sphere Connector Right Side *)
  let scaleXYZ := Vec3 0.0055 0.0055 0.0055 in
  let positionXYZ := Vec3 (-0.12) 3.33 (-0.36) in
  SetTransformations scaleXYZ 0 0 0 positionXYZ ;;
  SetShaderColor 0.85 0.65 0.2 1 ;;
  draw_mesh SphereMesh ;;
  (* Hanging Torus Between Clasps *)
  let scaleXYZ := Vec3 0.006 0.006 0.006 in
  let positionXYZ := Vec3 (-0.125) 3.328 (-0.36) in
  SetTransformations scaleXYZ 180 90 0 positionXYZ ;;
  SetShaderColor 0.85 0.65 0.2 1 ;;
  draw_mesh TorusMesh ;;
  (* Hanging Handle  Flattened Tapered Cylinder *)
  let scaleXYZ := Vec3 0.02 0.11 0.000001 in
  let positionXYZ := Vec3 (-0.125) 3.215 (-0.36) in
  SetTransformations scaleXYZ 0 0 0 positionXYZ ;;
  SetShaderColor 0.85 0.65 0.2 1 ;;
  draw_mesh TaperedCylinderMesh ;;
  (* Bottom Bar Horizontal Cylinder *)
  let scaleXYZ := Vec3 0.004 0.025 0.004 in
  let positionXYZ := Vec3 (-0.112) 3.22 (-0.356) in
  SetTransformations scaleXYZ 0 0 90 positionXYZ ;;
  SetShaderColor 0.85 0.65 0.2 1 ;;
  draw_mesh CylinderMesh ;;
  (* Left End Cap Sphere *)
  let scaleXYZ := Vec3 0.0045 0.0045 0.0045 in
  let positionXYZ := Vec3 (-0.138) 3.22 (-0.356) in
  SetTransformations scaleXYZ 0 0 0 positionXYZ ;;
  SetShaderColor 0.85 0.65 0.2 1 ;;
  draw_mesh SphereMesh ;;
  (* Right End Cap Sphere *)
  let scaleXYZ := Vec3 0.0045 0.0045 0.0045 in
  let positionXYZ := Vec3 (-0.114) 3.22 (-0.356) in
  SetTransformations scaleXYZ 0 0 0 positionXYZ ;;
  SetShaderColor 0.85 0.65 0.2 1 ;;
  draw_mesh SphereMesh ;;
  (* CABINET HANDLE: RIGHT CLASP ARMS *)
  (* Arm Cylinder Right Side *)
  let scaleXYZ := Vec3 0.005 0.03 0.005 in
  let positionXYZ := Vec3 0.13 3.33 (-0.39) in
  SetTransformations scaleXYZ 90 0 0 positionXYZ ;;
  SetShaderColor 0.85 0.65 0.2 1 ;;
  draw_mesh CylinderMesh ;;
  (* Right Torus End Cap Right Side *)
  let scaleXYZ := Vec3 0.005 0.005 0.005 in
  let positionXYZ := Vec3 0.13 3.33 (-0.36) in
  SetTransformations scaleXYZ 180 90 0 positionXYZ ;;
  SetShaderColor 0.85 0.65 0.2 1 ;;
  draw_mesh TorusMesh ;;
  (* Inner Sphere Connector Right Side *)
  let scaleXYZ := Vec3 0.0055 0.0055 0.0055 in
  let positionXYZ := Vec3 0.13 3.33 (-0.36) in
  SetTransformations scaleXYZ 0 0 0 positionXYZ ;;
  SetShaderColor 0.85 0.65 0.2 1 ;;
  draw_mesh SphereMesh ;;
  (* Arm Cylinder Left Side *)
  let scaleXYZ := Vec3 0.005 0.03 0.005 in
  let positionXYZ := Vec3 0.12 3.33 (-0.39) in
  SetTransformations scaleXYZ 90 0 0 positionXYZ ;;
  SetShaderColor 0.85 0.65 0.2 1 ;;
  draw_mesh CylinderMesh ;;
  (* Left Torus End Cap Left Side *)
  let scaleXYZ := Vec3 0.005 0.005 0.005 in
  let positionXYZ := Vec3 0.12 3.33 (-0.36) in
  SetTransformations scaleXYZ 180 90 0 positionXYZ ;;
  SetShaderColor 0.85 0.65 0.2 1 ;;
  draw_mesh TorusMesh ;;
  (* Inner Sphere Connector Left Side *)
  let scaleXYZ := Vec3 0.0055 0.0055 0.0055 in
  let positionXYZ := Vec3 0.12 3.33 (-0.36) in
  SetTransformations scaleXYZ 0 0 0 positionXYZ ;;
  SetShaderColor 0.85 0.65 0.2 1 ;;
  draw_mesh SphereMesh ;;
  (* Hanging Torus Between Clasps *)
  let scaleXYZ := Vec3 0.006 0.006 0.006 in
  let positionXYZ := Vec3 0.125 3.328 (-0.36) in
  SetTransformations scaleXYZ 180 90 0 positionXYZ ;;
  SetShaderColor 0.85 0.65 0.2 1 ;;
  draw_mesh TorusMesh ;;
  (* Hanging Handle  Flattened Tapered Cylinder *)
  let scaleXYZ := Vec3 0.02 0.11 0.000001 in
  let positionXYZ := Vec3 0.125 3.215 (-0.36) in
  SetTransformations scaleXYZ 0 0 0 positionXYZ ;;
  SetShaderColor 0.85 0.65 0.2 1 ;;
  draw_mesh TaperedCylinderMesh ;;
  (* Bottom Bar Horizontal Cylinder *)
  let scaleXYZ := Vec3 0.004 0.025 0.004 in
  let positionXYZ := Vec3 0.14 3.22 (-0.356) in
  SetTransformations scaleXYZ 0 0 90 positionXYZ ;;
  SetShaderColor 0.85 0.65 0.2 1 ;;
  draw_mesh CylinderMesh ;;
  (* Left End Cap Sphere *)
  let scaleXYZ := Vec3 0.0045 0.0045 0.0045 in
  let positionXYZ := Vec3 0.138 3.22 (-0.356) in
  SetTransformations scaleXYZ 0 0 0 positionXYZ ;;
  SetShaderColor 0.85 0.65 0.2 1 ;;
  draw_mesh SphereMesh ;;
  (* Right End Cap Sphere *)
  let scaleXYZ := Vec3 0.0045 0.0045 0.0045 in
  let positionXYZ := Vec3 0.114 3.22 (-0.356) in
  SetTransformations scaleXYZ 0 0 0 positionXYZ ;;
  SetShaderColor 0.85 0.65 0.2 1 ;;
  draw_mesh SphereMesh ;;
  (* Decorative Box *)
  (* BOX BASE Chevron Sides *)
  let scaleXYZ := Vec3 3.6 1.3 3 in
  let positionXYZ := Vec3 0 6.45 (-3.5) in
  SetTransformations scaleXYZ 0 0 0 positionXYZ ;;
  SetShaderMaterial "chevronMat" ;;
  SetShaderTexture "ChevronFur" ;;
  SetTextureUVScale 2 1 ;;
  draw_mesh BoxMesh ;;
  (* BOX LID Flat Fur Top *)
  let scaleXYZ := Vec3 3.6 0.3 3 in
  let positionXYZ := Vec3 0 7.25 (-3.5) in
  SetTransformations scaleXYZ 0 0 0 positionXYZ ;;
  SetShaderMaterial "boxFurMat" ;;
  SetShaderTexture "BoxFur" ;;
  SetTextureUVScale 1 1 ;;
  draw_mesh BoxMesh ;;
  (* LAMP BASE *)
  (* Cylinder 1: Base layer *)
  let scaleXYZ := Vec3 1.15 0.1 1.15 in
  let positionXYZ := Vec3 0 7.35 (-3.5) in
  SetTransformations scaleXYZ 0 0 0 positionXYZ ;;
  SetShaderMaterial "copper" ;;
  SetShaderTexture "Copper" ;;
  SetTextureUVScale 1.6 1.6 ;;
  shader_call (ShaderManager.setVec4Value g_ColorValueName (Vec4 1 1 1 1)) ;;
  draw_mesh CylinderMesh ;;
  (* Cylinder 2: Main platform *)
  let scaleXYZ := Vec3 1.1 0.3 1.1 in
  let positionXYZ := Vec3 0 7.41 (-3.5) in
  SetTransformations scaleXYZ 0 0 0 positionXYZ ;;
  SetShaderMaterial "copper" ;;
  SetShaderTexture "Copper" ;;
  SetTextureUVScale 1.4 1.4 ;;
  shader_call (ShaderManager.setVec4Value g_ColorValueName (Vec4 1 1 1 1)) ;;
  draw_mesh CylinderMesh ;;
  (* Cylinder 3: Upper platform *)
  let scaleXYZ := Vec3 0.9 0.1 0.9 in
  let positionXYZ := Vec3 0 7.71 (-3.5) in
  SetTransformations scaleXYZ 0 0 0 positionXYZ ;;
  SetShaderMaterial "copper" ;;
  SetShaderTexture "Copper" ;;
  SetTextureUVScale 1.7 1.7 ;;
  shader_call (ShaderManager.setVec4Value g_ColorValueName (Vec4 1 1 1 1)) ;;
  draw_mesh CylinderMesh ;;
  (* Pipe base *)
  let scaleXYZ := Vec3 0.625 0.1 0.625 in
  let positionXYZ := Vec3 0 7.8 (-3.5) in
  SetTransformations scaleXYZ 0 0 0 positionXYZ ;;
  SetShaderMaterial "copper" ;;
  SetShaderTexture "Copper" ;;
  SetTextureUVScale 1.8 1.8 ;;
  shader_call (ShaderManager.setVec4Value g_ColorValueName (Vec4 1 1 1 1)) ;;
  draw_mesh CylinderMesh ;;
  (* Torus connector bottom *)
  let scaleXYZ := Vec3 0.55 0.55 0.55 in
  let positionXYZ := Vec3 0 7.94 (-3.5) in
  SetTransformations scaleXYZ 90 0 0 positionXYZ ;;
  SetShaderMaterial "copper" ;;
  SetShaderTexture "Copper" ;;
  SetTextureUVScale 1.5 1.5 ;;
  shader_call (ShaderManager.setVec4Value g_ColorValueName (Vec4 1 1 1 1)) ;;
  draw_mesh TorusMesh ;;
  (* Segment 2: Thin ring *)
  let scaleXYZ := Vec3 0.56 0.05 0.56 in
  let positionXYZ := Vec3 0 8.05 (-3.5) in
  SetTransformations scaleXYZ 0 0 0 positionXYZ ;;
  SetShaderMaterial "copper" ;;
  SetShaderTexture "Copper" ;;
  SetTextureUVScale 2 2 ;;
  shader_call (ShaderManager.setVec4Value g_ColorValueName (Vec4 1 1 1 1)) ;;
  draw_mesh CylinderMesh ;;
  (* Segment 3: Narrow section *)
  let scaleXYZ := Vec3 0.4 0.2 0.4 in
  let positionXYZ := Vec3 0 8.1 (-3.5) in
  SetTransformations scaleXYZ 0 0 0 positionXYZ ;;
  SetShaderMaterial "copper" ;;
  SetShaderTexture "Copper" ;;
  SetTextureUVScale 1.9 1.9 ;;
  shader_call (ShaderManager.setVec4Value g_ColorValueName (Vec4 1 1 1 1)) ;;
  draw_mesh CylinderMesh ;;
  (* Segment 4: Mid-section bulge *)
  let scaleXYZ := Vec3 0.5 0.2 0.5 in
  let positionXYZ := Vec3 0 8.3 (-3.5) in
  SetTransformations scaleXYZ 0 0 0 positionXYZ ;;
  SetShaderMaterial "copper" ;;
  SetShaderTexture "Copper" ;;
  SetTextureUVScale 1.6 1.6 ;;
  shader_call (ShaderManager.setVec4Value g_ColorValueName (Vec4 1 1 1 1)) ;;
  draw_mesh CylinderMesh ;;
  (* Torus connector mid *)
  let scaleXYZ := Vec3 0.35 0.35 0.35 in
  let positionXYZ := Vec3 0 8.55 (-3.5) in
  SetTransformations scaleXYZ 90 0 0 positionXYZ ;;
  SetShaderMaterial "copper" ;;
  SetShaderTexture "Copper" ;;
  SetTextureUVScale 1.7 1.7 ;;
  shader_call (ShaderManager.setVec4Value g_ColorValueName (Vec4 1 1 1 1)) ;;
  draw_mesh TorusMesh ;;
  (* Segment 6: Main section *)
  let scaleXYZ := Vec3 0.6 0.2 0.6 in
  let positionXYZ := Vec3 0 8.6 (-3.5) in
  SetTransformations scaleXYZ 0 0 0 positionXYZ ;;
  SetShaderMaterial "copper" ;;
  SetShaderTexture "Copper" ;;
  SetTextureUVScale 1.8 1.8 ;;
  shader_call (ShaderManager.setVec4Value g_ColorValueName (Vec4 1 1 1 1)) ;;
  draw_mesh CylinderMesh ;;
  (* Segment 7: Slender neck *)
  let scaleXYZ := Vec3 0.4 0.2 0.4 in
  let positionXYZ := Vec3 0 8.8 (-3.5) in
  SetTransformations scaleXYZ 0 0 0 positionXYZ ;;
  SetShaderMaterial "copper" ;;
  SetShaderTexture "Copper" ;;
  SetTextureUVScale 2.2 2.2 ;;
  shader_call (ShaderManager.setVec4Value g_ColorValueName (Vec4 1 1 1 1)) ;;
  draw_mesh CylinderMesh ;;
  (* Segment 8: Tall connector pipe *)
  let scaleXYZ := Vec3 0.12 0.45 0.12 in
  let positionXYZ := Vec3 0 8.9 (-3.5) in
  SetTransformations scaleXYZ 0 0 0 positionXYZ ;;
  SetShaderColor 0 0 0 1 ;;
  SetShaderMaterial "plasticBlack" ;;
  draw_mesh CylinderMesh ;;
  (* Torus band plastic connector *)
  let scaleXYZ := Vec3 0.15 0.15 0.15 in
  let positionXYZ := Vec3 0 9.35 (-3.5) in
  SetTransformations scaleXYZ 90 0 0 positionXYZ ;;
  SetShaderColor 0 0 0 1 ;;
  SetShaderMaterial "plasticBlack" ;;
  draw_mesh TorusMesh ;;
  (* Segment 9: Plastic connector pipe *)
  let scaleXYZ := Vec3 0.18 0.2 0.18 in
  let positionXYZ := Vec3 0 9.35 (-3.5) in
  SetTransformations scaleXYZ 0 0 0 positionXYZ ;;
  SetShaderColor 0 0 0 1 ;;
  SetShaderMaterial "plasticBlack" ;;
  draw_mesh CylinderMesh ;;
  (* Segment 10: Short cap segment *)
  let scaleXYZ := Vec3 0.22 0.1 0.22 in
  let positionXYZ := Vec3 0 9.5 (-3.5) in
  SetTransformations scaleXYZ 0 0 0 positionXYZ ;;
  SetShaderColor 0 0 0 1 ;;
  SetShaderMaterial "plasticBlack" ;;
  draw_mesh CylinderMesh ;;
  (* Segment 11: Top plastic piece *)
  let scaleXYZ := Vec3 0.15 0.2 0.15 in
  let positionXYZ := Vec3 0 9.6 (-3.5) in
  SetTransformations scaleXYZ 0 0 0 positionXYZ ;;
  SetShaderColor 0 0 0 1 ;;
  SetShaderMaterial "plasticBlack" ;;
  draw_mesh CylinderMesh ;;
  (* Bulb neck: transition to glass *)
  let scaleXYZ := Vec3 0.08 0.06 0.08 in
  let positionXYZ := Vec3 0 9.8 (-3.5) in
  SetTransformations scaleXYZ 0 0 0 positionXYZ ;;
  SetShaderColor 0.4 0.4 0.4 1 ;;
  draw_mesh CylinderMesh ;;
  (* Glass bulb emissive *)
  let scaleXYZ := Vec3 0.22 0.32 0.22 in
  let positionXYZ := Vec3 0 10.15 (-3.5) in
  SetTransformations scaleXYZ 0 0 0 positionXYZ ;;
  shader_call (ShaderManager.setBoolValue "bUseLighting" false) ;;
  SetShaderColor 1.3 1.1 0.65 1 ;;
  draw_mesh SphereMesh ;;
  shader_call (ShaderManager.setBoolValue "bUseLighting" true) ;;
  (* Switch stem: horizontal toggle arm *)
  let scaleXYZ := Vec3 0.03 0.8 0.03 in
  let positionXYZ := Vec3 0.9 9.55 (-3.5) in
  SetTransformations scaleXYZ 0 0 90 positionXYZ ;;
  SetShaderColor 0 0 0 1 ;;
  SetShaderMaterial "plasticBlack" ;;
  draw_mesh CylinderMesh ;;
  (* Switch cap: knob at the end *)
  let scaleXYZ := Vec3 0.1 0.05 0.1 in
  let positionXYZ := Vec3 0.95 9.55 (-3.5) in
  SetTransformations scaleXYZ 0 0 90 positionXYZ ;;
  SetShaderColor 0.1 0.1 0.1 1 ;;
  SetShaderMaterial "plasticBlack" ;;
  draw_mesh CylinderMesh.

(** [SceneManager::RenderScene], the glass shade: the translucent pass and the
    restore that follows it. *)
Definition RenderScene_glass_shade : M unit :=
  (* Glass shade *)
  glEnable GL_BLEND ;;
  glBlendFunc GL_SRC_ALPHA GL_ONE_MINUS_SRC_ALPHA ;;
  glDepthMask false ;;
  glEnable GL_CULL_FACE ;;
  let kGlassRGBA := Vec4 0.85 0.9 1 0.38 in
  (* Inner taper glass funnel *)
  glCullFace GL_BACK ;;
  let scaleXYZ := Vec3 0.3 (-1.34) 0.3 in
  let positionXYZ := Vec3 0 9.46 (-3.5) in
  SetTransformations scaleXYZ 0 0 0 positionXYZ ;;
  SetShaderMaterial "glass" ;;
  SetShaderTexture "FrostedGlass" ;;
  SetTextureUVScale 1.4 1.4 ;;
  shader_call (ShaderManager.setVec4Value g_ColorValueName kGlassRGBA) ;;
  draw_mesh TaperedCylinderMesh ;;
  (* Inner glass cylinder nearly flush *)
  glCullFace GL_FRONT ;;
  let scaleXYZ := Vec3 0.796 2.52 0.796 in
  let positionXYZ := Vec3 0 9.4 (-3.5) in
  SetTransformations scaleXYZ 0 0 0 positionXYZ ;;
  SetShaderMaterial "glass" ;;
  SetShaderTexture "FrostedGlass" ;;
  SetTextureUVScale 1.1 1.1 ;;
  shader_call (ShaderManager.setVec4Value g_ColorValueName kGlassRGBA) ;;
  draw_mesh CylinderMesh ;;
  (* Outer glass cylinder *)
  glCullFace GL_BACK ;;
  let scaleXYZ := Vec3 0.8 2.5 0.8 in
  let positionXYZ := Vec3 0 9.4 (-3.5) in
  SetTransformations scaleXYZ 0 0 0 positionXYZ ;;
  SetShaderMaterial "glass" ;;
  SetShaderTexture "FrostedGlass" ;;
  SetTextureUVScale 1.2 1.2 ;;
  shader_call (ShaderManager.setVec4Value g_ColorValueName kGlassRGBA) ;;
  draw_mesh CylinderMesh ;;
  glDisable GL_CULL_FACE ;;
  glDepthMask true.
  (* End glass shade *)

(** [SceneManager::RenderScene], the bulb halo: the emissive overlay and the
    restore that ends the function. *)
Definition RenderScene_bulb_halo : M unit :=
  (* Bulb halo glow *)
  glDepthMask false ;;
  glDisable GL_DEPTH_TEST ;;
  glEnable GL_BLEND ;;
  glBlendFunc GL_ONE GL_ONE ;;
  let scaleXYZ := Vec3 0.32 0.44 0.32 in
  let positionXYZ := Vec3 0 10.15 (-3.5) in
  SetTransformations scaleXYZ 0 0 0 positionXYZ ;;
  shader_call (ShaderManager.setBoolValue "bUseLighting" false) ;;
  SetShaderColor 0.22 0.19 0.08 1 ;;
  draw_mesh SphereMesh ;;
  shader_call (ShaderManager.setBoolValue "bUseLighting" true) ;;
  glBlendFunc GL_SRC_ALPHA GL_ONE_MINUS_SRC_ALPHA ;;
  glEnable GL_DEPTH_TEST ;;
  glDepthMask true.

(** [SceneManager::RenderScene].  The locals [scaleXYZ] and [positionXYZ] are
    assigned afresh at the start of the glass shade and of the halo, so no
    local flows from one part into the next. *)
Definition RenderScene : M unit :=
  RenderScene_opaque ;;
  RenderScene_glass_shade ;;
  RenderScene_bulb_halo.

End Scene.

(** The scene manager's texture array has its declared length and the
    number of loaded textures lies within it. *)
Definition wf_textures (s : SceneManager) : Prop :=
  length (m_textureIDs s) = MAX_TEXTURES /\
  0 <= m_loadedTextures s <= Z.of_nat MAX_TEXTURES.

(** One pass over a registry, entry by entry: what the scanning loops of
    [FindTextureSlot] and [FindMaterial] compute from position [i] on. *)
Fixpoint scan_slot (l : list TEXTURE_INFO.t) (tag : string) (i : Z) : Z * Z * bool :=
  match l with
  | [] => (-1, i, false)
  | e :: l' =>
      if string_compare (TEXTURE_INFO.tag e) tag =? 0 then (i, i, true)
      else scan_slot l' tag (i + 1)
  end.

Fixpoint scan_material (l : list OBJECT_MATERIAL.t) (tag : string) (i : Z)
    (material : OBJECT_MATERIAL.t) : Z * bool * OBJECT_MATERIAL.t :=
  match l with
  | [] => (i, false, material)
  | e :: l' =>
      if string_compare (OBJECT_MATERIAL.tag e) tag =? 0 then
        (i, true,
         OBJECT_MATERIAL.make (OBJECT_MATERIAL.diffuseColor e)
           (OBJECT_MATERIAL.specularColor e) (OBJECT_MATERIAL.shininess e)
           (OBJECT_MATERIAL.tag material))
      else scan_material l' tag (i + 1) material
  end.

(** The render-pass flags: the OpenGL capabilities and factors the scene
    builder toggles, and the lighting switch it keeps in the shader. *)
Record RenderPassState := {
  blendEnabled : bool;
  blendSrc : BlendFactor;
  blendDst : BlendFactor;
  depthWriteEnabled : bool;
  depthTestEnabled : bool;
  cullEnabled : bool;
  (** the value of the uniform [bUseLighting], when it holds a boolean *)
  lightingEnabled : option bool
}.

Definition lighting_of (p : option (gmap string Uniform)) : option bool :=
  match p with
  | Some u =>
      match u !! g_UseLightingName with
      | Some (UBool b) => Some b
      | _ => None
      end
  | None => None
  end.

Definition pass_state (w : World) : RenderPassState :=
  {| blendEnabled := gl_blend (gl w);
     blendSrc := gl_blend_src (gl w);
     blendDst := gl_blend_dst (gl w);
     depthWriteEnabled := gl_depth_mask (gl w);
     depthTestEnabled := gl_depth_test (gl w);
     cullEnabled := gl_cull_face (gl w);
     lightingEnabled := lighting_of (m_pShaderManager (this w)) |}.

(** The opaque baseline that [RenderScene] sets up at the top of a frame. *)
Definition opaque_baseline : RenderPassState :=
  {| blendEnabled := false;
     blendSrc := GL_SRC_ALPHA;
     blendDst := GL_ONE_MINUS_SRC_ALPHA;
     depthWriteEnabled := true;
     depthTestEnabled := true;
     cullEnabled := false;
     lightingEnabled := Some true |}.

(** A run of texture loads, one [CreateGLTexture] call per file and tag, in
    order, as [LoadSceneTextures] issues them. *)
Fixpoint load_textures (requests : list (string * string)) : M (list bool) :=
  match requests with
  | [] => mret []
  | (filename, tag) :: rest =>
      b ← CreateGLTexture filename tag ;
      bs ← load_textures rest ;
      mret (b :: bs)
  end.

(** Total correctness of a computation: from a world satisfying [P] it
    returns normally, with a result and a world satisfying [Q]. *)
Definition returns {A : Type} (P : World -> Prop) (c : M A)
    (Q : A -> World -> Prop) : Prop :=
  forall w, P w -> exists a w', c w = OK (a, w') /\ Q a w'.

(* ===================================================================== *)
(** ** A freshly constructed scene manager                                *)
(* ===================================================================== *)

(** Modelled from the spec: the constructor in the sources sets only
    [m_pShaderManager] and [m_basicMeshes]; the initial values of the other
    members are declared in [SceneManager.h], which is not part of the
    sources.  The spec has both registries start empty. *)
Definition SceneManager_new (pShaderManager : option (gmap string Uniform)) : SceneManager :=
  {| m_pShaderManager := pShaderManager;
     m_basicMeshes := [];
     m_loadedTextures := 0;
     m_textureIDs := replicate MAX_TEXTURES (TEXTURE_INFO.make 0 "");
     m_objectMaterials := [] |}.

(** The state of an OpenGL context right after its creation. *)
Definition gl_initial : GLContext :=
  {| gl_blend := false; gl_blend_src := GL_ONE; gl_blend_dst := GL_ZERO;
     gl_depth_mask := true; gl_depth_test := false;
     gl_cull_face := false; gl_cull_mode := GL_BACK;
     gl_unpack_alignment := 4;
     gl_active_texture := 0; gl_bound := ∅;
     gl_generated := 0; gl_textures := ∅;
     gl_draws := [] |}.

(** A world to run examples in: a new scene manager with a shader manager
    attached, a new context, and a codec that decodes every [.jpg] path to a
    2x1 RGB image and the path [gray.png] to a 1x1 image of two channels. *)
Definition example_disk (path : string) : option Image :=
  if String.eqb path "gray.png" then
    Some {| img_width := 1; img_height := 1; img_channels := 2;
            img_rows := [[Byte.x80; Byte.xff]] |}
  else if String.eqb (substring (String.length path - 4) 4 path) ".jpg" then
    Some {| img_width := 2; img_height := 1; img_channels := 3;
            img_rows := [[Byte.x10; Byte.x20; Byte.x30; Byte.x40; Byte.x50; Byte.x60]] |}
  else None.

Definition example_world : World :=
  {| this := SceneManager_new (Some ∅);
     gl := gl_initial;
     disk := example_disk;
     stbi_flip := false;
     uninitialised :=
       OBJECT_MATERIAL.make (Vec3 0 0 0) (Vec3 0 0 0) 0%R "" |}.

(** *** The effect of a texture load on the OpenGL context *)

(** The context after the calls [CreateGLTexture] makes once an image has
    been decoded, up to the upload: a new name is generated and bound (which
    creates the texture object), and the four sampling parameters are set. *)
Definition gl_after_setup (g : GLContext) : GLContext :=
  let name := gl_generated g + 1 in
  let g1 := gl_set_textures (gl_active_texture g) (gl_bound g) name (gl_textures g) g in
  let g2 :=
    gl_set_textures (gl_active_texture g1) (<[gl_active_texture g1 := name]> (gl_bound g1))
      (gl_generated g1)
      (if name =? 0 then gl_textures g1
       else match gl_textures g1 !! name with
            | Some _ => gl_textures g1
            | None => <[name := new_texture]> (gl_textures g1)
            end) g1 in
  gl_update_current (set_tex_param GL_TEXTURE_MAG_FILTER GL_LINEAR)
    (gl_update_current (set_tex_param GL_TEXTURE_MIN_FILTER GL_LINEAR)
       (gl_update_current (set_tex_param GL_TEXTURE_WRAP_T GL_REPEAT)
          (gl_update_current (set_tex_param GL_TEXTURE_WRAP_S GL_REPEAT) g2))).

(** The context after a whole successful load: the pixels are uploaded in
    the given formats, mipmaps are generated, and the unit is unbound. *)
Definition gl_after_load (internal : InternalFormat) (format : PixelFormat)
    (image : Image) (g : GLContext) : GLContext :=
  let upload (t : TextureObject) :=
    {| tex_wrap_s := tex_wrap_s t; tex_wrap_t := tex_wrap_t t;
       tex_min_filter := tex_min_filter t; tex_mag_filter := tex_mag_filter t;
       tex_image := Some {| ti_internal := internal; ti_width := img_width image;
                            ti_height := img_height image; ti_format := format;
                            ti_rows := img_rows image |};
       tex_mipmaps := tex_mipmaps t |} in
  let mipmap (t : TextureObject) :=
    {| tex_wrap_s := tex_wrap_s t; tex_wrap_t := tex_wrap_t t;
       tex_min_filter := tex_min_filter t; tex_mag_filter := tex_mag_filter t;
       tex_image := tex_image t; tex_mipmaps := true |} in
  let g4 := gl_update_current mipmap (gl_update_current upload (gl_after_setup g)) in
  gl_set_textures (gl_active_texture g4) (<[gl_active_texture g4 := 0]> (gl_bound g4))
    (gl_generated g4) (gl_textures g4) g4.

(** The image [stbi_load] hands over when the flip flag is set. *)
Definition flipped (image : Image) : Image :=
  {| img_width := img_width image; img_height := img_height image;
     img_channels := img_channels image; img_rows := rev (img_rows image) |}.

(** The tags of the registered textures, in slot order. *)
Definition registered_tags (s : SceneManager) : list string :=
  TEXTURE_INFO.tag <$> take (Z.to_nat (m_loadedTextures s)) (m_textureIDs s).

(** The example world with a null shader-manager pointer and the scene's
    materials defined. *)
Definition example_null_world : World :=
  match DefineObjectMaterials (with_this (SceneManager_new None) example_world) with
  | OK (_, w) => w
  | Fault _ => example_world
  end.

(** *** The effect of each call on the render-pass flags *)

Definition pass_set_cap (c : Capability) (b : bool) (p : RenderPassState) : RenderPassState :=
  match c with
  | GL_BLEND =>
      {| blendEnabled := b; blendSrc := blendSrc p; blendDst := blendDst p;
         depthWriteEnabled := depthWriteEnabled p; depthTestEnabled := depthTestEnabled p;
         cullEnabled := cullEnabled p; lightingEnabled := lightingEnabled p |}
  | GL_DEPTH_TEST =>
      {| blendEnabled := blendEnabled p; blendSrc := blendSrc p; blendDst := blendDst p;
         depthWriteEnabled := depthWriteEnabled p; depthTestEnabled := b;
         cullEnabled := cullEnabled p; lightingEnabled := lightingEnabled p |}
  | GL_CULL_FACE =>
      {| blendEnabled := blendEnabled p; blendSrc := blendSrc p; blendDst := blendDst p;
         depthWriteEnabled := depthWriteEnabled p; depthTestEnabled := depthTestEnabled p;
         cullEnabled := b; lightingEnabled := lightingEnabled p |}
  end.

Definition pass_set_blend_func (s d : BlendFactor) (p : RenderPassState) : RenderPassState :=
  {| blendEnabled := blendEnabled p; blendSrc := s; blendDst := d;
     depthWriteEnabled := depthWriteEnabled p; depthTestEnabled := depthTestEnabled p;
     cullEnabled := cullEnabled p; lightingEnabled := lightingEnabled p |}.

Definition pass_set_depth_mask (b : bool) (p : RenderPassState) : RenderPassState :=
  {| blendEnabled := blendEnabled p; blendSrc := blendSrc p; blendDst := blendDst p;
     depthWriteEnabled := b; depthTestEnabled := depthTestEnabled p;
     cullEnabled := cullEnabled p; lightingEnabled := lightingEnabled p |}.

Definition pass_set_lighting (b : bool) (p : RenderPassState) : RenderPassState :=
  {| blendEnabled := blendEnabled p; blendSrc := blendSrc p; blendDst := blendDst p;
     depthWriteEnabled := depthWriteEnabled p; depthTestEnabled := depthTestEnabled p;
     cullEnabled := cullEnabled p; lightingEnabled := Some b |}.

(** The worlds in which a frame can be rendered: a shader manager is
    attached and the texture registry is well formed. *)
Definition renderable (w : World) : Prop :=
  m_pShaderManager (this w) <> None /\ wf_textures (this w).

(** [tracks c f]: from every renderable world, [c] returns normally in a
    renderable world whose render-pass flags are [f] of the flags before. *)
Definition tracks (c : M unit) (f : RenderPassState -> RenderPassState) : Prop :=
  forall w, renderable w ->
    exists w', c w = OK (tt, w') /\ renderable w' /\ pass_state w' = f (pass_state w).

(** [writes_uniforms c]: [c] only replaces the uniform table of the attached
    shader manager, and leaves the lighting switch in it alone. *)
Definition writes_uniforms (c : M unit) : Prop :=
  forall w u, wf_textures (this w) -> m_pShaderManager (this w) = Some u ->
    exists u', c w = OK (tt, with_this (with_shader (Some u') (this w)) w)
      /\ u' !! g_UseLightingName = u !! g_UseLightingName.

(** The flags a frame ends with. *)
Definition end_of_frame : RenderPassState :=
  pass_set_cap GL_BLEND true opaque_baseline.

(** The materials one call of [DefineObjectMaterials] appends, read off a
    run of it on an empty registry. *)
Definition scene_materials : list OBJECT_MATERIAL.t :=
  match DefineObjectMaterials (with_this (SceneManager_new None) example_world) with
  | OK (_, w) => m_objectMaterials (this w)
  | Fault _ => []
  end.

(** The scene manager objects scene preparation passes through: a shader
    manager is attached, the texture array has its length, at most [k]
    textures are loaded, and the materials are [l]. *)
Definition prepared (k : Z) (l : list OBJECT_MATERIAL.t) (w : World) : Prop :=
  m_pShaderManager (this w) <> None
  /\ length (m_textureIDs (this w)) = MAX_TEXTURES
  /\ 0 <= m_loadedTextures (this w) <= k
  /\ m_objectMaterials (this w) = l.

(** The example world after one texture has been loaded under the tag A. *)
Definition example_loaded_world : World :=
  match CreateGLTexture "a.jpg" "A" example_world with
  | OK (_, w) => w
  | Fault _ => example_world
  end.

(** The example world after the materials have been defined and the copper
    material has been pushed to the shader. *)
Definition example_copper_world : World :=
  match (DefineObjectMaterials ;; SetShaderMaterial "copper") example_world with
  | OK (_, w) => w
  | Fault _ => example_world
  end.

(* ===================================================================== *)
(** ** Further vocabulary for the registries                              *)
(* ===================================================================== *)

(** What the scanning loop of [FindTextureID] computes from position [i] on. *)
Fixpoint scan_id (l : list TEXTURE_INFO.t) (tag : string) (i : Z) : Z * Z * bool :=
  match l with
  | [] => (-1, i, false)
  | e :: l' =>
      if string_compare (TEXTURE_INFO.tag e) tag =? 0 then (TEXTURE_INFO.ID e, i, true)
      else scan_id l' tag (i + 1)
  end.

(** The tags of the requests of a run of loads that reported success. *)
Fixpoint loaded_tags (requests : list (string * string)) (results : list bool) : list string :=
  match requests, results with
  | (_, tag) :: requests', b :: results' =>
      if b then tag :: loaded_tags requests' results' else loaded_tags requests' results'
  | _, _ => []
  end.


(** The example world with all sixteen texture slots taken. *)
Definition example_full_world : World :=
  match load_textures
          ((fun t => ("t.jpg", t)) <$>
             ["T0"; "T1"; "T2"; "T3"; "T4"; "T5"; "T6"; "T7";
              "T8"; "T9"; "T10"; "T11"; "T12"; "T13"; "T14"; "T15"])
          example_world with
  | OK (_, w) => w
  | Fault _ => example_world
  end.

(** The registered entries of the texture registry, in slot order. *)
Definition registered_entries (s : SceneManager) : list TEXTURE_INFO.t :=
  take (Z.to_nat (m_loadedTextures s)) (m_textureIDs s).

(** The scene manager objects texture loading passes through, whatever the
    shader-manager pointer [p] is: the texture array has its length and at
    most [k] textures are loaded. *)
Definition loadable (p : option (gmap string Uniform)) (k : Z) (w : World) : Prop :=
  m_pShaderManager (this w) = p
  /\ length (m_textureIDs (this w)) = MAX_TEXTURES
  /\ 0 <= m_loadedTextures (this w) <= k.



(** What rendering has no business changing: the meshes, both registries,
    and the texture state of the context and of the codec. *)
Definition scene_data (w : World) :=
  (m_basicMeshes (this w), m_loadedTextures (this w), m_textureIDs (this w),
   m_objectMaterials (this w),
   (gl_textures (gl w), gl_bound (gl w), gl_generated (gl w), gl_active_texture (gl w),
    gl_unpack_alignment (gl w), stbi_flip w)).

(** [draws c l]: from every renderable world, [c] returns normally in a
    renderable world with the same scene data, having issued the draw calls
    [l], the latest first. *)
Definition draws (c : M unit) (l : list Mesh) : Prop :=
  forall w, renderable w ->
    exists w', c w = OK (tt, w') /\ renderable w'
      /\ scene_data w' = scene_data w
      /\ gl_draws (gl w') = l ++ gl_draws (gl w).

#[global] Instance Mesh_eq_dec : EqDecision Mesh := ltac:(solve_decision).

(** The number of draw calls [RenderScene] issues for each kind of mesh, as
    counted in its source. *)
Definition draw_calls_of (m : Mesh) : nat :=
  match m with
  | BoxMesh => 54
  | CylinderMesh => 24
  | SphereMesh => 18
  | PrismMesh => 0
  | PlaneMesh => 2
  | TorusMesh => 11
  | Pyramid3Mesh => 4
  | TaperedCylinderMesh => 3
  end.

(** The value of a named uniform in the attached shader manager. *)
Definition uniform (w : World) (name : string) : option Uniform :=
  match m_pShaderManager (this w) with
  | Some u => u !! name
  | None => None
  end.

(** The uniforms the setters of the scene manager and [RenderScene] write. *)
Definition RenderScene_uniforms : list string :=
  [g_ModelName; g_ColorValueName; g_TextureValueName; g_UseTextureName; g_UseLightingName;
   "UVscale"; "material.diffuseColor"; "material.specularColor"; "material.shininess"].

(** [leaves name c]: from every renderable world, [c] returns normally in
    a renderable world in which the uniform [name] has the value it had. *)
Definition leaves (name : string) (c : M unit) : Prop :=
  forall w, renderable w ->
    exists w', c w = OK (tt, w') /\ renderable w' /\ uniform w' name = uniform w name.

(** [sets c S]: with a shader manager attached, [c] returns normally and
    its whole effect is to write the uniforms of the table [S] over the ones
    the shader manager holds. *)
Definition sets (c : M unit) (S : gmap string Uniform) : Prop :=
  forall w u, m_pShaderManager (this w) = Some u ->
    c w = OK (tt, with_this (with_shader (Some (S ∪ u)) (this w)) w).

(** The world with other contents in the stack slot of the uninitialised
    material. *)
Definition with_uninitialised (m : OBJECT_MATERIAL.t) (w : World) : World :=
  {| this := this w; gl := gl w; disk := disk w; stbi_flip := stbi_flip w;
     uninitialised := m |}.

(** A renderable world in which every material of the scene is defined. *)
Definition materials_defined (w : World) : Prop :=
  renderable w
  /\ forall tag, tag ∈ OBJECT_MATERIAL.tag <$> scene_materials ->
       tag ∈ OBJECT_MATERIAL.tag <$> m_objectMaterials (this w).

(** [oblivious c]: with the materials of the scene defined, [c] returns
    normally, and what it does is the same whatever the stack slot of the
    uninitialised material holds. *)
Definition oblivious (c : M unit) : Prop :=
  forall w, materials_defined w ->
    exists w', c w = OK (tt, w') /\ materials_defined w'
      /\ forall m, c (with_uninitialised m w) = OK (tt, with_uninitialised m w').

(* ===================================================================== *)
(** ** The view manager                                                   *)
(* ===================================================================== *)

Local Open Scope R_scope.

(** [glm::perspective(fovy, aspect, zNear, zFar)] with GLM's defaults: a
    right-handed frustum with clip-space depth from -1 to 1. *)
Definition perspective (fovy aspect zNear zFar : R) : mat4 :=
  let tanHalfFovy := tan (fovy / 2) in
  Mat4 (Vec4 (1 / (aspect * tanHalfFovy)) 0 0 0)
       (Vec4 0 (1 / tanHalfFovy) 0 0)
       (Vec4 0 0 (- (zFar + zNear) / (zFar - zNear)) (-1))
       (Vec4 0 0 (- (2 * zFar * zNear) / (zFar - zNear)) 0).

Inductive Camera_Movement : Set := FORWARD | BACKWARD | LEFT | RIGHT | UP | DOWN.

(** The keys [ProcessKeyboardEvents] asks about. *)
Inductive Key : Set :=
  GLFW_KEY_ESCAPE | GLFW_KEY_W | GLFW_KEY_S | GLFW_KEY_A | GLFW_KEY_D
| GLFW_KEY_Q | GLFW_KEY_E | GLFW_KEY_P | GLFW_KEY_O.

#[global] Instance Key_eq_dec : EqDecision Key := ltac:(solve_decision).

(** The [Camera] class is not part of the sources.  The five public members
    the view manager reads and assigns are fields here; whatever else a
    camera holds is a value of the type [Other]. *)
Module Camera.
Record t (Other : Type) := make {
  Position : vec3;
  Front : vec3;
  Up : vec3;
  Zoom : R;
  MovementSpeed : R;
  other : Other
}.
Arguments make {Other}.
Arguments Position {Other}.
Arguments Front {Other}.
Arguments Up {Other}.
Arguments Zoom {Other}.
Arguments MovementSpeed {Other}.
Arguments other {Other}.

(** Assignments to the public members. *)
Definition set_Position {Other : Type} (p : vec3) (c : t Other) : t Other :=
  make p (Front c) (Up c) (Zoom c) (MovementSpeed c) (other c).

Definition set_Front {Other : Type} (p : vec3) (c : t Other) : t Other :=
  make (Position c) p (Up c) (Zoom c) (MovementSpeed c) (other c).

Definition set_Up {Other : Type} (p : vec3) (c : t Other) : t Other :=
  make (Position c) (Front c) p (Zoom c) (MovementSpeed c) (other c).

Definition set_Zoom {Other : Type} (z : R) (c : t Other) : t Other :=
  make (Position c) (Front c) (Up c) z (MovementSpeed c) (other c).

Definition set_MovementSpeed {Other : Type} (s : R) (c : t Other) : t Other :=
  make (Position c) (Front c) (Up c) (Zoom c) s (other c).
End Camera.

(** The constructor and the methods of [Camera] that the view manager
    calls.  Nothing is assumed about them: what is proved about the view
    manager holds for every implementation. *)
Class CameraMethods := {
  CameraOther : Type;
  Camera_new : Camera.t CameraOther;
  ProcessKeyboard : Camera_Movement -> R -> Camera.t CameraOther -> Camera.t CameraOther;
  ProcessMouseMovement : R -> R -> Camera.t CameraOther -> Camera.t CameraOther;
  ProcessMouseScroll : R -> Camera.t CameraOther -> Camera.t CameraOther;
  GetViewMatrix : Camera.t CameraOther -> mat4
}.

(** A GLFW window, as far as the view manager uses it: the state of the
    keys, the close flag, the cursor mode and the registered callbacks. *)
Record GLFWwindow := {
  pressed : Key -> bool;
  should_close : bool;
  cursor_disabled : bool;
  cursor_pos_callback : bool;
  scroll_callback : bool
}.

Module ViewManager.

Definition WINDOW_WIDTH : Z := 1000.
Definition WINDOW_HEIGHT : Z := 800.
Definition g_ViewName : string := "view".
Definition g_ProjectionName : string := "projection".

Section State.
Context `{CameraMethods}.

(** The members of the view manager, the globals of its file, and the
    parts of GLFW and OpenGL it talks to: the window the next
    [glfwCreateWindow] returns (or null), whether GLFW has been terminated,
    the value of [glfwGetTime], and the OpenGL context. *)
Record State := {
  m_pShaderManager : option (gmap string Uniform);
  m_pWindow : option GLFWwindow;
  g_pCamera : option (Camera.t CameraOther);
  gLastX : R;
  gLastY : R;
  gFirstMouse : bool;
  gDeltaTime : R;
  gLastFrame : R;
  bOrthographicProjection : bool;
  glfw_next_window : option GLFWwindow;
  glfw_terminated : bool;
  glfw_time : R;
  gl : GLContext
}.

Definition VM (A : Type) : Type := State -> Result (A * State).

#[global] Instance VM_ret : MRet VM := fun A a v => OK (a, v).
#[global] Instance VM_bind : MBind VM := fun A B k c v =>
  match c v with
  | OK (a, v') => k a v'
  | Fault f => Fault f
  end.

Definition with_shader (p : option (gmap string Uniform)) (v : State) : State :=
  {| m_pShaderManager := p; m_pWindow := m_pWindow v; g_pCamera := g_pCamera v;
     gLastX := gLastX v; gLastY := gLastY v; gFirstMouse := gFirstMouse v;
     gDeltaTime := gDeltaTime v; gLastFrame := gLastFrame v;
     bOrthographicProjection := bOrthographicProjection v;
     glfw_next_window := glfw_next_window v; glfw_terminated := glfw_terminated v;
     glfw_time := glfw_time v; gl := gl v |}.

Definition with_window (p : option GLFWwindow) (v : State) : State :=
  {| m_pShaderManager := m_pShaderManager v; m_pWindow := p; g_pCamera := g_pCamera v;
     gLastX := gLastX v; gLastY := gLastY v; gFirstMouse := gFirstMouse v;
     gDeltaTime := gDeltaTime v; gLastFrame := gLastFrame v;
     bOrthographicProjection := bOrthographicProjection v;
     glfw_next_window := glfw_next_window v; glfw_terminated := glfw_terminated v;
     glfw_time := glfw_time v; gl := gl v |}.

Definition with_camera (p : option (Camera.t CameraOther)) (v : State) : State :=
  {| m_pShaderManager := m_pShaderManager v; m_pWindow := m_pWindow v; g_pCamera := p;
     gLastX := gLastX v; gLastY := gLastY v; gFirstMouse := gFirstMouse v;
     gDeltaTime := gDeltaTime v; gLastFrame := gLastFrame v;
     bOrthographicProjection := bOrthographicProjection v;
     glfw_next_window := glfw_next_window v; glfw_terminated := glfw_terminated v;
     glfw_time := glfw_time v; gl := gl v |}.

Definition with_mouse (x y : R) (first : bool) (v : State) : State :=
  {| m_pShaderManager := m_pShaderManager v; m_pWindow := m_pWindow v;
     g_pCamera := g_pCamera v;
     gLastX := x; gLastY := y; gFirstMouse := first;
     gDeltaTime := gDeltaTime v; gLastFrame := gLastFrame v;
     bOrthographicProjection := bOrthographicProjection v;
     glfw_next_window := glfw_next_window v; glfw_terminated := glfw_terminated v;
     glfw_time := glfw_time v; gl := gl v |}.

Definition with_frame (delta last : R) (v : State) : State :=
  {| m_pShaderManager := m_pShaderManager v; m_pWindow := m_pWindow v;
     g_pCamera := g_pCamera v;
     gLastX := gLastX v; gLastY := gLastY v; gFirstMouse := gFirstMouse v;
     gDeltaTime := delta; gLastFrame := last;
     bOrthographicProjection := bOrthographicProjection v;
     glfw_next_window := glfw_next_window v; glfw_terminated := glfw_terminated v;
     glfw_time := glfw_time v; gl := gl v |}.

Definition with_orthographic (b : bool) (v : State) : State :=
  {| m_pShaderManager := m_pShaderManager v; m_pWindow := m_pWindow v;
     g_pCamera := g_pCamera v;
     gLastX := gLastX v; gLastY := gLastY v; gFirstMouse := gFirstMouse v;
     gDeltaTime := gDeltaTime v; gLastFrame := gLastFrame v;
     bOrthographicProjection := b;
     glfw_next_window := glfw_next_window v; glfw_terminated := glfw_terminated v;
     glfw_time := glfw_time v; gl := gl v |}.

Definition with_terminated (b : bool) (v : State) : State :=
  {| m_pShaderManager := m_pShaderManager v; m_pWindow := m_pWindow v;
     g_pCamera := g_pCamera v;
     gLastX := gLastX v; gLastY := gLastY v; gFirstMouse := gFirstMouse v;
     gDeltaTime := gDeltaTime v; gLastFrame := gLastFrame v;
     bOrthographicProjection := bOrthographicProjection v;
     glfw_next_window := glfw_next_window v; glfw_terminated := b;
     glfw_time := glfw_time v; gl := gl v |}.

Definition with_gl (g : GLContext) (v : State) : State :=
  {| m_pShaderManager := m_pShaderManager v; m_pWindow := m_pWindow v;
     g_pCamera := g_pCamera v;
     gLastX := gLastX v; gLastY := gLastY v; gFirstMouse := gFirstMouse v;
     gDeltaTime := gDeltaTime v; gLastFrame := gLastFrame v;
     bOrthographicProjection := bOrthographicProjection v;
     glfw_next_window := glfw_next_window v; glfw_terminated := glfw_terminated v;
     glfw_time := glfw_time v; gl := g |}.

(** Read the state. *)
Definition get : VM State := fun v => OK (v, v).

(** An assignment to members or globals. *)
Definition assign (f : State -> State) : VM unit := fun v => OK (tt, f v).

(** [glfwGetKey(m_pWindow, key) == GLFW_PRESS]; GLFW dereferences the
    window it is handed. *)
Definition glfwGetKey_PRESS (key : Key) : VM bool := fun v =>
  match m_pWindow v with
  | Some window => OK (pressed window key, v)
  | None => Fault NullDereference
  end.

(** [glfwSetWindowShouldClose(m_pWindow, value)] *)
Definition glfwSetWindowShouldClose (value : bool) : VM unit := fun v =>
  match m_pWindow v with
  | Some window =>
      OK (tt, with_window
                (Some {| pressed := pressed window; should_close := value;
                         cursor_disabled := cursor_disabled window;
                         cursor_pos_callback := cursor_pos_callback window;
                         scroll_callback := scroll_callback window |}) v)
  | None => Fault NullDereference
  end.

(** [g_pCamera->...] as a statement: a method call or the assignment of a
    member; a fault when the pointer is null. *)
Definition camera_call (f : Camera.t CameraOther -> Camera.t CameraOther) : VM unit :=
  fun v =>
    match g_pCamera v with
    | Some camera => OK (tt, with_camera (Some (f camera)) v)
    | None => Fault NullDereference
    end.

(** [g_pCamera->...] as an expression. *)
Definition camera_read {A : Type} (f : Camera.t CameraOther -> A) : VM A := fun v =>
  match g_pCamera v with
  | Some camera => OK (f camera, v)
  | None => Fault NullDereference
  end.

(** [m_pShaderManager->method(...)] *)
Definition shader_call (f : gmap string Uniform -> gmap string Uniform) : VM unit := fun v =>
  match m_pShaderManager v with
  | Some u => OK (tt, with_shader (Some (f u)) v)
  | None => Fault NullDereference
  end.

(** [ViewManager::ViewManager] *)
Definition ViewManager (pShaderManager : option (gmap string Uniform)) : VM unit :=
  assign (with_shader pShaderManager) ;;
  assign (with_window None) ;;
  assign (with_camera (Some Camera_new)) ;;
  camera_call (Camera.set_Position (Vec3 0.5 8 16)) ;;
  camera_call (Camera.set_Front (normalize (Vec3 (-0.1) (-0.4) (-1)))) ;;
  camera_call (Camera.set_Up (Vec3 0 1 0)) ;;
  camera_call (Camera.set_Zoom 80) ;;
  camera_call (Camera.set_MovementSpeed 2.5).

(** [ViewManager::~ViewManager] *)
Definition destroy_ViewManager : VM unit :=
  assign (with_shader None) ;;
  assign (with_window None) ;;
  v ← get ;
  if not_null (g_pCamera v) then assign (with_camera None) else mret tt.

(** [ViewManager::CreateDisplayWindow].  [glfwSetInputMode] and the two
    callback registrations are the three flags of the window; the console
    output and [glfwMakeContextCurrent] are not modelled. *)
Definition CreateDisplayWindow (windowTitle : string) : VM (option GLFWwindow) :=
  v ← get ;
  let window := glfw_next_window v in
  match window with
  | None =>
      assign (with_terminated true) ;;
      mret None
  | Some created =>
      let window :=
        Some {| pressed := pressed created; should_close := should_close created;
                cursor_disabled := true;
                cursor_pos_callback := true;
                scroll_callback := true |} in
      assign (fun v => with_gl (gl_set_cap GL_BLEND true (gl v)) v) ;;
      assign (fun v => with_gl (gl_set_blend_func GL_SRC_ALPHA GL_ONE_MINUS_SRC_ALPHA (gl v)) v) ;;
      assign (with_window window) ;;
      mret window
  end.

(** [ViewManager::Mouse_Position_Callback] *)
Definition Mouse_Position_Callback (xMousePos yMousePos : R) : VM unit :=
  v ← get ;
  (if gFirstMouse v then assign (with_mouse xMousePos yMousePos false) else mret tt) ;;
  v ← get ;
  let xOffset := xMousePos - gLastX v in
  let yOffset := gLastY v - yMousePos in
  assign (with_mouse xMousePos yMousePos (gFirstMouse v)) ;;
  camera_call (ProcessMouseMovement xOffset yOffset).

(** [ViewManager::Mouse_Scroll_Callback] *)
Definition Mouse_Scroll_Callback (xOffset yOffset : R) : VM unit :=
  camera_call (ProcessMouseScroll yOffset).

(** [if (glfwGetKey(m_pWindow, key) == GLFW_PRESS) { body }] *)
Definition if_pressed (key : Key) (body : VM unit) : VM unit :=
  glfwGetKey_PRESS key ≫= fun p : bool => if p then body else mret tt.

(** [g_pCamera->ProcessKeyboard(direction, gDeltaTime)] *)
Definition move (direction : Camera_Movement) : VM unit :=
  v ← get ;
  camera_call (ProcessKeyboard direction (gDeltaTime v)).

(** [ViewManager::ProcessKeyboardEvents].  The early [return] on a null
    camera is the [else] branch that does nothing. *)
Definition ProcessKeyboardEvents : VM unit :=
  if_pressed GLFW_KEY_ESCAPE (glfwSetWindowShouldClose true) ;;
  v ← get ;
  if not_null (g_pCamera v) then
    if_pressed GLFW_KEY_W (move FORWARD) ;;
    if_pressed GLFW_KEY_S (move BACKWARD) ;;
    if_pressed GLFW_KEY_A (move LEFT) ;;
    if_pressed GLFW_KEY_D (move RIGHT) ;;
    if_pressed GLFW_KEY_Q (move UP) ;;
    if_pressed GLFW_KEY_E (move DOWN) ;;
    if_pressed GLFW_KEY_P
      (assign (with_orthographic false) ;;
       camera_call (Camera.set_Position (Vec3 0.5 10.5 22)) ;;
       camera_call (Camera.set_Front (normalize (Vec3 (-0.1) (-0.45) (-1)))) ;;
       camera_call (Camera.set_Up (Vec3 0 1 0))) ;;
    if_pressed GLFW_KEY_O
      (assign (with_orthographic true) ;;
       camera_call (Camera.set_Position (Vec3 0 7.5 12)) ;;
       camera_call (Camera.set_Front (Vec3 0 0 (-1))) ;;
       camera_call (Camera.set_Up (Vec3 0 1 0)))
  else mret tt.

(** [ViewManager::PrepareSceneView] *)
Definition PrepareSceneView : VM unit :=
  v ← get ;
  let currentFrame := glfw_time v in
  assign (with_frame (currentFrame - gLastFrame v) (gLastFrame v)) ;;
  v ← get ;
  assign (with_frame (gDeltaTime v) currentFrame) ;;
  ProcessKeyboardEvents ;;
  view ← camera_read GetViewMatrix ;
  zoom ← camera_read Camera.Zoom ;
  let projection :=
    perspective (radians zoom) (IZR WINDOW_WIDTH / IZR WINDOW_HEIGHT) 0.1 100 in
  v ← get ;
  if not_null (m_pShaderManager v) then
    shader_call (ShaderManager.setMat4Value g_ViewName view) ;;
    shader_call (ShaderManager.setMat4Value g_ProjectionName projection) ;;
    position ← camera_read Camera.Position ;
    shader_call (ShaderManager.setVec3Value "viewPosition" position)
  else mret tt.

End State.
End ViewManager.

(** A camera to run examples with: it has no state of its own, moves along
    its front and up directions, and looks through the identity matrix. *)
#[global] Instance example_camera : CameraMethods := {|
  CameraOther := unit;
  Camera_new := Camera.make (Vec3 0 0 3) (Vec3 0 0 (-1)) (Vec3 0 1 0) 45 2.5 tt;
  ProcessKeyboard := fun direction deltaTime c =>
    let velocity := Camera.MovementSpeed c * deltaTime in
    let along (d : vec3) (k : R) :=
      Vec3 (v3x (Camera.Position c) + v3x d * k) (v3y (Camera.Position c) + v3y d * k)
           (v3z (Camera.Position c) + v3z d * k) in
    match direction with
    | FORWARD => Camera.set_Position (along (Camera.Front c) velocity) c
    | BACKWARD => Camera.set_Position (along (Camera.Front c) (- velocity)) c
    | UP => Camera.set_Position (along (Camera.Up c) velocity) c
    | DOWN => Camera.set_Position (along (Camera.Up c) (- velocity)) c
    | LEFT | RIGHT => c
    end;
  ProcessMouseMovement := fun _ _ c => c;
  ProcessMouseScroll := fun yoffset c =>
    Camera.set_MovementSpeed (Camera.MovementSpeed c + yoffset) c;
  GetViewMatrix := fun _ => identity
|}.

(** A window as GLFW creates it, with the given keys held down. *)
Definition example_window (keys : list Key) : GLFWwindow :=
  {| pressed := fun k => bool_decide (k ∈ keys); should_close := false;
     cursor_disabled := false; cursor_pos_callback := false; scroll_callback := false |}.

(** *** What the keys do, in the order the code asks about them *)

(** The window after the escape key has been looked at. *)
Definition closing (window : GLFWwindow) : GLFWwindow :=
  {| pressed := pressed window;
     should_close := if pressed window GLFW_KEY_ESCAPE then true else should_close window;
     cursor_disabled := cursor_disabled window;
     cursor_pos_callback := cursor_pos_callback window;
     scroll_callback := scroll_callback window |}.

(** The key of each movement. *)
Definition movement_key (direction : Camera_Movement) : Key :=
  match direction with
  | FORWARD => GLFW_KEY_W
  | BACKWARD => GLFW_KEY_S
  | LEFT => GLFW_KEY_A
  | RIGHT => GLFW_KEY_D
  | UP => GLFW_KEY_Q
  | DOWN => GLFW_KEY_E
  end.

(** The camera after one [ProcessKeyboard] call for every movement whose
    key is down. *)
Definition moved `{CameraMethods} (keys : Key -> bool) (deltaTime : R)
    (camera : Camera.t CameraOther) : Camera.t CameraOther :=
  foldl (fun c direction => ProcessKeyboard direction deltaTime c) camera
    (filter (fun direction => keys (movement_key direction) = true)
       [FORWARD; BACKWARD; LEFT; RIGHT; UP; DOWN]).

(** The viewpoints the P and the O key reset the camera to. *)
Definition perspective_viewpoint {Other : Type} (c : Camera.t Other) : Camera.t Other :=
  Camera.set_Up (Vec3 0 1 0)
    (Camera.set_Front (normalize (Vec3 (-0.1) (-0.45) (-1)))
       (Camera.set_Position (Vec3 0.5 10.5 22) c)).

Definition orthographic_viewpoint {Other : Type} (c : Camera.t Other) : Camera.t Other :=
  Camera.set_Up (Vec3 0 1 0)
    (Camera.set_Front (Vec3 0 0 (-1))
       (Camera.set_Position (Vec3 0 7.5 12) c)).

(** The camera and the projection flag after all keys have been processed. *)
Definition after_keys `{CameraMethods} (keys : Key -> bool) (deltaTime : R)
    (camera : Camera.t CameraOther) : Camera.t CameraOther :=
  let c := moved keys deltaTime camera in
  let c := if keys GLFW_KEY_P then perspective_viewpoint c else c in
  if keys GLFW_KEY_O then orthographic_viewpoint c else c.

Definition flag_after_keys (keys : Key -> bool) (flag : bool) : bool :=
  if keys GLFW_KEY_O then true else if keys GLFW_KEY_P then false else flag.

(** The globals of the file as the program starts, with no view manager
    constructed yet: GLFW will hand out the given window, or none, and its
    clock shows [time]. *)
Definition program_start `{CameraMethods} (next_window : option GLFWwindow) (time : R) :
    ViewManager.State :=
  {| ViewManager.m_pShaderManager := None;
     ViewManager.m_pWindow := None;
     ViewManager.g_pCamera := None;
     ViewManager.gLastX := IZR ViewManager.WINDOW_WIDTH / 2;
     ViewManager.gLastY := IZR ViewManager.WINDOW_HEIGHT / 2;
     ViewManager.gFirstMouse := true;
     ViewManager.gDeltaTime := 0;
     ViewManager.gLastFrame := 0;
     ViewManager.bOrthographicProjection := false;
     ViewManager.glfw_next_window := next_window;
     ViewManager.glfw_terminated := false;
     ViewManager.glfw_time := time;
     ViewManager.gl := gl_initial |}.

(** The window of the example view once [CreateDisplayWindow] has set it
    up. *)
Definition example_display (keys : list Key) : GLFWwindow :=
  {| pressed := pressed (example_window keys); should_close := false;
     cursor_disabled := true; cursor_pos_callback := true; scroll_callback := true |}.

(** The camera of the example view as the constructor leaves it. *)
Definition example_viewpoint : Camera.t unit :=
  Camera.make (Vec3 0.5 8 16) (normalize (Vec3 (-0.1) (-0.4) (-1))) (Vec3 0 1 0) 80 2.5 tt.

(** The example view: the example camera behind a window with the given
    keys held down, two seconds after the start, constructed and with its
    window created by the code. *)
Definition example_view (keys : list Key) : ViewManager.State :=
  match (ViewManager.ViewManager (Some ∅) ;;
         ViewManager.CreateDisplayWindow "scene") (program_start (Some (example_window keys)) 2) with
  | OK (_, v) => v
  | Fault _ => program_start None 0
  end.


Local Open Scope Z_scope.

(* ===================================================================== *)
(** * Properties of the embedding *)
(* ===================================================================== *)

(** ** GLM *)

Lemma vec4_eq (a b : vec4) :
  v4x a = v4x b -> v4y a = v4y b -> v4z a = v4z b -> v4w a = v4w b -> a = b.
Proof. destruct a, b; simpl; congruence. Qed.

Lemma normalize_X : normalize (Vec3 1 0 0) = Vec3 1 0 0.
Proof.
  unfold normalize, inversesqrt, dot3; simpl.
  replace (1 * 1 + 0 * 0 + 0 * 0)%R with 1%R by lra.
  rewrite sqrt_1. f_equal; lra.
Qed.

Lemma normalize_Y : normalize (Vec3 0 1 0) = Vec3 0 1 0.
Proof.
  unfold normalize, inversesqrt, dot3; simpl.
  replace (0 * 0 + 1 * 1 + 0 * 0)%R with 1%R by lra.
  rewrite sqrt_1. f_equal; lra.
Qed.

Lemma normalize_Z : normalize (Vec3 0 0 1) = Vec3 0 0 1.
Proof.
  unfold normalize, inversesqrt, dot3; simpl.
  replace (0 * 0 + 0 * 0 + 1 * 1)%R with 1%R by lra.
  rewrite sqrt_1. f_equal; lra.
Qed.

Lemma scale_acts (s p : vec3) :
  mat4_mul_vec4 (scale s) (point p) = point (scale_point s p).
Proof. apply vec4_eq; simpl; lra. Qed.

Lemma translate_acts (t p : vec3) :
  mat4_mul_vec4 (translate t) (point p) = point (translate_point t p).
Proof. apply vec4_eq; simpl; lra. Qed.

Lemma rotate_X_acts (deg : R) (p : vec3) :
  mat4_mul_vec4 (rotate (radians deg) (Vec3 1 0 0)) (point p)
  = point (rotateX_point deg p).
Proof.
  unfold rotate. rewrite normalize_X. apply vec4_eq; simpl; lra.
Qed.

Lemma rotate_Y_acts (deg : R) (p : vec3) :
  mat4_mul_vec4 (rotate (radians deg) (Vec3 0 1 0)) (point p)
  = point (rotateY_point deg p).
Proof.
  unfold rotate. rewrite normalize_Y. apply vec4_eq; simpl; lra.
Qed.

Lemma rotate_Z_acts (deg : R) (p : vec3) :
  mat4_mul_vec4 (rotate (radians deg) (Vec3 0 0 1)) (point p)
  = point (rotateZ_point deg p).
Proof.
  unfold rotate. rewrite normalize_Z. apply vec4_eq; simpl; lra.
Qed.

Lemma mat4_mul_vec4_assoc (a b : mat4) (v : vec4) :
  mat4_mul_vec4 (mat4_mul a b) v = mat4_mul_vec4 a (mat4_mul_vec4 b v).
Proof. apply vec4_eq; simpl; ring. Qed.

Lemma cos_radians_90 : cos (radians 90) = 0%R.
Proof.
  unfold radians. replace (90 * (PI / 180))%R with (PI / 2)%R by lra.
  apply cos_PI2.
Qed.

Lemma sin_radians_90 : sin (radians 90) = 1%R.
Proof.
  unfold radians. replace (90 * (PI / 180))%R with (PI / 2)%R by lra.
  apply sin_PI2.
Qed.

Lemma cos_radians_0 : cos (radians 0) = 1%R.
Proof. unfold radians. replace (0 * (PI / 180))%R with 0%R by lra. apply cos_0. Qed.

Lemma sin_radians_0 : sin (radians 0) = 0%R.
Proof. unfold radians. replace (0 * (PI / 180))%R with 0%R by lra. apply sin_0. Qed.

Lemma mat4_mul_col_assoc (a b : mat4) (c : vec4) :
  mat4_mul_col (mat4_mul a b) c = mat4_mul_col a (mat4_mul_col b c).
Proof. apply vec4_eq; simpl; ring. Qed.

Lemma mat4_mul_assoc (a b c : mat4) :
  mat4_mul (mat4_mul a b) c = mat4_mul a (mat4_mul b c).
Proof.
  destruct c as [c0 c1 c2 c3]. unfold mat4_mul at 1 3. simpl.
  f_equal; apply mat4_mul_col_assoc.
Qed.

Lemma modelView_acts (s : vec3) (rx ry rz : R) (t p : vec3) :
  mat4_mul_vec4 (modelView s rx ry rz t) (point p)
  = point (translate_point t
             (rotateZ_point rz (rotateY_point ry (rotateX_point rx (scale_point s p))))).
Proof.
  unfold modelView.
  rewrite !mat4_mul_vec4_assoc.
  rewrite scale_acts, rotate_X_acts, rotate_Y_acts, rotate_Z_acts, translate_acts.
  reflexivity.
Qed.

Lemma modelView_example :
  mat4_mul_vec4 (modelView (Vec3 2 1 1) 0 90 0 (Vec3 1 0 0)) (point (Vec3 1 0 0))
  = point (Vec3 1 0 (-2)).
Proof.
  rewrite modelView_acts.
  unfold translate_point, rotateZ_point, rotateY_point, rotateX_point, scale_point.
  simpl.
  rewrite cos_radians_90, sin_radians_90, cos_radians_0, sin_radians_0.
  unfold point; simpl. f_equal; lra.
Qed.

(** ** The monad *)

Lemma bind_OK {A B : Type} (c : M A) (k : A -> M B) (w w' : World) (a : A) :
  c w = OK (a, w') -> (c ≫= k) w = k a w'.
Proof. intros H. unfold mbind, M_bind. rewrite H. reflexivity. Qed.

Lemma bind_Fault {A B : Type} (c : M A) (k : A -> M B) (w : World) (f : fault) :
  c w = Fault f -> (c ≫= k) w = Fault f.
Proof. intros H. unfold mbind, M_bind. rewrite H. reflexivity. Qed.

Lemma bind_inv {A B : Type} (c : M A) (k : A -> M B) (w w'' : World) (b : B) :
  (c ≫= k) w = OK (b, w'') ->
  exists a w', c w = OK (a, w') /\ k a w' = OK (b, w'').
Proof.
  unfold mbind, M_bind. destruct (c w) as [[a w']|f]; [|discriminate].
  intros H. exists a, w'. split; [reflexivity|exact H].
Qed.

Lemma returns_bind {A B : Type} (P : World -> Prop) (c : M A)
    (Q : A -> World -> Prop) (k : A -> M B) (R : B -> World -> Prop) :
  returns P c Q -> (forall a, returns (Q a) (k a) R) -> returns P (c ≫= k) R.
Proof.
  intros Hc Hk w HP.
  destruct (Hc w HP) as (a & w' & Hcw & HQ).
  destruct (Hk a w' HQ) as (b & w'' & Hkw & HR).
  exists b, w''. split; [|exact HR].
  rewrite (bind_OK _ _ _ _ _ Hcw). exact Hkw.
Qed.

Lemma returns_weaken {A : Type} (P P' : World -> Prop) (c : M A)
    (Q Q' : A -> World -> Prop) :
  returns P' c Q' -> (forall w, P w -> P' w) -> (forall a w, Q' a w -> Q a w) ->
  returns P c Q.
Proof.
  intros Hc HP HQ w Hw. destruct (Hc w (HP w Hw)) as (a & w' & E & H).
  exists a, w'. split; [exact E|auto].
Qed.

(** ** String comparison *)

Lemma ascii_compare_refl (c : Ascii.ascii) : Ascii.compare c c = Eq.
Proof. unfold Ascii.compare. apply N.compare_refl. Qed.

Lemma String_compare_refl (s : string) : String.compare s s = Eq.
Proof. induction s as [|c s IH]; simpl; [reflexivity|]. now rewrite ascii_compare_refl. Qed.

Lemma string_compare_zero (a b : string) :
  (string_compare a b =? 0) = true <-> a = b.
Proof.
  unfold string_compare. split.
  - destruct (String.compare a b) eqn:E; try discriminate.
    intros _. now apply String.compare_eq_iff.
  - intros ->. now rewrite String_compare_refl.
Qed.

Lemma string_compare_nonzero (a b : string) :
  (string_compare a b =? 0) = false <-> a <> b.
Proof.
  rewrite <- string_compare_zero. destruct (string_compare a b =? 0); split; congruence.
Qed.

(** ** The scanning loops *)

Lemma array_get_lookup {A : Type} (a : list A) (j : nat) (x : A) :
  a !! j = Some x -> array_get a (Z.of_nat j) = OK x.
Proof.
  intros H. unfold array_get.
  destruct (Z.ltb_spec (Z.of_nat j) 0); [lia|].
  now rewrite Nat2Z.id, H.
Qed.

Lemma slot_loop (s : SceneManager) (tag : string) (l' : list TEXTURE_INFO.t) :
  forall j : nat,
    (Z.of_nat j + Z.of_nat (length l') = m_loadedTextures s) ->
    (forall k e, l' !! k = Some e -> m_textureIDs s !! (j + k)%nat = Some e) ->
    while (S (length l'))
      (fun '(textureSlot, index, bFound) =>
         (index <? m_loadedTextures s) && Bool.eqb bFound false)
      (fun '(textureSlot, index, bFound) =>
         e ← array_get (m_textureIDs s) index ;
         if string_compare (TEXTURE_INFO.tag e) tag =? 0
         then OK (index, index, true)
         else OK (textureSlot, index + 1, bFound))
      (-1, Z.of_nat j, false)
    = OK (scan_slot l' tag (Z.of_nat j)).
Proof.
  induction l' as [|e l'' IH]; intros j Hn Hl.
  - simpl in *. rewrite (proj2 (Z.ltb_ge (Z.of_nat j) (m_loadedTextures s))) by lia.
    reflexivity.
  - cbn [length] in Hn.
    change (while (S (length (e :: l''))) ?c ?b ?x)
      with (if c x then match b x with OK s' => while (S (length l'')) c b s' | Fault f => Fault f end
            else OK x).
    cbv beta iota.
    rewrite (proj2 (Z.ltb_lt (Z.of_nat j) (m_loadedTextures s))) by lia.
    cbn [andb Bool.eqb].
    assert (Hj : m_textureIDs s !! j = Some e).
    { specialize (Hl 0%nat e eq_refl). now rewrite Nat.add_0_r in Hl. }
    rewrite (array_get_lookup _ _ _ Hj). cbn [mbind Result_bind scan_slot].
    destruct (string_compare (TEXTURE_INFO.tag e) tag =? 0) eqn:E.
    + cbn. rewrite andb_false_r. reflexivity.
    + replace (Z.of_nat j + 1) with (Z.of_nat (S j)) by lia.
      apply IH; [lia|].
      intros k e' Hk. specialize (Hl (S k) e' Hk).
      now replace (S j + k)%nat with (j + S k)%nat by lia.
Qed.

Lemma FindTextureSlot_scan (s : SceneManager) (tag : string) :
  wf_textures s ->
  FindTextureSlot s tag
  = OK (fst (fst (scan_slot (take (Z.to_nat (m_loadedTextures s)) (m_textureIDs s)) tag 0))).
Proof.
  intros [Hlen Hn]. unfold FindTextureSlot.
  set (l := take (Z.to_nat (m_loadedTextures s)) (m_textureIDs s)).
  assert (Hl : length l = Z.to_nat (m_loadedTextures s)).
  { unfold l. rewrite length_take. lia. }
  pose proof (slot_loop s tag l 0%nat) as H.
  change (Z.of_nat 0) with 0 in H. rewrite Hl in H. rewrite H.
  - cbn [mbind Result_bind]. destruct (scan_slot l tag 0) as [[a b] c]. reflexivity.
  - lia.
  - intros k e Hk. unfold l in Hk. apply lookup_take_Some in Hk. tauto.
Qed.

Lemma scan_slot_miss (l : list TEXTURE_INFO.t) (tag : string) :
  forall i, (forall e, e ∈ l -> TEXTURE_INFO.tag e <> tag) ->
    scan_slot l tag i = (-1, i + Z.of_nat (length l), false).
Proof.
  induction l as [|e l IH]; intros i H; simpl.
  - now replace (i + Z.of_nat 0) with i by lia.
  - assert (E : (string_compare (TEXTURE_INFO.tag e) tag =? 0) = false).
    { apply string_compare_nonzero, H. left. }
    rewrite E, IH.
    + now replace (i + 1 + Z.of_nat (length l)) with (i + Z.of_nat (S (length l))) by lia.
    + intros e' He'. apply H. now right.
Qed.

Lemma scan_slot_first (l : list TEXTURE_INFO.t) (tag : string) :
  forall (i : Z) (j : nat) (e : TEXTURE_INFO.t),
    l !! j = Some e -> TEXTURE_INFO.tag e = tag ->
    (forall k e', (k < j)%nat -> l !! k = Some e' -> TEXTURE_INFO.tag e' <> tag) ->
    scan_slot l tag i = (i + Z.of_nat j, i + Z.of_nat j, true).
Proof.
  induction l as [|x l IH]; intros i j e Hj He Hfirst; [discriminate|].
  destruct j as [|j]; simpl.
  - injection Hj as ->.
    apply string_compare_zero in He. rewrite He.
    now replace (i + Z.of_nat 0) with i by lia.
  - assert (E : (string_compare (TEXTURE_INFO.tag x) tag =? 0) = false).
    { apply string_compare_nonzero. apply (Hfirst 0%nat x); [lia|reflexivity]. }
    rewrite E. rewrite (IH (i + 1) j e Hj He).
    + now replace (i + 1 + Z.of_nat j) with (i + Z.of_nat (S j)) by lia.
    + intros k e' Hk He'. apply (Hfirst (S k) e'); [lia|exact He'].
Qed.

Lemma material_loop (s : SceneManager) (tag : string) (l' : list OBJECT_MATERIAL.t) :
  forall (j : nat) (material : OBJECT_MATERIAL.t),
    (j + length l' = length (m_objectMaterials s))%nat ->
    (forall k e, l' !! k = Some e -> m_objectMaterials s !! (j + k)%nat = Some e) ->
    while (S (length l'))
      (fun '(index, bFound, material) =>
         (index <? Z.of_nat (length (m_objectMaterials s))) && Bool.eqb bFound false)
      (fun '(index, bFound, material) =>
         e ← array_get (m_objectMaterials s) index ;
         if string_compare (OBJECT_MATERIAL.tag e) tag =? 0
         then OK (index, true,
                  OBJECT_MATERIAL.make (OBJECT_MATERIAL.diffuseColor e)
                    (OBJECT_MATERIAL.specularColor e)
                    (OBJECT_MATERIAL.shininess e)
                    (OBJECT_MATERIAL.tag material))
         else OK (index + 1, bFound, material))
      (Z.of_nat j, false, material)
    = OK (scan_material l' tag (Z.of_nat j) material).
Proof.
  induction l' as [|e l'' IH]; intros j material Hn Hl.
  - simpl in *.
    rewrite (proj2 (Z.ltb_ge (Z.of_nat j) (Z.of_nat (length (m_objectMaterials s))))) by lia.
    reflexivity.
  - cbn [length] in Hn.
    change (while (S (length (e :: l''))) ?c ?b ?x)
      with (if c x then match b x with OK s' => while (S (length l'')) c b s' | Fault f => Fault f end
            else OK x).
    cbv beta iota.
    rewrite (proj2 (Z.ltb_lt (Z.of_nat j) (Z.of_nat (length (m_objectMaterials s))))) by lia.
    cbn [andb Bool.eqb].
    assert (Hj : m_objectMaterials s !! j = Some e).
    { specialize (Hl 0%nat e eq_refl). now rewrite Nat.add_0_r in Hl. }
    rewrite (array_get_lookup _ _ _ Hj). cbn [mbind Result_bind scan_material].
    destruct (string_compare (OBJECT_MATERIAL.tag e) tag =? 0) eqn:E.
    + cbn. rewrite andb_false_r. reflexivity.
    + replace (Z.of_nat j + 1) with (Z.of_nat (S j)) by lia.
      apply IH; [lia|].
      intros k e' Hk. specialize (Hl (S k) e' Hk).
      now replace (S j + k)%nat with (j + S k)%nat by lia.
Qed.

Lemma FindMaterial_scan (s : SceneManager) (tag : string) (material : OBJECT_MATERIAL.t) :
  FindMaterial s tag material
  = match m_objectMaterials s with
    | [] => OK (false, material)
    | _ :: _ => OK (true, snd (scan_material (m_objectMaterials s) tag 0 material))
    end.
Proof.
  unfold FindMaterial.
  destruct (length (m_objectMaterials s) =? 0)%nat eqn:E.
  - destruct (m_objectMaterials s); [reflexivity|discriminate].
  - pose proof (material_loop s tag (m_objectMaterials s) 0%nat material) as H.
    change (Z.of_nat 0) with 0 in H. rewrite H; [| lia | auto].
    cbn [mbind Result_bind].
    destruct (scan_material (m_objectMaterials s) tag 0 material) as [[a b] c].
    destruct (m_objectMaterials s); [discriminate|reflexivity].
Qed.

Lemma scan_material_miss (l : list OBJECT_MATERIAL.t) (tag : string) :
  forall i material, (forall e, e ∈ l -> OBJECT_MATERIAL.tag e <> tag) ->
    scan_material l tag i material = (i + Z.of_nat (length l), false, material).
Proof.
  induction l as [|e l IH]; intros i material H; simpl.
  - now replace (i + Z.of_nat 0) with i by lia.
  - assert (E : (string_compare (OBJECT_MATERIAL.tag e) tag =? 0) = false).
    { apply string_compare_nonzero, H. left. }
    rewrite E, IH.
    + now replace (i + 1 + Z.of_nat (length l)) with (i + Z.of_nat (S (length l))) by lia.
    + intros e' He'. apply H. now right.
Qed.

(** ** Transform composer *)

(** C1.  [SetTransformations] writes to the uniform [model] the product
    [Translate(position) * RotateZ * RotateY * RotateX * Scale(scale)];
    applied to a point, that matrix scales first, then rotates about X, Y
    and Z in that order, then translates; and for scale (2,1,1), rotation
    (0,90,0) degrees and position (1,0,0) it maps the local point (1,0,0)
    to the world point (1,0,-2).  Floats are idealised as reals, so the
    tolerance of the claim is met with equality. *)
Theorem SetTransformations_composition (w : World) (u : gmap string Uniform)
    (scaleXYZ : vec3) (rx ry rz : R) (positionXYZ : vec3) :
  m_pShaderManager (this w) = Some u ->
  let M := mat4_mul (mat4_mul (mat4_mul (mat4_mul
             (translate positionXYZ)
             (rotate (radians rz) (Vec3 0 0 1)))
             (rotate (radians ry) (Vec3 0 1 0)))
             (rotate (radians rx) (Vec3 1 0 0)))
             (scale scaleXYZ) in
  SetTransformations scaleXYZ rx ry rz positionXYZ w
    = OK (tt, with_this (with_shader (Some (<[g_ModelName := UMat4 M]> u)) (this w)) w)
  /\ M = mat4_mul (translate positionXYZ)
           (mat4_mul (rotate (radians rz) (Vec3 0 0 1))
              (mat4_mul (rotate (radians ry) (Vec3 0 1 0))
                 (mat4_mul (rotate (radians rx) (Vec3 1 0 0)) (scale scaleXYZ))))
  /\ (forall p : vec3,
        mat4_mul_vec4 M (point p)
        = point (translate_point positionXYZ
                   (rotateZ_point rz (rotateY_point ry
                      (rotateX_point rx (scale_point scaleXYZ p))))))
  /\ mat4_mul_vec4 (modelView (Vec3 2 1 1) 0 90 0 (Vec3 1 0 0)) (point (Vec3 1 0 0))
     = point (Vec3 1 0 (-2)).
Proof.
  intros Hu M. repeat split.
  - unfold SetTransformations, get_this, shader_call, mbind, M_bind.
    rewrite Hu. cbn [not_null]. rewrite Hu. reflexivity.
  - unfold M. now rewrite !mat4_mul_assoc.
  - intros p. apply modelView_acts.
  - apply modelView_example.
Qed.

Lemma SetTransformations_composition_witness :
  SetTransformations (Vec3 2 1 1) 0 90 0 (Vec3 1 0 0) example_world
  = OK (tt, with_this (with_shader
              (Some (<[g_ModelName := UMat4 (modelView (Vec3 2 1 1) 0 90 0 (Vec3 1 0 0))]> ∅))
              (this example_world)) example_world).
Proof.
  exact (proj1 (SetTransformations_composition example_world ∅
                  (Vec3 2 1 1) 0 90 0 (Vec3 1 0 0) eq_refl)).
Defined.

(** ** Material registry lookup *)

(** C3.  [FindMaterial] returns normally for every registry, tag and output
    argument, and the boolean it returns is [false] exactly when the
    registry is empty; for a non-empty registry it is [true] also when no
    entry carries the tag, and the output argument is then left as it was
    passed in. *)
Theorem FindMaterial_false_iff_empty (s : SceneManager) (tag : string)
    (material : OBJECT_MATERIAL.t) :
  exists (b : bool) (material' : OBJECT_MATERIAL.t),
    FindMaterial s tag material = OK (b, material')
    /\ (b = false <-> m_objectMaterials s = [])
    /\ ((forall e, e ∈ m_objectMaterials s -> OBJECT_MATERIAL.tag e <> tag) ->
        material' = material).
Proof.
  rewrite FindMaterial_scan.
  destruct (m_objectMaterials s) as [|e l] eqn:El.
  - exists false, material. repeat split; auto.
  - exists true, (snd (scan_material (e :: l) tag 0 material)). repeat split.
    + discriminate.
    + discriminate.
    + intros Hmiss. now rewrite scan_material_miss.
Qed.

(** ** Array accesses *)

Lemma array_get_in_range {A : Type} (a : list A) (i : Z) :
  0 <= i < Z.of_nat (length a) -> exists x, array_get a i = OK x /\ a !! Z.to_nat i = Some x.
Proof.
  intros Hi. unfold array_get. destruct (Z.ltb_spec i 0); [lia|].
  destruct (lookup_lt_is_Some_2 a (Z.to_nat i)) as [x Hx]; [lia|].
  exists x. now rewrite Hx.
Qed.

Lemma array_get_out_of_range {A : Type} (a : list A) (i : Z) :
  ~ (0 <= i < Z.of_nat (length a)) -> array_get a i = Fault ArrayOutOfBounds.
Proof.
  intros Hi. unfold array_get. destruct (Z.ltb_spec i 0); [reflexivity|].
  rewrite lookup_ge_None_2; [reflexivity|lia].
Qed.

Lemma array_set_in_range {A : Type} (a : list A) (i : Z) (x : A) :
  0 <= i < Z.of_nat (length a) -> array_set a i x = OK (<[Z.to_nat i := x]> a).
Proof.
  intros Hi. unfold array_set. destruct (Z.ltb_spec i 0); [lia|].
  destruct (Nat.ltb_spec (Z.to_nat i) (length a)); [reflexivity|lia].
Qed.

Lemma texture_entry_update_in_range (i : Z) (f : TEXTURE_INFO.t -> TEXTURE_INFO.t) (w : World) :
  0 <= i < Z.of_nat (length (m_textureIDs (this w))) ->
  exists e, m_textureIDs (this w) !! Z.to_nat i = Some e /\
    texture_entry_update i f w
    = OK (tt, with_this (with_textures (m_loadedTextures (this w))
                           (<[Z.to_nat i := f e]> (m_textureIDs (this w))) (this w)) w).
Proof.
  intros Hi. unfold texture_entry_update.
  destruct (array_get_in_range _ _ Hi) as (e & -> & He).
  exists e. split; [exact He|]. now rewrite array_set_in_range.
Qed.

Lemma texture_entry_update_out_of_range (i : Z) (f : TEXTURE_INFO.t -> TEXTURE_INFO.t) (w : World) :
  ~ (0 <= i < Z.of_nat (length (m_textureIDs (this w)))) ->
  texture_entry_update i f w = Fault ArrayOutOfBounds.
Proof.
  intros Hi. unfold texture_entry_update. now rewrite array_get_out_of_range.
Qed.

(** ** Texture registry: loading *)

Lemma register_entry (w : World) (id : Z) (tag : string) :
  0 <= m_loadedTextures (this w) < Z.of_nat (length (m_textureIDs (this w))) ->
  (texture_entry_update (m_loadedTextures (this w)) (set_ID id) ;;
   texture_entry_update (m_loadedTextures (this w)) (set_tag tag) ;;
   increment_loadedTextures ;;
   mret true) w
  = OK (true,
        with_this
          (with_textures (m_loadedTextures (this w) + 1)
             (<[Z.to_nat (m_loadedTextures (this w)) := TEXTURE_INFO.make id tag]>
                (m_textureIDs (this w)))
             (this w)) w).
Proof.
  intros Hn.
  destruct (texture_entry_update_in_range _ (set_ID id) w Hn) as (e & He & E1).
  rewrite (bind_OK _ _ _ _ _ E1).
  set (w1 := with_this _ w) in *.
  assert (Hn1 : 0 <= m_loadedTextures (this w) < Z.of_nat (length (m_textureIDs (this w1)))).
  { unfold w1. cbn. rewrite length_insert. exact Hn. }
  destruct (texture_entry_update_in_range _ (set_tag tag) w1 Hn1) as (e1 & He1 & E2).
  rewrite (bind_OK _ _ _ _ _ E2).
  unfold w1 in He1. cbn in He1.
  rewrite list_lookup_insert_eq in He1 by lia. injection He1 as <-.
  unfold mbind, M_bind, increment_loadedTextures, mret, M_ret.
  unfold w1. cbn. rewrite list_insert_insert_eq. reflexivity.
Qed.

Lemma register_entry_overflow (w : World) (id : Z) (tag : string) :
  ~ (0 <= m_loadedTextures (this w) < Z.of_nat (length (m_textureIDs (this w)))) ->
  (texture_entry_update (m_loadedTextures (this w)) (set_ID id) ;;
   texture_entry_update (m_loadedTextures (this w)) (set_tag tag) ;;
   increment_loadedTextures ;;
   mret true) w
  = Fault ArrayOutOfBounds.
Proof.
  intros Hn. apply bind_Fault. now apply texture_entry_update_out_of_range.
Qed.

Lemma CreateGLTexture_unreadable (w : World) (filename tag : string) :
  disk w filename = None ->
  CreateGLTexture filename tag w = OK (false, with_flip true w).
Proof.
  intros Hd. unfold CreateGLTexture.
  rewrite (bind_OK _ _ w (with_flip true w) tt eq_refl).
  erewrite bind_OK; [|unfold stbi_load; cbn [disk with_flip]; rewrite Hd; reflexivity].
  reflexivity.
Qed.

Lemma CreateGLTexture_unsupported (w : World) (filename tag : string) (img : Image) :
  disk w filename = Some img -> img_channels img <> 3 -> img_channels img <> 4 ->
  CreateGLTexture filename tag w
  = OK (false, with_gl (gl_after_setup (gl w)) (with_flip true w)).
Proof.
  intros Hd H3 H4. unfold CreateGLTexture.
  rewrite (bind_OK _ _ w (with_flip true w) tt eq_refl).
  erewrite bind_OK; [|unfold stbi_load; cbn [disk with_flip]; rewrite Hd; reflexivity].
  cbn [img_channels img_width img_height img_rows stbi_flip with_flip].
  apply Z.eqb_neq in H3, H4. rewrite H3, H4.
  reflexivity.
Qed.

(** The part of [CreateGLTexture] that runs once an image of a supported
    format has been decoded. *)
Lemma CreateGLTexture_upload (internal : InternalFormat) (format : PixelFormat)
    (image : Image) (tag : string) (w : World) :
  let body : M bool :=
    textureID ← glGenTextures1 ;
    glBindTexture textureID ;;
    glTexParameteri GL_TEXTURE_WRAP_S GL_REPEAT ;;
    glTexParameteri GL_TEXTURE_WRAP_T GL_REPEAT ;;
    glTexParameteri GL_TEXTURE_MIN_FILTER GL_LINEAR ;;
    glTexParameteri GL_TEXTURE_MAG_FILTER GL_LINEAR ;;
    glTexImage2D internal (img_width image) (img_height image) format (img_rows image) ;;
    glGenerateMipmap ;;
    glBindTexture 0 ;;
    s ← get_this ;
    texture_entry_update (m_loadedTextures s) (set_ID textureID) ;;
    texture_entry_update (m_loadedTextures s) (set_tag tag) ;;
    increment_loadedTextures ;;
    mret true in
  (0 <= m_loadedTextures (this w) < Z.of_nat (length (m_textureIDs (this w))) ->
   body w
   = OK (true,
         with_this
           (with_textures (m_loadedTextures (this w) + 1)
              (<[Z.to_nat (m_loadedTextures (this w))
                 := TEXTURE_INFO.make (gl_generated (gl w) + 1) tag]>
                 (m_textureIDs (this w)))
              (this w))
           (with_gl (gl_after_load internal format image (gl w)) w)))
  /\ (~ (0 <= m_loadedTextures (this w) < Z.of_nat (length (m_textureIDs (this w)))) ->
      body w = Fault ArrayOutOfBounds).
Proof.
  cbv zeta.
  do 10 (erewrite bind_OK; [|reflexivity]).
  match goal with |- context [_ ?W = OK _] => set (W1 := W) end.
  change (m_loadedTextures (this w)) with (m_loadedTextures (this W1)).
  change (m_textureIDs (this w)) with (m_textureIDs (this W1)).
  split; intros Hn.
  - rewrite register_entry by exact Hn. reflexivity.
  - now apply register_entry_overflow.
Qed.

Lemma CreateGLTexture_supported (w : World) (filename tag : string) (img : Image) :
  disk w filename = Some img ->
  img_channels img = 3 \/ img_channels img = 4 ->
  (0 <= m_loadedTextures (this w) < Z.of_nat (length (m_textureIDs (this w))) ->
   exists g,
     CreateGLTexture filename tag w
     = OK (true,
           with_this
             (with_textures (m_loadedTextures (this w) + 1)
                (<[Z.to_nat (m_loadedTextures (this w))
                   := TEXTURE_INFO.make (gl_generated (gl w) + 1) tag]>
                   (m_textureIDs (this w)))
                (this w))
             (with_gl g (with_flip true w)))
     /\ (g = gl_after_load GL_RGB8 GL_RGB (flipped img) (gl w)
         \/ g = gl_after_load GL_RGBA8 GL_RGBA (flipped img) (gl w)))
  /\ (~ (0 <= m_loadedTextures (this w) < Z.of_nat (length (m_textureIDs (this w)))) ->
      CreateGLTexture filename tag w = Fault ArrayOutOfBounds).
Proof.
  intros Hd Hc.
  unfold CreateGLTexture.
  rewrite (bind_OK _ _ w (with_flip true w) tt eq_refl).
  erewrite bind_OK; [|unfold stbi_load; cbn [disk with_flip]; rewrite Hd; reflexivity].
  cbn [img_channels img_width img_height img_rows stbi_flip with_flip].
  fold (flipped img).
  destruct Hc as [Hc | Hc]; rewrite Hc; cbn [Z.eqb Pos.eqb].
  - destruct (CreateGLTexture_upload GL_RGB8 GL_RGB (flipped img) tag (with_flip true w))
      as [Hin Hout].
    split; intros Hn.
    + eexists. split; [apply (Hin Hn)|]. left. reflexivity.
    + apply (Hout Hn).
  - destruct (CreateGLTexture_upload GL_RGBA8 GL_RGBA (flipped img) tag (with_flip true w))
      as [Hin Hout].
    split; intros Hn.
    + eexists. split; [apply (Hin Hn)|]. right. reflexivity.
    + apply (Hout Hn).
Qed.

(** Every normal return of [CreateGLTexture]: either it reports failure and
    the scene manager object is as before, or it reports success and the
    new entry sits at the index [m_loadedTextures] had, which is then one
    more.  The codec and the stack contents are never changed. *)
Lemma CreateGLTexture_inv (w w' : World) (filename tag : string) (b : bool) :
  CreateGLTexture filename tag w = OK (b, w') ->
  disk w' = disk w /\ uninitialised w' = uninitialised w /\
  ((b = false /\ this w' = this w)
   \/ (b = true
       /\ 0 <= m_loadedTextures (this w) < Z.of_nat (length (m_textureIDs (this w)))
       /\ exists id,
            this w' = with_textures (m_loadedTextures (this w) + 1)
                        (<[Z.to_nat (m_loadedTextures (this w)) := TEXTURE_INFO.make id tag]>
                           (m_textureIDs (this w)))
                        (this w))).
Proof.
  intros H.
  destruct (disk w filename) as [img|] eqn:Hd.
  - destruct (Z.eq_dec (img_channels img) 3) as [H3|H3];
      [|destruct (Z.eq_dec (img_channels img) 4) as [H4|H4]].
    3: { rewrite (CreateGLTexture_unsupported _ _ _ _ Hd H3 H4) in H.
         injection H as <- <-. repeat split. left. split; reflexivity. }
    all: destruct (CreateGLTexture_supported w filename tag img Hd ltac:(auto)) as [Hin Hout].
    all: destruct (decide (0 <= m_loadedTextures (this w)
                             < Z.of_nat (length (m_textureIDs (this w))))) as [Hn|Hn].
    all: try (rewrite (Hout Hn) in H; discriminate).
    all: destruct (Hin Hn) as (g & E & _); rewrite E in H; injection H as <- <-.
    all: repeat split; right; split; [reflexivity|]; split; [exact Hn|]; eexists; reflexivity.
  - rewrite (CreateGLTexture_unreadable _ _ _ Hd) in H.
    injection H as <- <-. repeat split. left. split; reflexivity.
Qed.

Lemma registered_tags_push (s : SceneManager) (e : TEXTURE_INFO.t) :
  0 <= m_loadedTextures s < Z.of_nat (length (m_textureIDs s)) ->
  registered_tags
    (with_textures (m_loadedTextures s + 1)
       (<[Z.to_nat (m_loadedTextures s) := e]> (m_textureIDs s)) s)
  = registered_tags s ++ [TEXTURE_INFO.tag e].
Proof.
  intros Hn. unfold registered_tags. cbn [m_loadedTextures m_textureIDs with_textures].
  replace (Z.to_nat (m_loadedTextures s + 1)) with (S (Z.to_nat (m_loadedTextures s))) by lia.
  rewrite (take_S_r _ _ e).
  - rewrite fmap_app. f_equal. f_equal. apply take_insert_ge. lia.
  - apply list_lookup_insert_eq. lia.
Qed.

Lemma wf_textures_push (s : SceneManager) (e : TEXTURE_INFO.t) :
  length (m_textureIDs s) = MAX_TEXTURES ->
  0 <= m_loadedTextures s < Z.of_nat (length (m_textureIDs s)) ->
  wf_textures
    (with_textures (m_loadedTextures s + 1)
       (<[Z.to_nat (m_loadedTextures s) := e]> (m_textureIDs s)) s).
Proof.
  intros Hlen Hn. unfold wf_textures. cbn [m_loadedTextures m_textureIDs with_textures].
  rewrite length_insert. split; [exact Hlen|]. rewrite <- Hlen. lia.
Qed.

(** A run of loads that all succeed appends its tags, in order, to the
    registered ones. *)
Lemma load_textures_tags (requests : list (string * string)) :
  forall (w w' : World) (results : list bool),
    wf_textures (this w) ->
    load_textures requests w = OK (results, w') ->
    Forall (fun b => b = true) results ->
    wf_textures (this w')
    /\ m_loadedTextures (this w') = m_loadedTextures (this w) + Z.of_nat (length requests)
    /\ registered_tags (this w') = registered_tags (this w) ++ requests.*2.
Proof.
  induction requests as [|[filename tag] rest IH]; intros w w' results Hwf Hrun Hall.
  - injection Hrun as <- <-. cbn. rewrite app_nil_r.
    repeat split; [apply Hwf ..|lia].
  - cbn [load_textures] in Hrun.
    apply bind_inv in Hrun as (b & w1 & Hload & Hrun).
    apply bind_inv in Hrun as (bs & w2 & Hrest & Hret).
    injection Hret as <- <-.
    apply Forall_cons in Hall as [-> Hall].
    apply CreateGLTexture_inv in Hload as (_ & _ & [[Hb _] | (_ & Hn & id & Hthis)]);
      [discriminate|].
    destruct Hwf as [Hlen Hrange].
    assert (Hwf1 : wf_textures (this w1)).
    { rewrite Hthis. now apply wf_textures_push. }
    destruct (IH w1 w2 bs Hwf1 Hrest Hall) as (Hwf2 & Hcount & Htags).
    split; [exact Hwf2|]. split.
    + rewrite Hcount, Hthis. cbn [m_loadedTextures with_textures length]. lia.
    + rewrite Htags, Hthis, registered_tags_push by exact Hn.
      cbn [fmap list_fmap TEXTURE_INFO.tag snd]. now rewrite <- app_assoc.
Qed.

Lemma registered_tags_lookup (s : SceneManager) (i : nat) (tag : string) :
  registered_tags s !! i = Some tag ->
  exists e, take (Z.to_nat (m_loadedTextures s)) (m_textureIDs s) !! i = Some e
            /\ TEXTURE_INFO.tag e = tag.
Proof.
  unfold registered_tags. rewrite list_lookup_fmap.
  destruct (take _ _ !! i) as [e|]; [|discriminate].
  intros [= <-]. now exists e.
Qed.

(** [FindTextureSlot] returns the index of the first registered entry that
    carries the tag. *)
Lemma FindTextureSlot_first (s : SceneManager) (tag : string) (i : nat) :
  wf_textures s ->
  registered_tags s !! i = Some tag ->
  (forall j, (j < i)%nat -> registered_tags s !! j <> Some tag) ->
  FindTextureSlot s tag = OK (Z.of_nat i).
Proof.
  intros Hwf Hi Hfirst.
  rewrite FindTextureSlot_scan by exact Hwf.
  apply registered_tags_lookup in Hi as (e & He & Htag).
  rewrite (scan_slot_first _ tag 0 i e He Htag); [reflexivity|].
  intros k e' Hk He' Heq. apply (Hfirst k Hk).
  unfold registered_tags. rewrite list_lookup_fmap, He'. cbn. now rewrite Heq.
Qed.

(** [FindTextureSlot] returns -1 for a tag that no registered entry carries. *)
Lemma FindTextureSlot_miss (s : SceneManager) (tag : string) :
  wf_textures s -> tag ∉ registered_tags s -> FindTextureSlot s tag = OK (-1).
Proof.
  intros Hwf Hmiss.
  rewrite FindTextureSlot_scan by exact Hwf.
  rewrite scan_slot_miss; [reflexivity|].
  intros e He Heq. apply Hmiss. unfold registered_tags.
  apply list_elem_of_fmap. now exists e.
Qed.

(** ** Texture registry: the claims *)

(** C5, as amended.  After a run of texture loads from an empty registry
    that all succeed, the i-th load is registered at index i, and
    [FindTextureSlot] on a tag returns the index of the first load that
    carried it; when the tags are pairwise distinct that is every texture's
    own insertion index. *)
Theorem load_textures_slots (w w' : World) (requests : list (string * string))
    (results : list bool) :
  m_loadedTextures (this w) = 0 ->
  length (m_textureIDs (this w)) = MAX_TEXTURES ->
  load_textures requests w = OK (results, w') ->
  Forall (fun b => b = true) results ->
  m_loadedTextures (this w') = Z.of_nat (length requests)
  /\ registered_tags (this w') = requests.*2
  /\ (forall (i : nat) (tag : string),
        requests.*2 !! i = Some tag ->
        (forall j, (j < i)%nat -> requests.*2 !! j <> Some tag) ->
        FindTextureSlot (this w') tag = OK (Z.of_nat i))
  /\ (NoDup requests.*2 ->
      forall (i : nat) (tag : string),
        requests.*2 !! i = Some tag ->
        FindTextureSlot (this w') tag = OK (Z.of_nat i)).
Proof.
  intros H0 Hlen Hrun Hall.
  assert (Hwf : wf_textures (this w)).
  { split; [exact Hlen|]. rewrite H0. unfold MAX_TEXTURES. lia. }
  destruct (load_textures_tags requests w w' results Hwf Hrun Hall) as (Hwf' & Hcount & Htags).
  assert (Hempty : registered_tags (this w) = []).
  { unfold registered_tags. now rewrite H0. }
  rewrite Hempty in Htags. cbn [app] in Htags.
  assert (Hfirst : forall (i : nat) (tag : string),
            requests.*2 !! i = Some tag ->
            (forall j, (j < i)%nat -> requests.*2 !! j <> Some tag) ->
            FindTextureSlot (this w') tag = OK (Z.of_nat i)).
  { intros i tag Hi Hj. apply FindTextureSlot_first; [exact Hwf'| |]; now rewrite Htags. }
  split; [lia|]. split; [exact Htags|]. split; [exact Hfirst|].
  intros Hnodup i tag Hi. apply Hfirst; [exact Hi|].
  intros j Hj Hjt.
  pose proof (NoDup_lookup _ _ _ _ Hnodup Hi Hjt). lia.
Qed.

Lemma load_textures_slots_witness :
  exists w',
    load_textures [("a.jpg", "A"); ("b.jpg", "B"); ("c.jpg", "C")] example_world
    = OK ([true; true; true], w')
    /\ FindTextureSlot (this w') "A" = OK 0
    /\ FindTextureSlot (this w') "B" = OK 1
    /\ FindTextureSlot (this w') "C" = OK 2.
Proof.
  destruct (load_textures [("a.jpg", "A"); ("b.jpg", "B"); ("c.jpg", "C")] example_world)
    as [[results w']|f] eqn:Hrun; [|vm_compute in Hrun; discriminate].
  assert (Hres : results = [true; true; true]).
  { vm_compute in Hrun. congruence. }
  subst results. exists w'. split; [reflexivity|].
  assert (Hnodup : NoDup ([("a.jpg", "A"); ("b.jpg", "B"); ("c.jpg", "C")].*2 : list string)).
  { apply (bool_decide_unpack _). vm_compute. exact I. }
  destruct (load_textures_slots example_world w' _ _ eq_refl eq_refl Hrun
              ltac:(repeat constructor)) as (_ & _ & _ & Hslots).
  repeat split.
  - exact (Hslots Hnodup 0%nat "A" eq_refl).
  - exact (Hslots Hnodup 1%nat "B" eq_refl).
  - exact (Hslots Hnodup 2%nat "C" eq_refl).
Defined.

(** C5, as stated, fails when a tag is loaded twice: both loads succeed,
    the second is registered at index 1, and [FindTextureSlot] on its tag
    returns 0. *)
Lemma load_textures_repeated_tag :
  exists w',
    load_textures [("a.jpg", "A"); ("b.jpg", "A")] example_world = OK ([true; true], w')
    /\ registered_tags (this w') !! 1%nat = Some "A"
    /\ FindTextureSlot (this w') "A" = OK 0
    /\ FindTextureSlot (this w') "A" <> OK 1.
Proof.
  eexists. split; [vm_compute; reflexivity|].
  split; [vm_compute; reflexivity|].
  split; [vm_compute; reflexivity|].
  vm_compute. discriminate.
Qed.

(** C6.  When the decoded image has neither 3 nor 4 channels,
    [CreateGLTexture] returns [false] and leaves the scene manager object
    as it was: no entry of [m_textureIDs] is written and [m_loadedTextures]
    is not incremented, so every lookup answers as before. *)
Theorem CreateGLTexture_rejects_channels (w : World) (filename tag : string) (img : Image) :
  disk w filename = Some img ->
  img_channels img <> 3 ->
  img_channels img <> 4 ->
  exists w',
    CreateGLTexture filename tag w = OK (false, w')
    /\ this w' = this w
    /\ m_textureIDs (this w') = m_textureIDs (this w)
    /\ m_loadedTextures (this w') = m_loadedTextures (this w)
    /\ (forall t, FindTextureSlot (this w') t = FindTextureSlot (this w) t).
Proof.
  intros Hd H3 H4.
  rewrite (CreateGLTexture_unsupported w filename tag img Hd H3 H4).
  eexists. split; [reflexivity|]. repeat split.
Qed.

Lemma CreateGLTexture_rejects_channels_witness :
  exists w',
    CreateGLTexture "gray.png" "Gray" example_world = OK (false, w')
    /\ this w' = this example_world
    /\ m_textureIDs (this w') = m_textureIDs (this example_world)
    /\ m_loadedTextures (this w') = m_loadedTextures (this example_world)
    /\ (forall t, FindTextureSlot (this w') t = FindTextureSlot (this example_world) t).
Proof.
  apply (CreateGLTexture_rejects_channels example_world "gray.png" "Gray"
           {| img_width := 1; img_height := 1; img_channels := 2;
              img_rows := [[Byte.x80; Byte.xff]] |}).
  - reflexivity.
  - discriminate.
  - discriminate.
Defined.

Lemma SetShaderTexture_attached (w : World) (u : gmap string Uniform)
    (textureTag : string) (slot : Z) :
  m_pShaderManager (this w) = Some u ->
  FindTextureSlot (this w) textureTag = OK slot ->
  SetShaderTexture textureTag w
  = OK (tt, with_this
              (with_shader
                 (Some (<[g_TextureValueName := USampler2D slot]>
                          (<[g_UseTextureName := UInt 1]> u)))
                 (this w)) w).
Proof.
  intros Hu Hslot.
  unfold SetShaderTexture, get_this, shader_call, call_const, mbind, M_bind.
  rewrite Hu. cbn [not_null]. rewrite Hu.
  cbn [this with_this m_pShaderManager with_shader].
  change (FindTextureSlot (with_shader ?p (this w)) textureTag)
    with (FindTextureSlot (this w) textureTag).
  rewrite Hslot. reflexivity.
Qed.

Lemma SetShaderTexture_null (w : World) (textureTag : string) :
  m_pShaderManager (this w) = None -> SetShaderTexture textureTag w = OK (tt, w).
Proof.
  intros Hu. unfold SetShaderTexture, get_this, mbind, M_bind.
  rewrite Hu. reflexivity.
Qed.

(** C7.  For a tag that no registered texture carries, [FindTextureSlot]
    returns -1, and [SetShaderTexture] with that tag returns normally; on
    the attached shader manager it sets [bUseTexture] to true (the integer
    1) and writes -1 to the sampler uniform [objectTexture]. *)
Theorem FindTextureSlot_miss_sentinel (w : World) (tag : string) :
  wf_textures (this w) ->
  tag ∉ registered_tags (this w) ->
  FindTextureSlot (this w) tag = OK (-1)
  /\ exists w',
       SetShaderTexture tag w = OK (tt, w')
       /\ forall u, m_pShaderManager (this w) = Some u ->
            exists u', m_pShaderManager (this w') = Some u'
              /\ u' !! g_UseTextureName = Some (UInt 1)
              /\ u' !! g_TextureValueName = Some (USampler2D (-1)).
Proof.
  intros Hwf Hmiss.
  pose proof (FindTextureSlot_miss _ _ Hwf Hmiss) as Hslot.
  split; [exact Hslot|].
  destruct (m_pShaderManager (this w)) as [u|] eqn:Hu.
  - rewrite (SetShaderTexture_attached w u tag (-1) Hu Hslot).
    eexists. split; [reflexivity|].
    intros u0 [= <-]. eexists. split; [reflexivity|]. split.
    + rewrite lookup_insert_ne by discriminate. apply lookup_insert_eq.
    + apply lookup_insert_eq.
  - rewrite (SetShaderTexture_null w tag Hu).
    eexists. split; [reflexivity|]. intros u0 Hu0. discriminate.
Qed.

Lemma FindTextureSlot_miss_sentinel_witness :
  FindTextureSlot (this example_world) "nonexistent" = OK (-1)
  /\ exists w',
       SetShaderTexture "nonexistent" example_world = OK (tt, w')
       /\ forall u, m_pShaderManager (this example_world) = Some u ->
            exists u', m_pShaderManager (this w') = Some u'
              /\ u' !! g_UseTextureName = Some (UInt 1)
              /\ u' !! g_TextureValueName = Some (USampler2D (-1)).
Proof.
  apply (FindTextureSlot_miss_sentinel example_world "nonexistent").
  - split; [reflexivity|]. vm_compute. split; discriminate.
  - vm_compute. intros H. inversion H.
Defined.

(** ** The null shader manager *)

Lemma SetShaderMaterial_null (w : World) (materialTag : string) :
  m_pShaderManager (this w) = None ->
  SetShaderMaterial materialTag w
  = match m_objectMaterials (this w) with
    | [] => OK (tt, w)
    | _ :: _ => Fault NullDereference
    end.
Proof.
  intros Hu. unfold SetShaderMaterial.
  rewrite (bind_OK _ _ w w (this w) eq_refl).
  destruct (m_objectMaterials (this w)) as [|e l] eqn:El; [reflexivity|].
  cbn [length Nat.ltb Nat.leb].
  rewrite (bind_OK _ _ w w (uninitialised w) eq_refl).
  unfold call_const at 1. unfold mbind at 1, M_bind at 1.
  rewrite FindMaterial_scan, El.
  cbn [Bool.eqb].
  apply bind_Fault. unfold shader_call. now rewrite Hu.
Qed.

(** C10.  With a null shader-manager pointer, [SetTransformations],
    [SetShaderColor], [SetShaderTexture] and [SetTextureUVScale] return
    normally and change nothing; [SetShaderMaterial] has no such guard: with
    a non-empty material registry it dereferences the null pointer, whatever
    the tag, and it returns normally only when the registry is empty. *)
Theorem null_shader_manager_guards (w : World) :
  m_pShaderManager (this w) = None ->
  (forall scaleXYZ rx ry rz positionXYZ,
      SetTransformations scaleXYZ rx ry rz positionXYZ w = OK (tt, w))
  /\ (forall r g b a, SetShaderColor r g b a w = OK (tt, w))
  /\ (forall textureTag, SetShaderTexture textureTag w = OK (tt, w))
  /\ (forall u v, SetTextureUVScale u v w = OK (tt, w))
  /\ (forall materialTag,
        m_objectMaterials (this w) <> [] ->
        SetShaderMaterial materialTag w = Fault NullDereference)
  /\ (forall materialTag,
        m_objectMaterials (this w) = [] ->
        SetShaderMaterial materialTag w = OK (tt, w)).
Proof.
  intros Hu. repeat split.
  - intros. unfold SetTransformations, get_this, mbind, M_bind. now rewrite Hu.
  - intros. unfold SetShaderColor, get_this, mbind, M_bind. now rewrite Hu.
  - intros. now apply SetShaderTexture_null.
  - intros. unfold SetTextureUVScale, get_this, mbind, M_bind. now rewrite Hu.
  - intros materialTag Hne. rewrite SetShaderMaterial_null by exact Hu.
    destruct (m_objectMaterials (this w)); [contradiction|reflexivity].
  - intros materialTag He. rewrite SetShaderMaterial_null by exact Hu.
    now rewrite He.
Qed.

Lemma null_shader_manager_guards_witness :
  SetTransformations (Vec3 2 1 1) 0 90 0 (Vec3 1 0 0) example_null_world
    = OK (tt, example_null_world)
  /\ SetShaderColor 1 1 1 1 example_null_world = OK (tt, example_null_world)
  /\ SetShaderTexture "Floor" example_null_world = OK (tt, example_null_world)
  /\ SetTextureUVScale 3 3 example_null_world = OK (tt, example_null_world)
  /\ SetShaderMaterial "floorMat" example_null_world = Fault NullDereference
  /\ SetShaderMaterial "nonexistent" example_null_world = Fault NullDereference.
Proof.
  destruct (null_shader_manager_guards example_null_world eq_refl)
    as (H1 & H2 & H3 & H4 & H5 & _).
  assert (Hne : m_objectMaterials (this example_null_world) <> []).
  { vm_compute. discriminate. }
  exact (conj (H1 _ _ _ _ _) (conj (H2 _ _ _ _) (conj (H3 _) (conj (H4 _ _)
           (conj (H5 _ Hne) (H5 _ Hne)))))).
Defined.

(** ** Render-pass flags through the calls of a frame *)

Lemma tracks_bind (c1 c2 : M unit) (f1 f2 : RenderPassState -> RenderPassState) :
  tracks c1 f1 -> tracks c2 f2 -> tracks (c1 ;; c2) (fun p => f2 (f1 p)).
Proof.
  intros H1 H2 w Hw.
  destruct (H1 w Hw) as (w1 & E1 & Hw1 & P1).
  destruct (H2 w1 Hw1) as (w2 & E2 & Hw2 & P2).
  exists w2. split; [|split; [exact Hw2|]].
  - rewrite (bind_OK _ _ _ _ _ E1). exact E2.
  - now rewrite P2, P1.
Qed.

Lemma tracks_ext (c : M unit) (f g : RenderPassState -> RenderPassState) :
  tracks c f -> (forall p, f p = g p) -> tracks c g.
Proof.
  intros H Hfg w Hw. destruct (H w Hw) as (w' & E & Hw' & P).
  exists w'. rewrite <- Hfg. auto.
Qed.

Lemma tracks_gl_call (g : GLContext -> GLContext) (f : RenderPassState -> RenderPassState) :
  (forall w, pass_state (with_gl (g (gl w)) w) = f (pass_state w)) ->
  tracks (gl_call g) f.
Proof.
  intros H w Hw. exists (with_gl (g (gl w)) w).
  split; [reflexivity|]. split; [exact Hw|apply H].
Qed.

Lemma tracks_glEnable (c : Capability) : tracks (glEnable c) (pass_set_cap c true).
Proof. apply tracks_gl_call. intros w. destruct c; reflexivity. Qed.

Lemma tracks_glDisable (c : Capability) : tracks (glDisable c) (pass_set_cap c false).
Proof. apply tracks_gl_call. intros w. destruct c; reflexivity. Qed.

Lemma tracks_glBlendFunc (s d : BlendFactor) :
  tracks (glBlendFunc s d) (pass_set_blend_func s d).
Proof. apply tracks_gl_call. reflexivity. Qed.

Lemma tracks_glDepthMask (b : bool) : tracks (glDepthMask b) (pass_set_depth_mask b).
Proof. apply tracks_gl_call. reflexivity. Qed.

Lemma tracks_glCullFace (m : CullMode) : tracks (glCullFace m) (fun p => p).
Proof. apply tracks_gl_call. reflexivity. Qed.

Lemma tracks_draw_mesh (m : Mesh) : tracks (draw_mesh m) (fun p => p).
Proof. apply tracks_gl_call. reflexivity. Qed.

Lemma tracks_set_lighting (b : bool) :
  tracks (shader_call (ShaderManager.setBoolValue "bUseLighting" b)) (pass_set_lighting b).
Proof.
  intros w [Hu Hwf].
  destruct (m_pShaderManager (this w)) as [u|] eqn:E; [|contradiction].
  eexists. split; [unfold shader_call; rewrite E; reflexivity|].
  split; [split; [discriminate|exact Hwf]|].
  unfold pass_state, pass_set_lighting. cbn. unfold ShaderManager.setBoolValue.
  unfold g_UseLightingName. now rewrite lookup_insert_eq.
Qed.

Lemma tracks_writes (c : M unit) : writes_uniforms c -> tracks c (fun p => p).
Proof.
  intros H w [Hu Hwf].
  destruct (m_pShaderManager (this w)) as [u|] eqn:E; [|contradiction].
  destruct (H w u Hwf E) as (u' & Ec & Hl).
  eexists. split; [exact Ec|].
  split; [split; [discriminate|exact Hwf]|].
  unfold pass_state. cbn. unfold lighting_of. rewrite E, Hl. reflexivity.
Qed.

Lemma writes_shader_call (f : gmap string Uniform -> gmap string Uniform) :
  (forall u, f u !! g_UseLightingName = u !! g_UseLightingName) ->
  writes_uniforms (shader_call f).
Proof.
  intros H w u _ E. exists (f u). split; [|apply H].
  unfold shader_call. now rewrite E.
Qed.

Lemma tracks_set_color (v : vec4) :
  tracks (shader_call (ShaderManager.setVec4Value g_ColorValueName v)) (fun p => p).
Proof.
  apply tracks_writes, writes_shader_call. intros u.
  unfold ShaderManager.setVec4Value.
  rewrite lookup_insert_ne by (vm_compute; discriminate). reflexivity.
Qed.

Lemma SetTransformations_attached (w : World) (u : gmap string Uniform)
    (scaleXYZ : vec3) (rx ry rz : R) (positionXYZ : vec3) :
  m_pShaderManager (this w) = Some u ->
  SetTransformations scaleXYZ rx ry rz positionXYZ w
  = OK (tt, with_this
              (with_shader
                 (Some (<[g_ModelName := UMat4 (modelView scaleXYZ rx ry rz positionXYZ)]> u))
                 (this w)) w).
Proof.
  intros Hu. unfold SetTransformations, get_this, shader_call, mbind, M_bind.
  rewrite Hu. cbn [not_null]. rewrite Hu. reflexivity.
Qed.

Lemma SetShaderColor_attached (w : World) (u : gmap string Uniform) (r g b a : R) :
  m_pShaderManager (this w) = Some u ->
  SetShaderColor r g b a w
  = OK (tt, with_this
              (with_shader
                 (Some (<[g_ColorValueName := UVec4 (Vec4 r g b a)]>
                          (<[g_UseTextureName := UInt 0]> u)))
                 (this w)) w).
Proof.
  intros Hu. unfold SetShaderColor, get_this, shader_call, mbind, M_bind.
  rewrite Hu. cbn [not_null]. rewrite Hu. reflexivity.
Qed.

Lemma SetTextureUVScale_attached (w : World) (u : gmap string Uniform) (a b : R) :
  m_pShaderManager (this w) = Some u ->
  SetTextureUVScale a b w
  = OK (tt, with_this
              (with_shader (Some (<["UVscale" := UVec2 (Vec2 a b)]> u)) (this w)) w).
Proof.
  intros Hu. unfold SetTextureUVScale, get_this, shader_call, mbind, M_bind.
  rewrite Hu. cbn [not_null]. rewrite Hu. reflexivity.
Qed.

(** With a shader manager attached and a non-empty registry,
    [SetShaderMaterial] writes the three material uniforms from its local
    [material], whatever [FindMaterial] left in it. *)
Lemma SetShaderMaterial_attached (w : World) (u : gmap string Uniform) (materialTag : string) :
  m_pShaderManager (this w) = Some u ->
  SetShaderMaterial materialTag w
  = match m_objectMaterials (this w) with
    | [] => OK (tt, w)
    | _ :: _ =>
        let material :=
          snd (scan_material (m_objectMaterials (this w)) materialTag 0 (uninitialised w)) in
        OK (tt, with_this
                  (with_shader
                     (Some (<["material.shininess" := UFloat (OBJECT_MATERIAL.shininess material)]>
                              (<["material.specularColor" := UVec3 (OBJECT_MATERIAL.specularColor material)]>
                                 (<["material.diffuseColor" := UVec3 (OBJECT_MATERIAL.diffuseColor material)]> u))))
                     (this w)) w)
    end.
Proof.
  intros Hu. unfold SetShaderMaterial.
  rewrite (bind_OK _ _ w w (this w) eq_refl).
  destruct (m_objectMaterials (this w)) as [|e l] eqn:El; [reflexivity|].
  cbn [length Nat.ltb Nat.leb].
  rewrite (bind_OK _ _ w w (uninitialised w) eq_refl).
  unfold call_const at 1. unfold mbind at 1, M_bind at 1.
  rewrite FindMaterial_scan, El.
  cbn [Bool.eqb].
  unfold shader_call, mbind, M_bind. rewrite Hu.
  cbn [this with_this m_pShaderManager with_shader]. reflexivity.
Qed.

Lemma writes_SetTransformations (scaleXYZ : vec3) (rx ry rz : R) (positionXYZ : vec3) :
  writes_uniforms (SetTransformations scaleXYZ rx ry rz positionXYZ).
Proof.
  intros w u _ Hu. eexists. split; [exact (SetTransformations_attached w u _ _ _ _ _ Hu)|].
  rewrite lookup_insert_ne by (vm_compute; discriminate). reflexivity.
Qed.

Lemma writes_SetShaderColor (r g b a : R) : writes_uniforms (SetShaderColor r g b a).
Proof.
  intros w u _ Hu. eexists. split; [exact (SetShaderColor_attached w u _ _ _ _ Hu)|].
  rewrite !lookup_insert_ne by (vm_compute; discriminate). reflexivity.
Qed.

Lemma writes_SetTextureUVScale (a b : R) : writes_uniforms (SetTextureUVScale a b).
Proof.
  intros w u _ Hu. eexists. split; [exact (SetTextureUVScale_attached w u _ _ Hu)|].
  rewrite lookup_insert_ne by (vm_compute; discriminate). reflexivity.
Qed.

Lemma FindTextureSlot_total (s : SceneManager) (tag : string) :
  wf_textures s -> exists slot, FindTextureSlot s tag = OK slot.
Proof. intros Hwf. eexists. now apply FindTextureSlot_scan. Qed.

Lemma writes_SetShaderTexture (textureTag : string) : writes_uniforms (SetShaderTexture textureTag).
Proof.
  intros w u Hwf Hu.
  destruct (FindTextureSlot_total (this w) textureTag Hwf) as [slot Hslot].
  eexists. split; [exact (SetShaderTexture_attached w u _ _ Hu Hslot)|].
  rewrite !lookup_insert_ne by (vm_compute; discriminate). reflexivity.
Qed.

Lemma writes_SetShaderMaterial (materialTag : string) :
  writes_uniforms (SetShaderMaterial materialTag).
Proof.
  intros w u _ Hu. rewrite (SetShaderMaterial_attached w u materialTag Hu).
  destruct (m_objectMaterials (this w)) as [|e l].
  - exists u. split; [|reflexivity].
    destruct w as [s g d fl un]. destruct s. cbn in Hu. subst. reflexivity.
  - eexists. split; [reflexivity|].
    rewrite !lookup_insert_ne by (vm_compute; discriminate). reflexivity.
Qed.

Create HintDb pass_flags discriminated.
#[local] Hint Resolve writes_SetTransformations writes_SetShaderColor writes_SetTextureUVScale
  writes_SetShaderTexture writes_SetShaderMaterial : pass_flags.

(** Walk down a chain of calls, composing the effect of each. *)
Ltac track_calls :=
  repeat lazymatch goal with
    | |- tracks (mbind _ _) _ => eapply tracks_bind
    | |- tracks (glEnable _) _ => apply tracks_glEnable
    | |- tracks (glDisable _) _ => apply tracks_glDisable
    | |- tracks (glBlendFunc _ _) _ => apply tracks_glBlendFunc
    | |- tracks (glDepthMask _) _ => apply tracks_glDepthMask
    | |- tracks (glCullFace _) _ => apply tracks_glCullFace
    | |- tracks (draw_mesh _) _ => apply tracks_draw_mesh
    | |- tracks (shader_call (ShaderManager.setBoolValue _ _)) _ => apply tracks_set_lighting
    | |- tracks (shader_call (ShaderManager.setVec4Value _ _)) _ => apply tracks_set_color
    | |- tracks _ _ => apply tracks_writes; solve [auto with pass_flags]
    end.

Lemma tracks_RenderScene_bulb_halo :
  tracks RenderScene_bulb_halo
    (fun p => pass_set_cap GL_BLEND true (pass_set_lighting true
                (pass_set_blend_func GL_SRC_ALPHA GL_ONE_MINUS_SRC_ALPHA
                   (pass_set_cap GL_DEPTH_TEST true (pass_set_depth_mask true p))))).
Proof.
  eapply tracks_ext.
  - unfold RenderScene_bulb_halo. cbv zeta. track_calls.
  - intros [? ? ? ? ? ? ?]. reflexivity.
Qed.

Lemma tracks_RenderScene_glass_shade :
  tracks RenderScene_glass_shade
    (fun p => pass_set_cap GL_BLEND true
                (pass_set_blend_func GL_SRC_ALPHA GL_ONE_MINUS_SRC_ALPHA
                   (pass_set_cap GL_CULL_FACE false (pass_set_depth_mask true p)))).
Proof.
  eapply tracks_ext.
  - unfold RenderScene_glass_shade. cbv zeta. track_calls.
  - intros [? ? ? ? ? ? ?]. reflexivity.
Qed.

Lemma tracks_RenderScene_opaque :
  tracks RenderScene_opaque (fun _ => opaque_baseline).
Proof.
  eapply tracks_ext.
  - unfold RenderScene_opaque. cbv zeta. track_calls.
  - intros [? ? ? ? ? ? ?]. reflexivity.
Qed.

(** The render-pass flags at the three stations of one [RenderScene] call:
    after the opaque objects, after the glass shade and at the end. *)
Lemma RenderScene_pass_states (w : World) :
  renderable w ->
  exists w1 w2 w3,
    RenderScene_opaque w = OK (tt, w1) /\ pass_state w1 = opaque_baseline
    /\ RenderScene_glass_shade w1 = OK (tt, w2) /\ pass_state w2 = end_of_frame
    /\ RenderScene_bulb_halo w2 = OK (tt, w3) /\ pass_state w3 = end_of_frame
    /\ RenderScene w = OK (tt, w3) /\ renderable w3.
Proof.
  intros Hw.
  destruct (tracks_RenderScene_opaque w Hw) as (w1 & E1 & Hw1 & P1).
  destruct (tracks_RenderScene_glass_shade w1 Hw1) as (w2 & E2 & Hw2 & P2).
  destruct (tracks_RenderScene_bulb_halo w2 Hw2) as (w3 & E3 & Hw3 & P3).
  rewrite P1 in P2. rewrite P2 in P3.
  exists w1, w2, w3.
  split; [exact E1|]. split; [exact P1|].
  split; [exact E2|]. split; [exact P2|].
  split; [exact E3|]. split; [exact P3|].
  split; [|exact Hw3].
  unfold RenderScene.
  rewrite (bind_OK _ _ _ _ _ E1), (bind_OK _ _ _ _ _ E2). exact E3.
Qed.

(** C2, as amended.  Within one [RenderScene] call the reset at the top puts
    every render-pass flag at the opaque baseline, whatever the state on
    entry, and the opaque objects leave it there.  After the glass shade
    and the halo the blend factors, depth writes, the depth test, culling
    and lighting are back at their baseline values, and blending is left
    enabled; the reset at the top of the next call turns it off again. *)
Theorem RenderScene_restores_all_but_blending (w : World) :
  renderable w ->
  exists w1 w3 w4,
    RenderScene_opaque w = OK (tt, w1)
    /\ pass_state w1 = opaque_baseline
    /\ RenderScene w = OK (tt, w3)
    /\ blendSrc (pass_state w3) = blendSrc opaque_baseline
    /\ blendDst (pass_state w3) = blendDst opaque_baseline
    /\ depthWriteEnabled (pass_state w3) = depthWriteEnabled opaque_baseline
    /\ depthTestEnabled (pass_state w3) = depthTestEnabled opaque_baseline
    /\ cullEnabled (pass_state w3) = cullEnabled opaque_baseline
    /\ lightingEnabled (pass_state w3) = lightingEnabled opaque_baseline
    /\ blendEnabled (pass_state w3) = true
    /\ RenderScene_opaque w3 = OK (tt, w4)
    /\ pass_state w4 = opaque_baseline.
Proof.
  intros Hw.
  destruct (RenderScene_pass_states w Hw)
    as (w1 & w2 & w3 & E1 & P1 & _ & _ & _ & P3 & E & Hw3).
  destruct (tracks_RenderScene_opaque w3 Hw3) as (w4 & E4 & _ & P4).
  exists w1, w3, w4.
  split; [exact E1|]. split; [exact P1|]. split; [exact E|].
  rewrite P3.
  do 7 (split; [reflexivity|]).
  split; [exact E4|exact P4].
Qed.

Lemma RenderScene_restores_all_but_blending_witness :
  exists w1 w3 w4,
    RenderScene_opaque example_world = OK (tt, w1)
    /\ pass_state w1 = opaque_baseline
    /\ RenderScene example_world = OK (tt, w3)
    /\ blendSrc (pass_state w3) = blendSrc opaque_baseline
    /\ blendDst (pass_state w3) = blendDst opaque_baseline
    /\ depthWriteEnabled (pass_state w3) = depthWriteEnabled opaque_baseline
    /\ depthTestEnabled (pass_state w3) = depthTestEnabled opaque_baseline
    /\ cullEnabled (pass_state w3) = cullEnabled opaque_baseline
    /\ lightingEnabled (pass_state w3) = lightingEnabled opaque_baseline
    /\ blendEnabled (pass_state w3) = true
    /\ RenderScene_opaque w3 = OK (tt, w4)
    /\ pass_state w4 = opaque_baseline.
Proof.
  apply (RenderScene_restores_all_but_blending example_world).
  split.
  - discriminate.
  - split; [reflexivity|]. vm_compute. split; discriminate.
Defined.

Lemma example_world_renderable : renderable example_world.
Proof.
  split; [discriminate|]. split; [reflexivity|]. vm_compute. split; discriminate.
Qed.

(** C2, as stated, fails: in the opaque pass of a frame blending is
    disabled, and when the same [RenderScene] call returns it is enabled. *)
Lemma RenderScene_blending_not_restored :
  exists w1 w3,
    RenderScene_opaque example_world = OK (tt, w1)
    /\ RenderScene example_world = OK (tt, w3)
    /\ blendEnabled (pass_state w1) = false
    /\ blendEnabled (pass_state w3) = true
    /\ pass_state w3 <> pass_state w1
    /\ pass_state w3 <> opaque_baseline.
Proof.
  destruct (RenderScene_pass_states example_world example_world_renderable)
    as (w1 & w2 & w3 & E1 & P1 & _ & _ & _ & P3 & E & _).
  exists w1, w3.
  split; [exact E1|]. split; [exact E|].
  rewrite P1, P3.
  split; [reflexivity|]. split; [reflexivity|]. split; discriminate.
Qed.

(** ** Stale material state *)

(** C8 fails on the code: when the registry is non-empty and no entry
    carries the tag, [FindMaterial] still reports success, so
    [SetShaderMaterial] overwrites the three material uniforms with the
    contents of its uninitialised local instead of leaving them alone. *)
Theorem SetShaderMaterial_miss_writes_uninitialised (w : World)
    (u : gmap string Uniform) (materialTag : string) :
  m_pShaderManager (this w) = Some u ->
  m_objectMaterials (this w) <> [] ->
  materialTag ∉ OBJECT_MATERIAL.tag <$> m_objectMaterials (this w) ->
  exists u',
    SetShaderMaterial materialTag w
    = OK (tt, with_this (with_shader (Some u') (this w)) w)
    /\ u' !! "material.diffuseColor"
       = Some (UVec3 (OBJECT_MATERIAL.diffuseColor (uninitialised w)))
    /\ u' !! "material.specularColor"
       = Some (UVec3 (OBJECT_MATERIAL.specularColor (uninitialised w)))
    /\ u' !! "material.shininess"
       = Some (UFloat (OBJECT_MATERIAL.shininess (uninitialised w))).
Proof.
  intros Hu Hne Hmiss.
  rewrite (SetShaderMaterial_attached w u materialTag Hu).
  destruct (m_objectMaterials (this w)) as [|e l] eqn:El; [contradiction|].
  rewrite scan_material_miss.
  - cbn [snd]. eexists. split; [reflexivity|].
    split; [|split].
    + do 2 (rewrite lookup_insert_ne by discriminate). apply lookup_insert_eq.
    + rewrite lookup_insert_ne by discriminate. apply lookup_insert_eq.
    + apply lookup_insert_eq.
  - intros e' He' Heq. apply Hmiss. apply list_elem_of_fmap. now exists e'.
Qed.

Lemma SetShaderMaterial_miss_writes_uninitialised_witness :
  exists u u',
    m_pShaderManager (this example_copper_world) = Some u
    /\ u !! "material.diffuseColor" = Some (UVec3 (Vec3 0.72 0.43 0.2))
    /\ SetShaderMaterial "gold" example_copper_world
       = OK (tt, with_this (with_shader (Some u') (this example_copper_world))
                   example_copper_world)
    /\ u' !! "material.diffuseColor" = Some (UVec3 (Vec3 0 0 0))
    /\ u' !! "material.diffuseColor" <> u !! "material.diffuseColor".
Proof.
  pose (u := <["material.shininess" := UFloat 256%R]>
               (<["material.specularColor" := UVec3 (Vec3 0.95 0.7 0.45)]>
                  (<["material.diffuseColor" := UVec3 (Vec3 0.72 0.43 0.2)]>
                     (∅ : gmap string Uniform)))).
  assert (Hu : m_pShaderManager (this example_copper_world) = Some u) by reflexivity.
  assert (Hcopper : u !! "material.diffuseColor" = Some (UVec3 (Vec3 0.72 0.43 0.2))).
  { unfold u. do 2 (rewrite lookup_insert_ne by discriminate). apply lookup_insert_eq. }
  assert (Hne : m_objectMaterials (this example_copper_world) <> []).
  { change (m_objectMaterials (this example_copper_world)) with scene_materials.
    unfold scene_materials. cbn. discriminate. }
  assert (Hmiss : "gold" ∉ OBJECT_MATERIAL.tag <$> m_objectMaterials (this example_copper_world)).
  { change (m_objectMaterials (this example_copper_world)) with scene_materials.
    apply (bool_decide_unpack _). vm_compute. exact I. }
  destruct (SetShaderMaterial_miss_writes_uninitialised example_copper_world u "gold"
              Hu Hne Hmiss) as (u' & Hrun & Hdiffuse & _).
  change (uninitialised example_copper_world)
    with (OBJECT_MATERIAL.make (Vec3 0 0 0) (Vec3 0 0 0) 0%R "") in Hdiffuse.
  cbn [OBJECT_MATERIAL.diffuseColor] in Hdiffuse.
  exists u, u'. split; [exact Hu|]. split; [exact Hcopper|].
  split; [exact Hrun|]. split; [exact Hdiffuse|].
  rewrite Hdiffuse, Hcopper. intros H.
  assert (Hx : (0 = 0.72)%R) by congruence. lra.
Defined.

(** ** Binding and releasing the registered textures *)

Lemma BindGLTextures_loop (count : nat) :
  forall (first : Z) (w : World),
    0 <= first ->
    first + Z.of_nat count <= Z.of_nat (length (m_textureIDs (this w))) ->
    exists w',
      for_range first count (fun i =>
        glActiveTexture i ;;
        e ← call_const (fun s => array_get (m_textureIDs s) i) ;
        glBindTexture (TEXTURE_INFO.ID e)) w = OK (tt, w')
      /\ this w' = this w /\ pass_state w' = pass_state w.
Proof.
  induction count as [|count IH]; intros first w H0 Hlen.
  - exists w. repeat split.
  - cbn [for_range].
    destruct (array_get_in_range (m_textureIDs (this w)) first) as (e & He & _); [lia|].
    erewrite bind_OK; cycle 1.
    { erewrite bind_OK; [|reflexivity].
      erewrite bind_OK; [|unfold call_const; cbn [this with_gl]; rewrite He; reflexivity].
      reflexivity. }
    match goal with |- context [for_range _ _ _ ?W] => set (w1 := W) end.
    destruct (IH (first + 1) w1) as (w' & E & Hthis & Hpass); [lia|cbn; lia|].
    exists w'. split; [exact E|]. split; [exact Hthis|]. now rewrite Hpass.
Qed.

Lemma BindGLTextures_this (w : World) :
  wf_textures (this w) ->
  exists w', BindGLTextures w = OK (tt, w')
    /\ this w' = this w /\ pass_state w' = pass_state w.
Proof.
  intros [Hlen Hn]. unfold BindGLTextures.
  rewrite (bind_OK _ _ w w (this w) eq_refl).
  apply BindGLTextures_loop; [lia|]. rewrite Hlen. lia.
Qed.

Lemma DestroyGLTextures_loop (count : nat) :
  forall (first : Z) (w : World),
    0 <= first ->
    first + Z.of_nat count <= Z.of_nat (length (m_textureIDs (this w))) ->
    exists w',
      for_range first count (fun i =>
        name ← glGenTextures1 ;
        texture_entry_update i (set_ID name)) w = OK (tt, w')
      /\ gl_textures (gl w') = gl_textures (gl w)
      /\ gl_generated (gl w') = gl_generated (gl w) + Z.of_nat count
      /\ m_loadedTextures (this w') = m_loadedTextures (this w)
      /\ TEXTURE_INFO.tag <$> m_textureIDs (this w') = TEXTURE_INFO.tag <$> m_textureIDs (this w)
      /\ disk w' = disk w.
Proof.
  induction count as [|count IH]; intros first w H0 Hlen.
  - exists w. repeat split. lia.
  - cbn [for_range].
    set (w0 := with_gl (gl_set_textures (gl_active_texture (gl w)) (gl_bound (gl w))
                          (gl_generated (gl w) + 1) (gl_textures (gl w)) (gl w)) w).
    assert (Hin : 0 <= first < Z.of_nat (length (m_textureIDs (this w0)))) by (cbn; lia).
    destruct (texture_entry_update_in_range first (set_ID (gl_generated (gl w) + 1)) w0 Hin)
      as (e & He & Eupd).
    erewrite bind_OK; cycle 1.
    { erewrite bind_OK; [|reflexivity]. exact Eupd. }
    match goal with |- context [for_range _ _ _ ?W] => set (w1 := W) end.
    destruct (IH (first + 1) w1) as (w' & E & Htex & Hgen & Hcount & Htags & Hdisk).
    { lia. }
    { unfold w1. cbn. rewrite length_insert. lia. }
    exists w'. split; [exact E|].
    split; [rewrite Htex; reflexivity|].
    split; [rewrite Hgen; cbn; lia|].
    split; [rewrite Hcount; reflexivity|].
    split; [|rewrite Hdisk; reflexivity].
    rewrite Htags. unfold w1. cbn [this with_this m_textureIDs with_textures].
    rewrite list_fmap_insert. cbn [set_ID TEXTURE_INFO.tag].
    apply list_insert_id. rewrite list_lookup_fmap. cbn in He. now rewrite He.
Qed.

(** C4 fails on the code: [DestroyGLTextures] only asks OpenGL for new
    texture names.  Every texture object that existed still exists, the
    count of loaded textures and the registered tags are as before, and so
    a load that succeeds afterwards is registered at the old count, not at
    slot 0. *)
Theorem DestroyGLTextures_releases_nothing (w : World) :
  wf_textures (this w) ->
  exists w',
    DestroyGLTextures w = OK (tt, w')
    /\ gl_textures (gl w') = gl_textures (gl w)
    /\ (forall name, glIsTexture (gl w') name = glIsTexture (gl w) name)
    /\ m_loadedTextures (this w') = m_loadedTextures (this w)
    /\ registered_tags (this w') = registered_tags (this w)
    /\ (forall filename tag w'',
          CreateGLTexture filename tag w' = OK (true, w'') ->
          m_loadedTextures (this w'') = m_loadedTextures (this w) + 1
          /\ registered_tags (this w'') = registered_tags (this w) ++ [tag]).
Proof.
  intros [Hlen Hn].
  unfold DestroyGLTextures. rewrite (bind_OK _ _ w w (this w) eq_refl).
  destruct (DestroyGLTextures_loop (Z.to_nat (m_loadedTextures (this w))) 0 w)
    as (w' & E & Htex & _ & Hcount & Htags & _); [lia|rewrite Hlen; lia|].
  assert (Hreg : registered_tags (this w') = registered_tags (this w)).
  { unfold registered_tags. now rewrite Hcount, !fmap_take, Htags. }
  exists w'. split; [exact E|]. split; [exact Htex|].
  split; [intros name; unfold glIsTexture; now rewrite Htex|].
  split; [exact Hcount|]. split; [exact Hreg|].
  intros filename tag w'' Hload.
  apply CreateGLTexture_inv in Hload as (_ & _ & [[Hb _] | (_ & Hin & id & Hthis)]);
    [discriminate|].
  rewrite Hthis. split.
  - cbn [m_loadedTextures with_textures]. now rewrite Hcount.
  - rewrite registered_tags_push by exact Hin. now rewrite Hreg.
Qed.

Lemma DestroyGLTextures_releases_nothing_witness :
  exists w' w'',
    m_loadedTextures (this example_loaded_world) = 1
    /\ FindTextureID (this example_loaded_world) "A" = OK 1
    /\ glIsTexture (gl example_loaded_world) 1 = true
    /\ DestroyGLTextures example_loaded_world = OK (tt, w')
    /\ glIsTexture (gl w') 1 = true
    /\ m_loadedTextures (this w') = 1
    /\ CreateGLTexture "b.jpg" "B" w' = OK (true, w'')
    /\ registered_tags (this w'') = ["A"; "B"]
    /\ FindTextureSlot (this w'') "B" = OK 1.
Proof.
  assert (Hwf : wf_textures (this example_loaded_world)).
  { split; [reflexivity|]. vm_compute. split; discriminate. }
  destruct (DestroyGLTextures_releases_nothing example_loaded_world Hwf)
    as (w' & Hrun & Htex & Hname & Hcount & Hreg & Hnext).
  assert (Hw' : w' = match DestroyGLTextures example_loaded_world with
                     | OK (_, w) => w
                     | Fault _ => example_world
                     end) by now rewrite Hrun.
  destruct (CreateGLTexture "b.jpg" "B" w') as [[b w'']|f] eqn:Hload;
    [|rewrite Hw' in Hload; vm_compute in Hload; discriminate].
  assert (Hb : b = true).
  { rewrite Hw' in Hload. vm_compute in Hload. congruence. }
  subst b. destruct (Hnext _ _ _ Hload) as [Hcount'' Hreg''].
  assert (Hwf'' : wf_textures (this w'')).
  { apply CreateGLTexture_inv in Hload as (_ & _ & [[Hb _] | (_ & Hin & id & Hthis)]);
      [discriminate|].
    rewrite Hthis. apply wf_textures_push; [|exact Hin].
    rewrite Hw'. reflexivity. }
  exists w', w''.
  split; [reflexivity|]. split; [vm_compute; reflexivity|]. split; [reflexivity|].
  split; [exact Hrun|]. split; [rewrite Hname; reflexivity|].
  split; [rewrite Hcount; reflexivity|]. split; [exact Hload|].
  split; [rewrite Hreg''; reflexivity|].
  apply (FindTextureSlot_first (this w'') "B" 1%nat Hwf'').
  - rewrite Hreg''. reflexivity.
  - intros j Hj. rewrite Hreg''. destruct j as [|j]; [discriminate|lia].
Defined.

(** ** Scene preparation *)

Lemma prepared_gl_call (k : Z) (l : list OBJECT_MATERIAL.t) (g : GLContext -> GLContext) :
  returns (prepared k l) (gl_call g) (fun _ => prepared k l).
Proof. intros w Hw. exists tt, (with_gl (g (gl w)) w). split; [reflexivity|exact Hw]. Qed.

Lemma prepared_shader_call (k : Z) (l : list OBJECT_MATERIAL.t)
    (f : gmap string Uniform -> gmap string Uniform) :
  returns (prepared k l) (shader_call f) (fun _ => prepared k l).
Proof.
  intros w (Hs & Hrest).
  destruct (m_pShaderManager (this w)) as [u|] eqn:E; [|contradiction].
  eexists tt, _. split; [unfold shader_call; rewrite E; reflexivity|].
  split; [discriminate|exact Hrest].
Qed.

Lemma prepared_load_mesh (k : Z) (l : list OBJECT_MATERIAL.t) (m : Mesh) :
  returns (prepared k l) (load_mesh m) (fun _ => prepared k l).
Proof. intros w Hw. eexists tt, _. split; [reflexivity|exact Hw]. Qed.

Lemma prepared_push_back (k : Z) (l : list OBJECT_MATERIAL.t) (m : OBJECT_MATERIAL.t) :
  returns (prepared k l) (materials_push_back m) (fun _ => prepared k (l ++ [m])).
Proof.
  intros w (Hs & Hlen & Hn & Hm). eexists tt, _. split; [reflexivity|].
  repeat split; try assumption; try apply Hn. cbn. now rewrite Hm.
Qed.

Lemma prepared_CreateGLTexture (k : Z) (l : list OBJECT_MATERIAL.t) (filename tag : string) :
  k < Z.of_nat MAX_TEXTURES ->
  returns (prepared k l) (CreateGLTexture filename tag) (fun _ => prepared (k + 1) l).
Proof.
  intros Hk w (Hs & Hlen & Hn & Hm).
  destruct (disk w filename) as [img|] eqn:Hd.
  - destruct (Z.eq_dec (img_channels img) 3) as [H3|H3];
      [|destruct (Z.eq_dec (img_channels img) 4) as [H4|H4]].
    3: { rewrite (CreateGLTexture_unsupported _ _ _ _ Hd H3 H4).
         eexists _, _. split; [reflexivity|].
         repeat split; try assumption; try apply Hn. cbn. lia. }
    all: destruct (CreateGLTexture_supported w filename tag img Hd ltac:(auto)) as [Hin _].
    all: destruct Hin as (g & E & _); [rewrite Hlen; lia|].
    all: rewrite E; eexists _, _; split; [reflexivity|].
    all: repeat split; try assumption; cbn; rewrite ?length_insert; try assumption; lia.
  - rewrite (CreateGLTexture_unreadable _ _ _ Hd).
    eexists _, _. split; [reflexivity|].
    repeat split; try assumption; try apply Hn. cbn. lia.
Qed.

Lemma prepared_BindGLTextures (k : Z) (l : list OBJECT_MATERIAL.t) :
  k <= Z.of_nat MAX_TEXTURES ->
  returns (prepared k l) BindGLTextures (fun _ => prepared k l).
Proof.
  intros Hk w (Hs & Hlen & Hn & Hm).
  destruct (BindGLTextures_this w) as (w' & E & Hthis & _).
  { split; [exact Hlen|lia]. }
  exists tt, w'. split; [exact E|].
  unfold prepared. rewrite Hthis. auto.
Qed.

(** Walk down a chain of preparation calls. *)
Ltac prepare_calls :=
  repeat lazymatch goal with
    | |- returns _ (mbind _ _) _ => eapply returns_bind; [|intros ?]
    | |- returns _ (gl_call _) _ => apply prepared_gl_call
    | |- returns _ (shader_call _) _ => apply prepared_shader_call
    | |- returns _ (load_mesh _) _ => apply prepared_load_mesh
    | |- returns _ (materials_push_back _) _ => apply prepared_push_back
    | |- returns _ (CreateGLTexture _ _) _ =>
        apply prepared_CreateGLTexture; unfold MAX_TEXTURES; lia
    | |- returns _ BindGLTextures _ =>
        apply prepared_BindGLTextures; unfold MAX_TEXTURES; lia
    end.

Lemma prepared_DefineObjectMaterials (k : Z) (l : list OBJECT_MATERIAL.t) :
  returns (prepared k l) DefineObjectMaterials (fun _ => prepared k (l ++ scene_materials)).
Proof.
  eapply returns_weaken; [| intros w Hw; exact Hw |].
  - unfold DefineObjectMaterials. cbv zeta. prepare_calls.
  - intros [] w (Hs & Hlen & Hn & Hm). repeat split; try assumption; try apply Hn.
    rewrite Hm, <- !app_assoc. reflexivity.
Qed.

Lemma prepared_SetupSceneLights (k : Z) (l : list OBJECT_MATERIAL.t) :
  returns (prepared k l) SetupSceneLights (fun _ => prepared k l).
Proof. unfold SetupSceneLights. prepare_calls. Qed.

Lemma prepared_LoadSceneTextures (l : list OBJECT_MATERIAL.t) :
  returns (prepared 0 l) LoadSceneTextures (fun _ => prepared 8 l).
Proof.
  unfold LoadSceneTextures, glPixelStorei_UNPACK_ALIGNMENT.
  eapply returns_weaken; [| intros w Hw; exact Hw |].
  - prepare_calls.
  - intros [] w Hw. exact Hw.
Qed.

Lemma prepared_PrepareScene :
  returns (prepared 0 []) PrepareScene
    (fun _ => prepared 8 (scene_materials ++ scene_materials)).
Proof.
  unfold PrepareScene.
  eapply returns_bind; [apply prepared_LoadSceneTextures|intros ?].
  eapply returns_bind; [apply prepared_DefineObjectMaterials|intros ?].
  eapply returns_bind; [apply prepared_SetupSceneLights|intros ?].
  do 8 (eapply returns_bind; [apply prepared_load_mesh|intros ?]).
  eapply returns_bind; [apply prepared_DefineObjectMaterials|intros ?].
  apply prepared_SetupSceneLights.
Qed.

(** C9 fails on the code: [PrepareScene] calls [DefineObjectMaterials]
    twice, so from an empty registry it leaves every material of the scene
    in the registry twice; one call alone defines pairwise distinct tags. *)
Theorem PrepareScene_defines_materials_twice (w : World) :
  m_pShaderManager (this w) <> None ->
  length (m_textureIDs (this w)) = MAX_TEXTURES ->
  m_loadedTextures (this w) = 0 ->
  m_objectMaterials (this w) = [] ->
  exists w',
    PrepareScene w = OK (tt, w')
    /\ m_objectMaterials (this w') = scene_materials ++ scene_materials
    /\ NoDup (OBJECT_MATERIAL.tag <$> scene_materials)
    /\ ~ NoDup (OBJECT_MATERIAL.tag <$> m_objectMaterials (this w'))
    /\ OBJECT_MATERIAL.tag <$> m_objectMaterials (this w') !! 0%nat = Some "copper"
    /\ OBJECT_MATERIAL.tag <$> m_objectMaterials (this w') !! 9%nat = Some "copper".
Proof.
  intros Hs Hlen Hn Hm.
  destruct (prepared_PrepareScene w) as ([] & w' & E & (_ & _ & _ & Hm')).
  { repeat split; try assumption; lia. }
  exists w'. split; [exact E|]. split; [exact Hm'|].
  rewrite Hm'. split; [|split; [|split]].
  - apply (bool_decide_unpack _). vm_compute. exact I.
  - apply (bool_decide_unpack _). vm_compute. exact I.
  - reflexivity.
  - reflexivity.
Qed.

Lemma PrepareScene_defines_materials_twice_witness :
  exists w',
    PrepareScene example_world = OK (tt, w')
    /\ m_objectMaterials (this w') = scene_materials ++ scene_materials
    /\ NoDup (OBJECT_MATERIAL.tag <$> scene_materials)
    /\ ~ NoDup (OBJECT_MATERIAL.tag <$> m_objectMaterials (this w'))
    /\ OBJECT_MATERIAL.tag <$> m_objectMaterials (this w') !! 0%nat = Some "copper"
    /\ OBJECT_MATERIAL.tag <$> m_objectMaterials (this w') !! 9%nat = Some "copper".
Proof.
  apply (PrepareScene_defines_materials_twice example_world).
  - discriminate.
  - reflexivity.
  - reflexivity.
  - reflexivity.
Defined.

(* ===================================================================== *)
(** * Further properties of the code                                      *)
(* ===================================================================== *)

(** ** Texture registry: lookups *)

Lemma id_loop (s : SceneManager) (tag : string) (l' : list TEXTURE_INFO.t) :
  forall j : nat,
    (Z.of_nat j + Z.of_nat (length l') = m_loadedTextures s) ->
    (forall k e, l' !! k = Some e -> m_textureIDs s !! (j + k)%nat = Some e) ->
    while (S (length l'))
      (fun '(textureID, index, bFound) =>
         (index <? m_loadedTextures s) && Bool.eqb bFound false)
      (fun '(textureID, index, bFound) =>
         e ← array_get (m_textureIDs s) index ;
         if string_compare (TEXTURE_INFO.tag e) tag =? 0
         then OK (TEXTURE_INFO.ID e, index, true)
         else OK (textureID, index + 1, bFound))
      (-1, Z.of_nat j, false)
    = OK (scan_id l' tag (Z.of_nat j)).
Proof.
  induction l' as [|e l'' IH]; intros j Hn Hl.
  - simpl in *. rewrite (proj2 (Z.ltb_ge (Z.of_nat j) (m_loadedTextures s))) by lia.
    reflexivity.
  - cbn [length] in Hn.
    change (while (S (length (e :: l''))) ?c ?b ?x)
      with (if c x then match b x with OK s' => while (S (length l'')) c b s' | Fault f => Fault f end
            else OK x).
    cbv beta iota.
    rewrite (proj2 (Z.ltb_lt (Z.of_nat j) (m_loadedTextures s))) by lia.
    cbn [andb Bool.eqb].
    assert (Hj : m_textureIDs s !! j = Some e).
    { specialize (Hl 0%nat e eq_refl). now rewrite Nat.add_0_r in Hl. }
    rewrite (array_get_lookup _ _ _ Hj). cbn [mbind Result_bind scan_id].
    destruct (string_compare (TEXTURE_INFO.tag e) tag =? 0) eqn:E.
    + cbn. rewrite andb_false_r. reflexivity.
    + replace (Z.of_nat j + 1) with (Z.of_nat (S j)) by lia.
      apply IH; [lia|].
      intros k e' Hk. specialize (Hl (S k) e' Hk).
      now replace (S j + k)%nat with (j + S k)%nat by lia.
Qed.

Lemma FindTextureID_scan (s : SceneManager) (tag : string) :
  wf_textures s ->
  FindTextureID s tag
  = OK (fst (fst (scan_id (take (Z.to_nat (m_loadedTextures s)) (m_textureIDs s)) tag 0))).
Proof.
  intros [Hlen Hn]. unfold FindTextureID.
  set (l := take (Z.to_nat (m_loadedTextures s)) (m_textureIDs s)).
  assert (Hl : length l = Z.to_nat (m_loadedTextures s)).
  { unfold l. rewrite length_take. lia. }
  pose proof (id_loop s tag l 0%nat) as H.
  change (Z.of_nat 0) with 0 in H. rewrite Hl in H. rewrite H.
  - cbn [mbind Result_bind]. destruct (scan_id l tag 0) as [[a b] c]. reflexivity.
  - lia.
  - intros k e Hk. unfold l in Hk. apply lookup_take_Some in Hk. tauto.
Qed.

(** The two scans walk the registry in step: they stop at the same entry. *)
Lemma scan_slot_id (l : list TEXTURE_INFO.t) (tag : string) :
  forall i : Z,
    (scan_slot l tag i = (-1, i + Z.of_nat (length l), false)
     /\ scan_id l tag i = (-1, i + Z.of_nat (length l), false)
     /\ (forall e, e ∈ l -> TEXTURE_INFO.tag e <> tag))
    \/ (exists (j : nat) (e : TEXTURE_INFO.t),
          l !! j = Some e /\ TEXTURE_INFO.tag e = tag
          /\ (forall k e', (k < j)%nat -> l !! k = Some e' -> TEXTURE_INFO.tag e' <> tag)
          /\ scan_slot l tag i = (i + Z.of_nat j, i + Z.of_nat j, true)
          /\ scan_id l tag i = (TEXTURE_INFO.ID e, i + Z.of_nat j, true)).
Proof.
  induction l as [|x l IH]; intros i.
  - left. cbn. replace (i + Z.of_nat 0) with i by lia.
    repeat split. intros e He. inversion He.
  - cbn [scan_slot scan_id].
    destruct (string_compare (TEXTURE_INFO.tag x) tag =? 0) eqn:E.
    + right. exists 0%nat, x. replace (i + Z.of_nat 0) with i by lia.
      split; [reflexivity|]. split; [now apply string_compare_zero|].
      split; [intros k e' Hk; lia|]. split; reflexivity.
    + apply string_compare_nonzero in E.
      destruct (IH (i + 1)) as [(Hs & Hi & Hmiss) | (j & e & Hj & He & Hfirst & Hs & Hi)].
      * left. rewrite Hs, Hi. cbn [length].
        replace (i + 1 + Z.of_nat (length l)) with (i + Z.of_nat (S (length l))) by lia.
        repeat split. intros e He. apply elem_of_cons in He as [-> | He]; auto.
      * right. exists (S j), e. rewrite Hs, Hi.
        replace (i + 1 + Z.of_nat j) with (i + Z.of_nat (S j)) by lia.
        split; [exact Hj|]. split; [exact He|]. split; [|split; reflexivity].
        intros k e' Hk Hk'. destruct k as [|k]; [injection Hk' as <-; exact E|].
        apply (Hfirst k e'); [lia|exact Hk'].
Qed.

Lemma scan_id_miss_aux (l : list TEXTURE_INFO.t) (tag : string) :
  forall i, (forall e, e ∈ l -> TEXTURE_INFO.tag e <> tag) ->
    scan_id l tag i = (-1, i + Z.of_nat (length l), false).
Proof.
  intros i H. destruct (scan_slot_id l tag i) as [(_ & Hi & _) | (j & e & Hj & He & _)].
  - exact Hi.
  - exfalso. apply (H e); [|exact He]. now apply list_elem_of_lookup_2 with j.
Qed.

(** A registered tag is found by both lookups at its first registered
    entry. *)
Lemma registered_tag_lookups (s : SceneManager) (tag : string) :
  wf_textures s -> tag ∈ registered_tags s ->
  exists (i : nat) (e : TEXTURE_INFO.t),
    m_textureIDs s !! i = Some e
    /\ 0 <= Z.of_nat i < m_loadedTextures s
    /\ FindTextureSlot s tag = OK (Z.of_nat i)
    /\ FindTextureID s tag = OK (TEXTURE_INFO.ID e).
Proof.
  intros Hwf Hin.
  rewrite FindTextureSlot_scan, FindTextureID_scan by exact Hwf.
  set (l := take (Z.to_nat (m_loadedTextures s)) (m_textureIDs s)).
  destruct (scan_slot_id l tag 0) as [(Hs & Hi & Hmiss) | (j & e & Hj & He & Hfirst & Hs & Hi)].
  - exfalso. unfold registered_tags in Hin. fold l in Hin.
    apply list_elem_of_fmap in Hin as (e & Heq & He). now apply (Hmiss e He).
  - exists j, e. rewrite Hs, Hi.
    unfold l in Hj. apply lookup_take_Some in Hj as [Hj Hlt].
    split; [exact Hj|]. split; [lia|]. split; reflexivity.
Qed.



(** ** Texture registry: loads that fail and loads that do not fit *)

(** A load of a supported image into a registry with room, with the formats
    its channel count selects. *)
Lemma CreateGLTexture_success (w : World) (filename tag : string) (img : Image) :
  disk w filename = Some img ->
  img_channels img = 3 \/ img_channels img = 4 ->
  0 <= m_loadedTextures (this w) < Z.of_nat (length (m_textureIDs (this w))) ->
  CreateGLTexture filename tag w
  = OK (true,
        with_this
          (with_textures (m_loadedTextures (this w) + 1)
             (<[Z.to_nat (m_loadedTextures (this w))
                := TEXTURE_INFO.make (gl_generated (gl w) + 1) tag]>
                (m_textureIDs (this w)))
             (this w))
          (with_gl
             (gl_after_load
                (if img_channels img =? 3 then GL_RGB8 else GL_RGBA8)
                (if img_channels img =? 3 then GL_RGB else GL_RGBA)
                (flipped img) (gl w))
             (with_flip true w))).
Proof.
  intros Hd Hc Hn.
  destruct Hc as [Hc | Hc]; rewrite Hc; cbn [Z.eqb Pos.eqb].
  - destruct (CreateGLTexture_upload GL_RGB8 GL_RGB (flipped img) tag (with_flip true w))
      as [Hin _].
    etransitivity; [|exact (Hin Hn)].
    unfold CreateGLTexture.
    rewrite (bind_OK _ _ w (with_flip true w) tt eq_refl).
    erewrite bind_OK; [|unfold stbi_load; cbn [disk with_flip]; rewrite Hd; reflexivity].
    cbn [img_channels img_width img_height img_rows stbi_flip with_flip].
    fold (flipped img). rewrite Hc. reflexivity.
  - destruct (CreateGLTexture_upload GL_RGBA8 GL_RGBA (flipped img) tag (with_flip true w))
      as [Hin _].
    etransitivity; [|exact (Hin Hn)].
    unfold CreateGLTexture.
    rewrite (bind_OK _ _ w (with_flip true w) tt eq_refl).
    erewrite bind_OK; [|unfold stbi_load; cbn [disk with_flip]; rewrite Hd; reflexivity].
    cbn [img_channels img_width img_height img_rows stbi_flip with_flip].
    fold (flipped img). rewrite Hc. reflexivity.
Qed.

(** Every normal return of [CreateGLTexture], with the world it leaves. *)
Lemma CreateGLTexture_outcomes (w w' : World) (filename tag : string) (b : bool) :
  CreateGLTexture filename tag w = OK (b, w') ->
  (b = false /\ disk w filename = None /\ w' = with_flip true w)
  \/ (b = false
      /\ (exists img, disk w filename = Some img
                      /\ img_channels img <> 3 /\ img_channels img <> 4)
      /\ w' = with_gl (gl_after_setup (gl w)) (with_flip true w))
  \/ (b = true
      /\ exists img,
           disk w filename = Some img
           /\ (img_channels img = 3 \/ img_channels img = 4)
           /\ 0 <= m_loadedTextures (this w) < Z.of_nat (length (m_textureIDs (this w)))
           /\ w' = with_this
                     (with_textures (m_loadedTextures (this w) + 1)
                        (<[Z.to_nat (m_loadedTextures (this w))
                           := TEXTURE_INFO.make (gl_generated (gl w) + 1) tag]>
                           (m_textureIDs (this w)))
                        (this w))
                     (with_gl
                        (gl_after_load
                           (if img_channels img =? 3 then GL_RGB8 else GL_RGBA8)
                           (if img_channels img =? 3 then GL_RGB else GL_RGBA)
                           (flipped img) (gl w))
                        (with_flip true w))).
Proof.
  intros H.
  destruct (disk w filename) as [img|] eqn:Hd.
  - destruct (Z.eq_dec (img_channels img) 3) as [H3|H3];
      [|destruct (Z.eq_dec (img_channels img) 4) as [H4|H4]].
    3: { rewrite (CreateGLTexture_unsupported _ _ _ _ Hd H3 H4) in H.
         injection H as <- <-. right. left. split; [reflexivity|].
         split; [|reflexivity]. now exists img. }
    all: destruct (decide (0 <= m_loadedTextures (this w)
                             < Z.of_nat (length (m_textureIDs (this w))))) as [Hn|Hn].
    all: try (destruct (CreateGLTexture_supported w filename tag img Hd ltac:(auto)) as [_ Hout];
              rewrite (Hout Hn) in H; discriminate).
    all: rewrite (CreateGLTexture_success w filename tag img Hd ltac:(auto) Hn) in H.
    all: injection H as <- <-; right; right; split; [reflexivity|].
    all: exists img; auto.
  - rewrite (CreateGLTexture_unreadable _ _ _ Hd) in H.
    injection H as <- <-. left. auto.
Qed.

(** X2.  A run of texture loads that returns normally registers exactly the
    tags whose load reported success, in order: a load that fails (an
    unreadable file, an unsupported channel count) takes no slot, so the
    slot of a texture is the number of successful loads before it, not its
    position in the run. *)
Theorem load_textures_registers_successes (requests : list (string * string)) :
  forall (w w' : World) (results : list bool),
    wf_textures (this w) ->
    load_textures requests w = OK (results, w') ->
    length results = length requests
    /\ wf_textures (this w')
    /\ registered_tags (this w') = registered_tags (this w) ++ loaded_tags requests results
    /\ m_loadedTextures (this w')
       = m_loadedTextures (this w) + Z.of_nat (length (loaded_tags requests results)).
Proof.
  induction requests as [|[filename tag] rest IH]; intros w w' results Hwf Hrun.
  - injection Hrun as <- <-. cbn. rewrite app_nil_r. repeat split; try apply Hwf. lia.
  - cbn [load_textures] in Hrun.
    apply bind_inv in Hrun as (b & w1 & Hload & Hrun).
    apply bind_inv in Hrun as (bs & w2 & Hrest & Hret).
    injection Hret as <- <-.
    apply CreateGLTexture_inv in Hload as (_ & _ & [[-> Hthis] | (-> & Hn & id & Hthis)]).
    + assert (Hwf1 : wf_textures (this w1)) by now rewrite Hthis.
      destruct (IH w1 w2 bs Hwf1 Hrest) as (Hlen & Hwf2 & Htags & Hcount).
      cbn [loaded_tags length]. rewrite Hthis in Htags, Hcount.
      split; [now rewrite Hlen|]. split; [exact Hwf2|]. split; assumption.
    + destruct Hwf as [Hlen0 Hrange].
      assert (Hwf1 : wf_textures (this w1)).
      { rewrite Hthis. now apply wf_textures_push. }
      destruct (IH w1 w2 bs Hwf1 Hrest) as (Hlen & Hwf2 & Htags & Hcount).
      cbn [loaded_tags length]. split; [now rewrite Hlen|]. split; [exact Hwf2|]. split.
      * rewrite Htags, Hthis, registered_tags_push by exact Hn.
        cbn [TEXTURE_INFO.tag]. now rewrite <- app_assoc.
      * rewrite Hcount, Hthis. cbn [m_loadedTextures with_textures]. lia.
Qed.

Lemma load_textures_registers_successes_witness :
  exists w',
    load_textures [("a.jpg", "A"); ("gray.png", "G"); ("absent.bmp", "M"); ("b.jpg", "B")]
      example_world
    = OK ([true; false; false; true], w')
    /\ registered_tags (this w') = ["A"; "B"]
    /\ m_loadedTextures (this w') = 2.
Proof.
  destruct (load_textures
              [("a.jpg", "A"); ("gray.png", "G"); ("absent.bmp", "M"); ("b.jpg", "B")]
              example_world) as [[results w']|f] eqn:Hrun;
    [|vm_compute in Hrun; discriminate].
  assert (Hres : results = [true; false; false; true]).
  { vm_compute in Hrun. congruence. }
  subst results. exists w'. split; [reflexivity|].
  assert (Hwf : wf_textures (this example_world)).
  { split; [reflexivity|]. vm_compute. split; discriminate. }
  destruct (load_textures_registers_successes _ _ _ _ Hwf Hrun) as (_ & _ & Htags & Hcount).
  split; [exact Htags|exact Hcount].
Defined.

(** X3.  [CreateGLTexture] checks no capacity: when as many textures are
    registered as [m_textureIDs] has entries, loading another image of 3 or
    4 channels indexes the array one past its end.  A load that fails for
    its file or its format still returns [false] normally in that state. *)
Theorem CreateGLTexture_full_registry (w : World) (filename tag : string) :
  m_loadedTextures (this w) = Z.of_nat (length (m_textureIDs (this w))) ->
  match disk w filename with
  | Some img =>
      if (img_channels img =? 3) || (img_channels img =? 4)
      then CreateGLTexture filename tag w = Fault ArrayOutOfBounds
      else exists w', CreateGLTexture filename tag w = OK (false, w') /\ this w' = this w
  | None => exists w', CreateGLTexture filename tag w = OK (false, w') /\ this w' = this w
  end.
Proof.
  intros Hfull.
  destruct (disk w filename) as [img|] eqn:Hd.
  - destruct (Z.eqb_spec (img_channels img) 3) as [H3|H3];
      [|destruct (Z.eqb_spec (img_channels img) 4) as [H4|H4]]; cbn [orb].
    + destruct (CreateGLTexture_supported w filename tag img Hd ltac:(auto)) as [_ Hout].
      apply Hout. lia.
    + destruct (CreateGLTexture_supported w filename tag img Hd ltac:(auto)) as [_ Hout].
      apply Hout. lia.
    + rewrite (CreateGLTexture_unsupported _ _ _ _ Hd H3 H4).
      eexists. split; reflexivity.
  - rewrite (CreateGLTexture_unreadable _ _ _ Hd). eexists. split; reflexivity.
Qed.

Lemma CreateGLTexture_full_registry_witness :
  m_loadedTextures (this example_full_world) = 16
  /\ CreateGLTexture "one_more.jpg" "T16" example_full_world = Fault ArrayOutOfBounds
  /\ exists w', CreateGLTexture "gray.png" "G" example_full_world = OK (false, w')
                /\ this w' = this example_full_world.
Proof.
  assert (Hfull : m_loadedTextures (this example_full_world)
                  = Z.of_nat (length (m_textureIDs (this example_full_world)))).
  { vm_compute. reflexivity. }
  split; [vm_compute; reflexivity|]. split.
  - exact (CreateGLTexture_full_registry example_full_world "one_more.jpg" "T16" Hfull).
  - exact (CreateGLTexture_full_registry example_full_world "gray.png" "G" Hfull).
Defined.

(** ** Texture registry: a load and the lookups after it *)

Lemma scan_slot_app (l l2 : list TEXTURE_INFO.t) (tag : string) :
  forall i : Z,
    scan_slot (l ++ l2) tag i
    = if bool_decide (tag ∈ TEXTURE_INFO.tag <$> l) then scan_slot l tag i
      else scan_slot l2 tag (i + Z.of_nat (length l)).
Proof.
  induction l as [|x l IH]; intros i.
  - cbn. now replace (i + Z.of_nat 0) with i by lia.
  - cbn [app scan_slot fmap list_fmap length].
    destruct (string_compare (TEXTURE_INFO.tag x) tag =? 0) eqn:E.
    + apply string_compare_zero in E. rewrite bool_decide_eq_true_2; [reflexivity|].
      rewrite E. left.
    + apply string_compare_nonzero in E. rewrite IH.
      replace (i + 1 + Z.of_nat (length l)) with (i + Z.of_nat (S (length l))) by lia.
      destruct (decide (tag ∈ TEXTURE_INFO.tag <$> l)) as [Hin|Hout].
      * rewrite !bool_decide_eq_true_2; [reflexivity| |exact Hin]. now right.
      * rewrite !bool_decide_eq_false_2; [reflexivity| |exact Hout].
        intros Hin. apply elem_of_cons in Hin as [Heq|Hin]; [congruence|contradiction].
Qed.

Lemma scan_id_app (l l2 : list TEXTURE_INFO.t) (tag : string) :
  forall i : Z,
    scan_id (l ++ l2) tag i
    = if bool_decide (tag ∈ TEXTURE_INFO.tag <$> l) then scan_id l tag i
      else scan_id l2 tag (i + Z.of_nat (length l)).
Proof.
  induction l as [|x l IH]; intros i.
  - cbn. now replace (i + Z.of_nat 0) with i by lia.
  - cbn [app scan_id fmap list_fmap length].
    destruct (string_compare (TEXTURE_INFO.tag x) tag =? 0) eqn:E.
    + apply string_compare_zero in E. rewrite bool_decide_eq_true_2; [reflexivity|].
      rewrite E. left.
    + apply string_compare_nonzero in E. rewrite IH.
      replace (i + 1 + Z.of_nat (length l)) with (i + Z.of_nat (S (length l))) by lia.
      destruct (decide (tag ∈ TEXTURE_INFO.tag <$> l)) as [Hin|Hout].
      * rewrite !bool_decide_eq_true_2; [reflexivity| |exact Hin]. now right.
      * rewrite !bool_decide_eq_false_2; [reflexivity| |exact Hout].
        intros Hin. apply elem_of_cons in Hin as [Heq|Hin]; [congruence|contradiction].
Qed.

Lemma registered_entries_push (s : SceneManager) (e : TEXTURE_INFO.t) :
  0 <= m_loadedTextures s < Z.of_nat (length (m_textureIDs s)) ->
  registered_entries
    (with_textures (m_loadedTextures s + 1)
       (<[Z.to_nat (m_loadedTextures s) := e]> (m_textureIDs s)) s)
  = registered_entries s ++ [e].
Proof.
  intros Hn. unfold registered_entries. cbn [m_loadedTextures m_textureIDs with_textures].
  replace (Z.to_nat (m_loadedTextures s + 1)) with (S (Z.to_nat (m_loadedTextures s))) by lia.
  rewrite (take_S_r _ _ e).
  - f_equal. apply take_insert_ge. lia.
  - apply list_lookup_insert_eq. lia.
Qed.

Lemma registered_entries_length (s : SceneManager) :
  wf_textures s -> Z.of_nat (length (registered_entries s)) = m_loadedTextures s.
Proof. intros [Hlen Hn]. unfold registered_entries. rewrite length_take. lia. Qed.

(** The lookups after one more entry has been registered. *)
Lemma lookups_after_push (s : SceneManager) (e : TEXTURE_INFO.t) (t : string) :
  wf_textures s ->
  0 <= m_loadedTextures s < Z.of_nat (length (m_textureIDs s)) ->
  let s' := with_textures (m_loadedTextures s + 1)
              (<[Z.to_nat (m_loadedTextures s) := e]> (m_textureIDs s)) s in
  (t ∈ registered_tags s \/ t <> TEXTURE_INFO.tag e ->
   FindTextureSlot s' t = FindTextureSlot s t /\ FindTextureID s' t = FindTextureID s t)
  /\ (t ∉ registered_tags s -> t = TEXTURE_INFO.tag e ->
      FindTextureSlot s' t = OK (m_loadedTextures s)
      /\ FindTextureID s' t = OK (TEXTURE_INFO.ID e)).
Proof.
  intros Hwf Hn s'.
  assert (Hwf' : wf_textures s') by (apply wf_textures_push; [apply Hwf|exact Hn]).
  rewrite !(FindTextureSlot_scan s') , !(FindTextureID_scan s') by exact Hwf'.
  rewrite !(FindTextureSlot_scan s) , !(FindTextureID_scan s) by exact Hwf.
  fold (registered_entries s') (registered_entries s).
  unfold s'. rewrite registered_entries_push by exact Hn.
  rewrite scan_slot_app, scan_id_app.
  fold (registered_tags s) in *.
  change (TEXTURE_INFO.tag <$> registered_entries s) with (registered_tags s).
  rewrite registered_entries_length by exact Hwf.
  split.
  - intros [Hin | Hne].
    + rewrite bool_decide_eq_true_2 by exact Hin. split; reflexivity.
    + destruct (decide (t ∈ registered_tags s)) as [Hin|Hout].
      * rewrite bool_decide_eq_true_2 by exact Hin. split; reflexivity.
      * rewrite bool_decide_eq_false_2 by exact Hout.
        cbn [scan_slot scan_id].
        assert (E : (string_compare (TEXTURE_INFO.tag e) t =? 0) = false).
        { apply string_compare_nonzero. congruence. }
        rewrite E.
        rewrite scan_slot_miss, scan_id_miss_aux; [split; reflexivity| |].
        all: intros e' He' Heq; apply Hout; apply list_elem_of_fmap; now exists e'.
  - intros Hout Heq. rewrite bool_decide_eq_false_2 by exact Hout.
    cbn [scan_slot scan_id].
    assert (E : (string_compare (TEXTURE_INFO.tag e) t =? 0) = true).
    { apply string_compare_zero. congruence. }
    rewrite E. cbn. replace (0 + m_loadedTextures s) with (m_loadedTextures s) by lia.
    split; reflexivity.
Qed.

(** ** The OpenGL context through a load *)

Lemma gl_update_current_lookup (f : TextureObject -> TextureObject) (g : GLContext) (name : Z) :
  gl_textures (gl_update_current f g) !! name
  = if decide (gl_current_texture g = name)
    then Some (f (default new_texture (gl_textures g !! gl_current_texture g)))
    else gl_textures g !! name.
Proof.
  unfold gl_update_current. cbn [gl_textures gl_set_textures]. apply lookup_insert.
Qed.

Lemma gl_update_current_current (f : TextureObject -> TextureObject) (g : GLContext) :
  gl_current_texture (gl_update_current f g) = gl_current_texture g.
Proof. reflexivity. Qed.

(** The context after the new name has been generated and bound. *)
Lemma gl_after_setup_lookup (g : GLContext) (name : Z) :
  gl_textures (gl_after_setup g) !! name
  = if decide (gl_generated g + 1 = name)
    then Some (set_tex_param GL_TEXTURE_MAG_FILTER GL_LINEAR
                 (set_tex_param GL_TEXTURE_MIN_FILTER GL_LINEAR
                    (set_tex_param GL_TEXTURE_WRAP_T GL_REPEAT
                       (set_tex_param GL_TEXTURE_WRAP_S GL_REPEAT
                          (default new_texture (gl_textures g !! (gl_generated g + 1)))))))
    else gl_textures g !! name.
Proof.
  unfold gl_after_setup. cbv zeta.
  set (g2 := gl_set_textures _ (<[_ := _]> _) _ _ _).
  assert (Hcur : gl_current_texture g2 = gl_generated g + 1).
  { unfold g2, gl_current_texture. cbn [gl_active_texture gl_bound gl_set_textures].
    now rewrite lookup_insert_eq. }
  assert (Hdef : default new_texture (gl_textures g2 !! (gl_generated g + 1))
                 = default new_texture (gl_textures g !! (gl_generated g + 1))).
  { unfold g2. cbn [gl_textures gl_set_textures].
    destruct (gl_generated g + 1 =? 0); [reflexivity|].
    destruct (gl_textures g !! (gl_generated g + 1)) eqn:E; [now rewrite E|].
    now rewrite lookup_insert_eq. }
  assert (Hother : forall n, gl_generated g + 1 <> n ->
                     gl_textures g2 !! n = gl_textures g !! n).
  { intros n Hn. unfold g2. cbn [gl_textures gl_set_textures].
    destruct (gl_generated g + 1 =? 0); [reflexivity|].
    destruct (gl_textures g !! (gl_generated g + 1)); [reflexivity|].
    now rewrite lookup_insert_ne. }
  destruct (decide (gl_generated g + 1 = name)) as [<-|Hne].
  - repeat (rewrite ?gl_update_current_lookup, ?gl_update_current_current, ?Hcur,
              ?decide_True by reflexivity; cbn [default]).
    now rewrite Hdef.
  - repeat (rewrite ?gl_update_current_lookup, ?gl_update_current_current, ?Hcur,
              ?decide_False by exact Hne).
    now apply Hother.
Qed.

Lemma gl_after_setup_current (g : GLContext) :
  gl_current_texture (gl_after_setup g) = gl_generated g + 1.
Proof.
  unfold gl_after_setup. cbv zeta. rewrite !gl_update_current_current.
  unfold gl_current_texture. cbn [gl_active_texture gl_bound gl_set_textures].
  rewrite lookup_insert_eq. reflexivity.
Qed.

Lemma gl_textures_set_textures (active : Z) (bound : gmap Z Z) (generated : Z)
    (textures : gmap Z TextureObject) (g : GLContext) :
  gl_textures (gl_set_textures active bound generated textures g) = textures.
Proof. reflexivity. Qed.

(** Two successive updates of the bound texture object. *)
Lemma gl_update_current_twice (f1 f2 : TextureObject -> TextureObject) (g : GLContext)
    (name : Z) :
  gl_textures (gl_update_current f2 (gl_update_current f1 g)) !! name
  = if decide (gl_current_texture g = name)
    then Some (f2 (f1 (default new_texture (gl_textures g !! gl_current_texture g))))
    else gl_textures g !! name.
Proof.
  rewrite gl_update_current_lookup, gl_update_current_current.
  destruct (decide (gl_current_texture g = name)) as [_|Hne].
  - rewrite gl_update_current_lookup, decide_True by reflexivity.
    generalize (default new_texture (gl_textures g !! gl_current_texture g)).
    intros t. reflexivity.
  - rewrite gl_update_current_lookup, decide_False by exact Hne. reflexivity.
Qed.

(** The texture objects after a whole successful load: the new name holds
    the uploaded image with the four parameters set and mipmaps generated;
    every other name is as before. *)
Lemma gl_after_load_lookup (internal : InternalFormat) (format : PixelFormat)
    (image : Image) (g : GLContext) (name : Z) :
  gl_textures (gl_after_load internal format image g) !! name
  = if decide (gl_generated g + 1 = name)
    then Some {| tex_wrap_s := GL_REPEAT; tex_wrap_t := GL_REPEAT;
                 tex_min_filter := GL_LINEAR; tex_mag_filter := GL_LINEAR;
                 tex_image := Some {| ti_internal := internal; ti_width := img_width image;
                                      ti_height := img_height image; ti_format := format;
                                      ti_rows := img_rows image |};
                 tex_mipmaps := true |}
    else gl_textures g !! name.
Proof.
  unfold gl_after_load. cbv zeta.
  rewrite gl_textures_set_textures, gl_update_current_twice, gl_after_setup_current.
  destruct (decide (gl_generated g + 1 = name)) as [<-|Hne].
  - rewrite gl_after_setup_lookup, decide_True by reflexivity.
    generalize (default new_texture (gl_textures g !! (gl_generated g + 1))).
    intros t. reflexivity.
  - rewrite gl_after_setup_lookup, decide_False by exact Hne. reflexivity.
Qed.



(** X5.  A load under a tag that is already registered is shadowed: it
    succeeds, takes the next slot and a new OpenGL texture, and no lookup
    ever returns it, since both scans stop at the earlier entry; every
    lookup answers as before the load. *)
Theorem CreateGLTexture_duplicate_tag_shadowed (w w' : World) (filename tag : string) :
  wf_textures (this w) ->
  tag ∈ registered_tags (this w) ->
  CreateGLTexture filename tag w = OK (true, w') ->
  m_loadedTextures (this w') = m_loadedTextures (this w) + 1
  /\ registered_tags (this w') = registered_tags (this w) ++ [tag]
  /\ is_Some (gl_textures (gl w') !! (gl_generated (gl w) + 1))
  /\ (forall t,
        FindTextureSlot (this w') t = FindTextureSlot (this w) t
        /\ FindTextureID (this w') t = FindTextureID (this w) t)
  /\ FindTextureSlot (this w') tag <> OK (m_loadedTextures (this w)).
Proof.
  intros Hwf Hdup Hload.
  apply CreateGLTexture_outcomes in Hload
    as [(Hb & _) | [(Hb & _) | (_ & img & Hd & Hc & Hn & ->)]]; try discriminate.
  cbn [this with_this gl with_gl with_flip].
  assert (Hall : forall t,
            FindTextureSlot
              (with_textures (m_loadedTextures (this w) + 1)
                 (<[Z.to_nat (m_loadedTextures (this w))
                    := TEXTURE_INFO.make (gl_generated (gl w) + 1) tag]>
                    (m_textureIDs (this w))) (this w)) t
            = FindTextureSlot (this w) t
            /\ FindTextureID
                 (with_textures (m_loadedTextures (this w) + 1)
                    (<[Z.to_nat (m_loadedTextures (this w))
                       := TEXTURE_INFO.make (gl_generated (gl w) + 1) tag]>
                       (m_textureIDs (this w))) (this w)) t
               = FindTextureID (this w) t).
  { intros t.
    destruct (lookups_after_push (this w)
                (TEXTURE_INFO.make (gl_generated (gl w) + 1) tag) t Hwf Hn) as [Hold _].
    apply Hold. cbn [TEXTURE_INFO.tag].
    destruct (decide (t = tag)) as [->|Hne]; [left; exact Hdup|right; exact Hne]. }
  split; [reflexivity|]. split; [now rewrite registered_tags_push|].
  split; [rewrite gl_after_load_lookup, decide_True by reflexivity; eauto|].
  split; [exact Hall|].
  destruct (Hall tag) as [-> _].
  destruct (registered_tag_lookups (this w) tag Hwf Hdup) as (i & e & _ & Hi & -> & _).
  intros [= Heq]. lia.
Qed.

Lemma CreateGLTexture_duplicate_tag_shadowed_witness :
  exists w',
    CreateGLTexture "b.jpg" "A" example_loaded_world = OK (true, w')
    /\ registered_tags (this w') = ["A"; "A"]
    /\ FindTextureSlot (this w') "A" = OK 0
    /\ FindTextureID (this w') "A" = OK 1.
Proof.
  destruct (CreateGLTexture "b.jpg" "A" example_loaded_world) as [[b w']|f] eqn:Hload;
    [|vm_compute in Hload; discriminate].
  assert (Hb : b = true) by (vm_compute in Hload; congruence).
  subst b.
  assert (Hwf : wf_textures (this example_loaded_world)).
  { split; [reflexivity|]. vm_compute. split; discriminate. }
  assert (Hdup : "A" ∈ registered_tags (this example_loaded_world)).
  { apply (bool_decide_unpack _). vm_compute. exact I. }
  destruct (CreateGLTexture_duplicate_tag_shadowed example_loaded_world w' "b.jpg" "A"
              Hwf Hdup Hload) as (_ & Htags & _ & Hall & _).
  exists w'. split; [reflexivity|]. split; [exact Htags|].
  destruct (Hall "A") as [-> ->]. split; vm_compute; reflexivity.
Defined.

(** ** Binding the registered textures to texture units *)





(** ** The paths of a load that report failure *)

Lemma gl_update_current_generated (f : TextureObject -> TextureObject) (g : GLContext) :
  gl_generated (gl_update_current f g) = gl_generated g.
Proof. reflexivity. Qed.

Lemma gl_after_setup_generated (g : GLContext) :
  gl_generated (gl_after_setup g) = gl_generated g + 1.
Proof.
  unfold gl_after_setup. cbv zeta. rewrite !gl_update_current_generated. reflexivity.
Qed.

Lemma gl_current_texture_bound (active name generated : Z) (bound : gmap Z Z)
    (textures : gmap Z TextureObject) (g : GLContext) :
  gl_current_texture (gl_set_textures active (<[active := name]> bound) generated textures g)
  = name.
Proof.
  unfold gl_current_texture. cbn [gl_active_texture gl_bound gl_set_textures].
  rewrite lookup_insert_eq. reflexivity.
Qed.

Lemma gl_generated_set_textures (active : Z) (bound : gmap Z Z) (generated : Z)
    (textures : gmap Z TextureObject) (g : GLContext) :
  gl_generated (gl_set_textures active bound generated textures g) = generated.
Proof. reflexivity. Qed.

Lemma gl_after_load_current (internal : InternalFormat) (format : PixelFormat)
    (image : Image) (g : GLContext) :
  gl_current_texture (gl_after_load internal format image g) = 0.
Proof. unfold gl_after_load. cbv zeta. apply gl_current_texture_bound. Qed.

Lemma gl_after_load_generated (internal : InternalFormat) (format : PixelFormat)
    (image : Image) (g : GLContext) :
  gl_generated (gl_after_load internal format image g) = gl_generated g + 1.
Proof.
  unfold gl_after_load. cbv zeta.
  rewrite gl_generated_set_textures, !gl_update_current_generated.
  apply gl_after_setup_generated.
Qed.

(** X7.  An image with a channel count other than 3 or 4 is rejected after
    the OpenGL texture has been set up: the load reports failure and
    registers nothing, yet a texture name has been generated, a texture
    object without pixels exists under it, with the wrapping and filtering
    parameters set, and it is still bound on the active unit; the other
    texture objects are as before.  An unreadable file, in contrast, leaves
    the OpenGL context untouched, and a successful load unbinds the active
    unit. *)
Theorem CreateGLTexture_rejected_image_leaks_texture (w : World) (filename tag : string)
    (img : Image) :
  disk w filename = Some img ->
  img_channels img <> 3 ->
  img_channels img <> 4 ->
  gl_textures (gl w) !! (gl_generated (gl w) + 1) = None ->
  (exists w',
     CreateGLTexture filename tag w = OK (false, w')
     /\ this w' = this w
     /\ gl_generated (gl w') = gl_generated (gl w) + 1
     /\ gl_textures (gl w') !! (gl_generated (gl w) + 1)
        = Some {| tex_wrap_s := GL_REPEAT; tex_wrap_t := GL_REPEAT;
                  tex_min_filter := GL_LINEAR; tex_mag_filter := GL_LINEAR;
                  tex_image := None; tex_mipmaps := false |}
     /\ gl_current_texture (gl w') = gl_generated (gl w) + 1
     /\ (forall name, name <> gl_generated (gl w) + 1 ->
           gl_textures (gl w') !! name = gl_textures (gl w) !! name))
  /\ (forall filename' tag',
        disk w filename' = None ->
        exists w', CreateGLTexture filename' tag' w = OK (false, w')
                   /\ gl w' = gl w /\ this w' = this w)
  /\ (forall filename' tag' w',
        CreateGLTexture filename' tag' w = OK (true, w') ->
        gl_current_texture (gl w') = 0
        /\ gl_generated (gl w') = gl_generated (gl w) + 1).
Proof.
  intros Hd H3 H4 Hfresh. split; [|split].
  - rewrite (CreateGLTexture_unsupported w filename tag img Hd H3 H4).
    eexists. split; [reflexivity|].
    cbn [this gl with_gl with_flip].
    split; [reflexivity|]. split; [apply gl_after_setup_generated|].
    split; [|split; [apply gl_after_setup_current|]].
    + rewrite gl_after_setup_lookup, decide_True by reflexivity.
      rewrite Hfresh. reflexivity.
    + intros name Hne. rewrite gl_after_setup_lookup, decide_False; [reflexivity|].
      intros He. apply Hne. symmetry. exact He.
  - intros filename' tag' Hd'. rewrite (CreateGLTexture_unreadable w filename' tag' Hd').
    eexists. split; [reflexivity|]. split; reflexivity.
  - intros filename' tag' w' Hload.
    apply CreateGLTexture_outcomes in Hload
      as [(Hb & _) | [(Hb & _) | (_ & img' & Hd' & Hc & Hn & ->)]]; try discriminate.
    cbn [this gl with_gl with_flip with_this].
    split; [apply gl_after_load_current|apply gl_after_load_generated].
Qed.

Lemma CreateGLTexture_rejected_image_leaks_texture_witness :
  exists w',
    CreateGLTexture "gray.png" "Gray" example_world = OK (false, w')
    /\ registered_tags (this w') = []
    /\ gl_generated (gl w') = 1
    /\ glIsTexture (gl w') 1 = true
    /\ gl_current_texture (gl w') = 1.
Proof.
  destruct (CreateGLTexture_rejected_image_leaks_texture example_world "gray.png" "Gray"
              {| img_width := 1; img_height := 1; img_channels := 2;
                 img_rows := [[Byte.x80; Byte.xff]] |})
    as [(w' & E & Hthis & Hgen & Htex & Hcur & _) _].
  - reflexivity.
  - discriminate.
  - discriminate.
  - reflexivity.
  - exists w'. split; [exact E|]. split; [rewrite Hthis; reflexivity|].
    split; [exact Hgen|]. split; [|exact Hcur].
    unfold glIsTexture. apply bool_decide_eq_true. eexists. exact Htex.
Defined.

(** ** Materials: the entry a lookup returns *)

Lemma scan_material_first (l : list OBJECT_MATERIAL.t) (tag : string) :
  forall (i : Z) (j : nat) (e material : OBJECT_MATERIAL.t),
    l !! j = Some e -> OBJECT_MATERIAL.tag e = tag ->
    (forall k e', (k < j)%nat -> l !! k = Some e' -> OBJECT_MATERIAL.tag e' <> tag) ->
    scan_material l tag i material
    = (i + Z.of_nat j, true,
       OBJECT_MATERIAL.make (OBJECT_MATERIAL.diffuseColor e) (OBJECT_MATERIAL.specularColor e)
         (OBJECT_MATERIAL.shininess e) (OBJECT_MATERIAL.tag material)).
Proof.
  induction l as [|x l IH]; intros i j e material Hj He Hfirst; [discriminate|].
  destruct j as [|j]; cbn [scan_material].
  - injection Hj as ->.
    apply string_compare_zero in He. rewrite He.
    now replace (i + Z.of_nat 0) with i by lia.
  - assert (E : (string_compare (OBJECT_MATERIAL.tag x) tag =? 0) = false).
    { apply string_compare_nonzero. apply (Hfirst 0%nat x); [lia|reflexivity]. }
    rewrite E. rewrite (IH (i + 1) j e material Hj He).
    + now replace (i + 1 + Z.of_nat j) with (i + Z.of_nat (S j)) by lia.
    + intros k e' Hk Hk'. apply (Hfirst (S k) e'); [lia|exact Hk'].
Qed.

(** The first entry of a list of materials that carries a tag. *)
Lemma first_material (l : list OBJECT_MATERIAL.t) (tag : string) :
  tag ∈ OBJECT_MATERIAL.tag <$> l ->
  exists (j : nat) (e : OBJECT_MATERIAL.t),
    l !! j = Some e /\ OBJECT_MATERIAL.tag e = tag
    /\ (forall k e', (k < j)%nat -> l !! k = Some e' -> OBJECT_MATERIAL.tag e' <> tag).
Proof.
  induction l as [|x l IH]; intros Hin.
  - apply elem_of_nil in Hin. contradiction.
  - destruct (decide (OBJECT_MATERIAL.tag x = tag)) as [Hx|Hx].
    + exists 0%nat, x. split; [reflexivity|]. split; [exact Hx|]. intros k e' Hk. lia.
    + cbn [fmap list_fmap] in Hin. apply elem_of_cons in Hin as [Heq|Hin]; [now symmetry in Heq|].
      destruct (IH Hin) as (j & e & Hj & He & Hfirst).
      exists (S j), e. split; [exact Hj|]. split; [exact He|].
      intros [|k] e' Hk Hk'.
      * injection Hk' as <-. exact Hx.
      * apply (Hfirst k e'); [lia|exact Hk'].
Qed.

(** [SetShaderMaterial] on a tag that is found: the values of the first
    material that carries it are written. *)
Lemma SetShaderMaterial_found (w : World) (u : gmap string Uniform)
    (materialTag : string) (j : nat) (e : OBJECT_MATERIAL.t) :
  m_pShaderManager (this w) = Some u ->
  m_objectMaterials (this w) !! j = Some e ->
  OBJECT_MATERIAL.tag e = materialTag ->
  (forall k e', (k < j)%nat -> m_objectMaterials (this w) !! k = Some e' ->
     OBJECT_MATERIAL.tag e' <> materialTag) ->
  SetShaderMaterial materialTag w
  = OK (tt, with_this
              (with_shader
                 (Some (<["material.shininess" := UFloat (OBJECT_MATERIAL.shininess e)]>
                          (<["material.specularColor" := UVec3 (OBJECT_MATERIAL.specularColor e)]>
                             (<["material.diffuseColor" := UVec3 (OBJECT_MATERIAL.diffuseColor e)]> u))))
                 (this w)) w).
Proof.
  intros Hu Hj He Hfirst.
  rewrite (SetShaderMaterial_attached w u materialTag Hu).
  destruct (m_objectMaterials (this w)) as [|x l] eqn:El; [discriminate|].
  cbv zeta. rewrite (scan_material_first _ materialTag 0 j e _ Hj He Hfirst). reflexivity.
Qed.

(** X8.  [SetShaderMaterial] on a tag that some material carries writes
    the diffuse colour, specular colour and shininess of the first material
    with that tag, and nothing of the uninitialised local it declares.
    Materials pushed behind it are never reached: with any list of further
    materials appended, as the second [DefineObjectMaterials] of
    [PrepareScene] does, the same three values are written. *)
Theorem SetShaderMaterial_first_match (w : World) (u : gmap string Uniform)
    (materialTag : string) (j : nat) (e : OBJECT_MATERIAL.t) :
  m_pShaderManager (this w) = Some u ->
  m_objectMaterials (this w) !! j = Some e ->
  OBJECT_MATERIAL.tag e = materialTag ->
  (forall k e', (k < j)%nat -> m_objectMaterials (this w) !! k = Some e' ->
     OBJECT_MATERIAL.tag e' <> materialTag) ->
  let u' := <["material.shininess" := UFloat (OBJECT_MATERIAL.shininess e)]>
              (<["material.specularColor" := UVec3 (OBJECT_MATERIAL.specularColor e)]>
                 (<["material.diffuseColor" := UVec3 (OBJECT_MATERIAL.diffuseColor e)]> u)) in
  SetShaderMaterial materialTag w
  = OK (tt, with_this (with_shader (Some u') (this w)) w)
  /\ (forall later : list OBJECT_MATERIAL.t,
        let s := with_materials (m_objectMaterials (this w) ++ later) (this w) in
        SetShaderMaterial materialTag (with_this s w)
        = OK (tt, with_this (with_shader (Some u') s) (with_this s w))).
Proof.
  intros Hu Hj He Hfirst u'.
  split; [exact (SetShaderMaterial_found w u materialTag j e Hu Hj He Hfirst)|].
  intros later s.
  apply (SetShaderMaterial_found (with_this s w) u materialTag j e Hu).
  - subst s. cbn [this with_this m_objectMaterials with_materials].
    apply lookup_app_l_Some. exact Hj.
  - exact He.
  - intros k e' Hk Hk'. apply (Hfirst k e' Hk).
    subst s. cbn [this with_this m_objectMaterials with_materials] in Hk'.
    rewrite lookup_app_l in Hk'; [exact Hk'|].
    apply lookup_lt_Some in Hj. lia.
Qed.

Lemma SetShaderMaterial_first_match_witness :
  exists u',
    SetShaderMaterial "plasticBlack" example_copper_world
    = OK (tt, with_this (with_shader (Some u') (this example_copper_world))
                example_copper_world)
    /\ u' !! "material.shininess" = Some (UFloat 8%R)
    /\ u' !! "material.diffuseColor" = Some (UVec3 (Vec3 0.06 0.06 0.06)).
Proof.
  pose (u := <["material.shininess" := UFloat 256%R]>
               (<["material.specularColor" := UVec3 (Vec3 0.95 0.7 0.45)]>
                  (<["material.diffuseColor" := UVec3 (Vec3 0.72 0.43 0.2)]>
                     (∅ : gmap string Uniform)))).
  pose (e := OBJECT_MATERIAL.make (Vec3 0.06 0.06 0.06) (Vec3 0.2 0.2 0.2) 8%R "plasticBlack").
  assert (Hu : m_pShaderManager (this example_copper_world) = Some u) by reflexivity.
  assert (Hj : m_objectMaterials (this example_copper_world) !! 1%nat = Some e) by reflexivity.
  assert (Hfirst : forall k e', (k < 1)%nat ->
            m_objectMaterials (this example_copper_world) !! k = Some e' ->
            OBJECT_MATERIAL.tag e' <> "plasticBlack").
  { intros k e' Hk Hk'. destruct k as [|k]; [|lia].
    assert (H0 : m_objectMaterials (this example_copper_world) !! 0%nat
                 = Some (OBJECT_MATERIAL.make (Vec3 0.72 0.43 0.2) (Vec3 0.95 0.7 0.45)
                           256%R "copper")) by reflexivity.
    rewrite H0 in Hk'. injection Hk' as <-. discriminate. }
  destruct (SetShaderMaterial_first_match example_copper_world u "plasticBlack" 1 e
              Hu Hj eq_refl Hfirst) as [Hrun _].
  eexists. split; [exact Hrun|]. split.
  - apply lookup_insert_eq.
  - do 2 (rewrite lookup_insert_ne by discriminate). apply lookup_insert_eq.
Defined.

(** ** Scene preparation without a shader manager *)

Section Loadable.
Variable p : option (gmap string Uniform).

Lemma loadable_gl_call (k : Z) (g : GLContext -> GLContext) :
  returns (loadable p k) (gl_call g) (fun _ => loadable p k).
Proof. intros w Hw. exists tt, (with_gl (g (gl w)) w). split; [reflexivity|exact Hw]. Qed.

Lemma loadable_push_back (k : Z) (m : OBJECT_MATERIAL.t) :
  returns (loadable p k) (materials_push_back m) (fun _ => loadable p k).
Proof. intros w Hw. eexists tt, _. split; [reflexivity|exact Hw]. Qed.

Lemma loadable_CreateGLTexture (k : Z) (filename tag : string) :
  k < Z.of_nat MAX_TEXTURES ->
  returns (loadable p k) (CreateGLTexture filename tag) (fun _ => loadable p (k + 1)).
Proof.
  intros Hk w (Hs & Hlen & Hn).
  destruct (disk w filename) as [img|] eqn:Hd.
  - destruct (Z.eq_dec (img_channels img) 3) as [H3|H3];
      [|destruct (Z.eq_dec (img_channels img) 4) as [H4|H4]].
    3: { rewrite (CreateGLTexture_unsupported _ _ _ _ Hd H3 H4).
         eexists _, _. split; [reflexivity|].
         split; [exact Hs|]. split; [exact Hlen|]. cbn [this with_gl with_flip]. lia. }
    all: destruct (CreateGLTexture_supported w filename tag img Hd ltac:(auto)) as [Hin _].
    all: destruct Hin as (g & E & _); [rewrite Hlen; lia|].
    all: rewrite E; eexists _, _; split; [reflexivity|].
    all: split; [exact Hs|]; split;
      cbn [this with_this with_gl with_flip m_textureIDs m_loadedTextures with_textures];
      [rewrite length_insert; exact Hlen|lia].
  - rewrite (CreateGLTexture_unreadable _ _ _ Hd).
    eexists _, _. split; [reflexivity|].
    split; [exact Hs|]. split; [exact Hlen|]. cbn [this with_flip]. lia.
Qed.

Lemma loadable_BindGLTextures (k : Z) :
  k <= Z.of_nat MAX_TEXTURES ->
  returns (loadable p k) BindGLTextures (fun _ => loadable p k).
Proof.
  intros Hk w (Hs & Hlen & Hn).
  destruct (BindGLTextures_this w) as (w' & E & Hthis & _).
  { split; [exact Hlen|lia]. }
  exists tt, w'. split; [exact E|]. unfold loadable. rewrite Hthis.
  split; [exact Hs|]. split; assumption.
Qed.

End Loadable.

Ltac load_calls :=
  repeat lazymatch goal with
    | |- returns _ (mbind _ _) _ => eapply returns_bind; [|intros ?]
    | |- returns _ (gl_call _) _ => apply loadable_gl_call
    | |- returns _ (materials_push_back _) _ => apply loadable_push_back
    | |- returns _ (CreateGLTexture _ _) _ =>
        apply loadable_CreateGLTexture; unfold MAX_TEXTURES; lia
    | |- returns _ BindGLTextures _ =>
        apply loadable_BindGLTextures; unfold MAX_TEXTURES; lia
    end.

(** [LoadSceneTextures] never looks at what [CreateGLTexture] returns: with
    eight free slots it returns normally whatever the files hold. *)
Lemma loadable_LoadSceneTextures (p : option (gmap string Uniform)) (k : Z) :
  k + 8 <= Z.of_nat MAX_TEXTURES ->
  returns (loadable p k) LoadSceneTextures (fun _ => loadable p (k + 8)).
Proof.
  intros Hk. unfold MAX_TEXTURES in Hk.
  unfold LoadSceneTextures, glPixelStorei_UNPACK_ALIGNMENT.
  eapply returns_weaken; [| intros w Hw; exact Hw |].
  - load_calls.
  - intros [] w (Hs & Hlen & Hn). split; [exact Hs|]. split; [exact Hlen|]. lia.
Qed.

Lemma loadable_DefineObjectMaterials (p : option (gmap string Uniform)) (k : Z) :
  returns (loadable p k) DefineObjectMaterials (fun _ => loadable p k).
Proof. unfold DefineObjectMaterials. cbv zeta. load_calls. Qed.

Lemma SetupSceneLights_null (w : World) :
  m_pShaderManager (this w) = None -> SetupSceneLights w = Fault NullDereference.
Proof.
  intros Hu. unfold SetupSceneLights. apply bind_Fault.
  unfold shader_call. rewrite Hu. reflexivity.
Qed.

(** X9.  Where the setters test the shader-manager pointer, the scene
    functions do not: with a null pointer [SetupSceneLights] faults at its
    first uniform write, [RenderScene] faults at its fourth statement, where
    it switches the lighting on, and [PrepareScene], given room for its
    eight textures, gets through the texture loads and the materials and
    then faults in [SetupSceneLights]. *)
Theorem scene_functions_fault_on_null_shader_manager (w : World) :
  m_pShaderManager (this w) = None ->
  SetupSceneLights w = Fault NullDereference
  /\ RenderScene w = Fault NullDereference
  /\ (length (m_textureIDs (this w)) = MAX_TEXTURES ->
      0 <= m_loadedTextures (this w) <= 8 ->
      PrepareScene w = Fault NullDereference).
Proof.
  intros Hu. split; [now apply SetupSceneLights_null|]. split.
  - unfold RenderScene. apply bind_Fault.
    unfold RenderScene_opaque.
    do 3 (erewrite bind_OK; [|reflexivity]).
    apply bind_Fault. unfold shader_call. cbn [this with_gl]. rewrite Hu. reflexivity.
  - intros Hlen Hn. unfold PrepareScene.
    destruct (loadable_LoadSceneTextures None (m_loadedTextures (this w)) ltac:(unfold MAX_TEXTURES; cbn; lia) w)
      as ([] & w1 & E1 & Hw1).
    { split; [exact Hu|]. split; [exact Hlen|]. lia. }
    rewrite (bind_OK _ _ _ _ _ E1).
    destruct (loadable_DefineObjectMaterials None _ w1 Hw1) as ([] & w2 & E2 & (Hu2 & _)).
    rewrite (bind_OK _ _ _ _ _ E2).
    apply bind_Fault. now apply SetupSceneLights_null.
Qed.

Lemma scene_functions_fault_on_null_shader_manager_witness :
  SetupSceneLights example_null_world = Fault NullDereference
  /\ RenderScene example_null_world = Fault NullDereference
  /\ PrepareScene example_null_world = Fault NullDereference.
Proof.
  destruct (scene_functions_fault_on_null_shader_manager example_null_world eq_refl)
    as (H1 & H2 & H3).
  split; [exact H1|]. split; [exact H2|]. apply H3.
  - reflexivity.
  - vm_compute. split; discriminate.
Defined.

(** ** Loading the textures of the scene *)






(** ** What a frame leaves alone, and what it draws *)

Lemma draws_bind (c1 c2 : M unit) (l1 l2 : list Mesh) :
  draws c1 l1 -> draws c2 l2 -> draws (c1 ;; c2) (l2 ++ l1).
Proof.
  intros H1 H2 w Hw.
  destruct (H1 w Hw) as (w1 & E1 & Hw1 & D1 & L1).
  destruct (H2 w1 Hw1) as (w2 & E2 & Hw2 & D2 & L2).
  exists w2. split; [|split; [exact Hw2|split]].
  - rewrite (bind_OK _ _ _ _ _ E1). exact E2.
  - now rewrite D2, D1.
  - now rewrite L2, L1, app_assoc.
Qed.

Lemma draws_gl_call (g : GLContext -> GLContext) (l : list Mesh) :
  (forall g0, gl_textures (g g0) = gl_textures g0 /\ gl_bound (g g0) = gl_bound g0
              /\ gl_generated (g g0) = gl_generated g0
              /\ gl_active_texture (g g0) = gl_active_texture g0
              /\ gl_unpack_alignment (g g0) = gl_unpack_alignment g0
              /\ gl_draws (g g0) = l ++ gl_draws g0) ->
  draws (gl_call g) l.
Proof.
  intros H w Hw. exists (with_gl (g (gl w)) w).
  destruct (H (gl w)) as (H1 & H2 & H3 & H4 & H5 & H6).
  split; [reflexivity|]. split; [exact Hw|]. split; [|exact H6].
  unfold scene_data. cbn [this gl with_gl stbi_flip].
  now rewrite H1, H2, H3, H4, H5.
Qed.

Lemma draws_glEnable (c : Capability) : draws (glEnable c) [].
Proof. apply draws_gl_call. intros g0. destruct c; repeat split. Qed.

Lemma draws_glDisable (c : Capability) : draws (glDisable c) [].
Proof. apply draws_gl_call. intros g0. destruct c; repeat split. Qed.

Lemma draws_glBlendFunc (s d : BlendFactor) : draws (glBlendFunc s d) [].
Proof. apply draws_gl_call. intros g0. repeat split. Qed.

Lemma draws_glDepthMask (b : bool) : draws (glDepthMask b) [].
Proof. apply draws_gl_call. intros g0. repeat split. Qed.

Lemma draws_glCullFace (m : CullMode) : draws (glCullFace m) [].
Proof. apply draws_gl_call. intros g0. repeat split. Qed.

Lemma draws_draw_mesh (m : Mesh) : draws (draw_mesh m) [m].
Proof. apply draws_gl_call. intros g0. repeat split. Qed.

Lemma draws_shader_call (f : gmap string Uniform -> gmap string Uniform) :
  draws (shader_call f) [].
Proof.
  intros w [Hu Hwf].
  destruct (m_pShaderManager (this w)) as [u|] eqn:E; [|contradiction].
  eexists. split; [unfold shader_call; rewrite E; reflexivity|].
  split; [split; [discriminate|exact Hwf]|]. split; reflexivity.
Qed.

Lemma draws_writes (c : M unit) : writes_uniforms c -> draws c [].
Proof.
  intros H w [Hu Hwf].
  destruct (m_pShaderManager (this w)) as [u|] eqn:E; [|contradiction].
  destruct (H w u Hwf E) as (u' & Ec & _).
  eexists. split; [exact Ec|].
  split; [split; [discriminate|exact Hwf]|]. split; reflexivity.
Qed.

Ltac draw_calls :=
  repeat lazymatch goal with
    | |- draws (mbind _ _) _ => eapply draws_bind
    | |- draws (glEnable _) _ => apply draws_glEnable
    | |- draws (glDisable _) _ => apply draws_glDisable
    | |- draws (glBlendFunc _ _) _ => apply draws_glBlendFunc
    | |- draws (glDepthMask _) _ => apply draws_glDepthMask
    | |- draws (glCullFace _) _ => apply draws_glCullFace
    | |- draws (draw_mesh _) _ => apply draws_draw_mesh
    | |- draws (shader_call _) _ => apply draws_shader_call
    | |- draws _ _ => apply draws_writes; solve [auto with pass_flags]
    end.

(** The draw calls of one frame. *)
Lemma draws_RenderScene :
  exists l, draws RenderScene l
            /\ forall m, count_occ Mesh_eq_dec l m = draw_calls_of m.
Proof.
  eexists. split.
  - unfold RenderScene, RenderScene_opaque, RenderScene_glass_shade, RenderScene_bulb_halo.
    cbv zeta. draw_calls.
  - intros []; vm_compute; reflexivity.
Qed.

(** X11.  A frame changes nothing but uniforms, render flags and the log of
    draw calls: from a world with a shader manager attached, [RenderScene]
    returns normally and leaves the meshes, the texture registry, the
    materials, the texture objects, the bindings of the texture units, the
    active unit and the codec's flip flag exactly as they were.  Every
    frame issues the same 116 draw calls: 54 boxes, 24 cylinders, 18
    spheres, 11 tori, 4 pyramids, 3 tapered cylinders and 2 planes; the
    prism mesh that [PrepareScene] loads is never drawn. *)
Theorem RenderScene_frame :
  exists drawn : list Mesh,
    length drawn = 116%nat
    /\ (forall m, count_occ Mesh_eq_dec drawn m = draw_calls_of m)
    /\ (PrismMesh ∉ drawn)
    /\ (forall w, renderable w ->
          exists w', RenderScene w = OK (tt, w')
            /\ renderable w'
            /\ scene_data w' = scene_data w
            /\ gl_draws (gl w') = drawn ++ gl_draws (gl w)).
Proof.
  destruct draws_RenderScene as (l & Hl & Hcount).
  exists l. split; [|split; [exact Hcount|split; [|exact Hl]]].
  - assert (Hsum : forall l' : list Mesh,
              length l' = (count_occ Mesh_eq_dec l' BoxMesh + count_occ Mesh_eq_dec l' CylinderMesh
                           + count_occ Mesh_eq_dec l' SphereMesh + count_occ Mesh_eq_dec l' PrismMesh
                           + count_occ Mesh_eq_dec l' PlaneMesh + count_occ Mesh_eq_dec l' TorusMesh
                           + count_occ Mesh_eq_dec l' Pyramid3Mesh
                           + count_occ Mesh_eq_dec l' TaperedCylinderMesh)%nat).
    { induction l' as [|x l' IH]; [reflexivity|].
      cbn [length]. rewrite IH. destruct x; cbn; lia. }
    rewrite Hsum, !Hcount. reflexivity.
  - intros Hin. apply list_elem_of_In in Hin.
    apply (count_occ_In Mesh_eq_dec) in Hin. rewrite Hcount in Hin. cbn in Hin. lia.
Qed.

(** ** The scene without its texture files *)





(** ** What [DestroyGLTextures] does to the registry *)





(** ** The uniforms a frame writes *)

Section Leaves.
Variable name : string.
Hypothesis Hname : name ∉ RenderScene_uniforms.

Lemma leaves_bind (c1 c2 : M unit) : leaves name c1 -> leaves name c2 -> leaves name (c1 ;; c2).
Proof.
  intros H1 H2 w Hw.
  destruct (H1 w Hw) as (w1 & E1 & Hw1 & U1).
  destruct (H2 w1 Hw1) as (w2 & E2 & Hw2 & U2).
  exists w2. split; [|split; [exact Hw2|]].
  - rewrite (bind_OK _ _ _ _ _ E1). exact E2.
  - now rewrite U2, U1.
Qed.

Lemma leaves_gl_call (g : GLContext -> GLContext) : leaves name (gl_call g).
Proof.
  intros w Hw. exists (with_gl (g (gl w)) w).
  split; [reflexivity|]. split; [exact Hw|reflexivity].
Qed.

(** A computation that replaces the uniform table by one that agrees with
    it on [name]. *)
Lemma leaves_table (c : M unit) :
  (forall w u, wf_textures (this w) -> m_pShaderManager (this w) = Some u ->
     exists u', c w = OK (tt, with_this (with_shader (Some u') (this w)) w)
                /\ u' !! name = u !! name) ->
  leaves name c.
Proof.
  intros H w [Hu Hwf].
  destruct (m_pShaderManager (this w)) as [u|] eqn:E; [|contradiction].
  destruct (H w u Hwf E) as (u' & Ec & Hl).
  eexists. split; [exact Ec|].
  split; [split; [discriminate|exact Hwf]|].
  unfold uniform. rewrite E. exact Hl.
Qed.

Lemma written_ne (k : string) : k ∈ RenderScene_uniforms -> k <> name.
Proof. intros Hk ->. contradiction. Qed.

Lemma leaves_insert (k : string) (x : Uniform) (u : gmap string Uniform) :
  k ∈ RenderScene_uniforms -> <[k := x]> u !! name = u !! name.
Proof. intros Hk. apply lookup_insert_ne. now apply written_ne. Qed.

Lemma leaves_set_lighting (b : bool) :
  leaves name (shader_call (ShaderManager.setBoolValue "bUseLighting" b)).
Proof.
  apply leaves_table. intros w u _ E. eexists.
  split; [unfold shader_call; rewrite E; reflexivity|].
  apply leaves_insert. apply (bool_decide_unpack _). vm_compute. exact I.
Qed.

Lemma leaves_set_color (v : vec4) :
  leaves name (shader_call (ShaderManager.setVec4Value g_ColorValueName v)).
Proof.
  apply leaves_table. intros w u _ E. eexists.
  split; [unfold shader_call; rewrite E; reflexivity|].
  apply leaves_insert. apply (bool_decide_unpack _). vm_compute. exact I.
Qed.

Lemma leaves_SetTransformations (scaleXYZ : vec3) (rx ry rz : R) (positionXYZ : vec3) :
  leaves name (SetTransformations scaleXYZ rx ry rz positionXYZ).
Proof.
  apply leaves_table. intros w u _ E. eexists.
  split; [exact (SetTransformations_attached w u _ _ _ _ _ E)|].
  apply leaves_insert. apply (bool_decide_unpack _). vm_compute. exact I.
Qed.

Lemma leaves_SetShaderColor (r g b a : R) : leaves name (SetShaderColor r g b a).
Proof.
  apply leaves_table. intros w u _ E. eexists.
  split; [exact (SetShaderColor_attached w u _ _ _ _ E)|].
  rewrite !leaves_insert; [reflexivity|..]; apply (bool_decide_unpack _); vm_compute; exact I.
Qed.

Lemma leaves_SetTextureUVScale (a b : R) : leaves name (SetTextureUVScale a b).
Proof.
  apply leaves_table. intros w u _ E. eexists.
  split; [exact (SetTextureUVScale_attached w u _ _ E)|].
  apply leaves_insert. apply (bool_decide_unpack _). vm_compute. exact I.
Qed.

Lemma leaves_SetShaderTexture (textureTag : string) : leaves name (SetShaderTexture textureTag).
Proof.
  apply leaves_table. intros w u Hwf E.
  destruct (FindTextureSlot_total (this w) textureTag Hwf) as [slot Hslot].
  eexists. split; [exact (SetShaderTexture_attached w u _ _ E Hslot)|].
  rewrite !leaves_insert; [reflexivity|..]; apply (bool_decide_unpack _); vm_compute; exact I.
Qed.

Lemma leaves_SetShaderMaterial (materialTag : string) :
  leaves name (SetShaderMaterial materialTag).
Proof.
  apply leaves_table. intros w u _ E.
  rewrite (SetShaderMaterial_attached w u materialTag E).
  destruct (m_objectMaterials (this w)) as [|e l].
  - exists u. split; [|reflexivity].
    f_equal. f_equal. destruct w as [s g d fl un]. cbn in *.
    destruct s; cbn in *. now subst.
  - eexists. split; [reflexivity|].
    rewrite !leaves_insert; [reflexivity|..]; apply (bool_decide_unpack _); vm_compute; exact I.
Qed.

End Leaves.

Ltac leave_calls :=
  repeat lazymatch goal with
    | |- leaves _ (mbind _ _) => apply leaves_bind
    | |- leaves _ (gl_call _) => apply leaves_gl_call
    | |- leaves _ (glEnable _) => apply leaves_gl_call
    | |- leaves _ (glDisable _) => apply leaves_gl_call
    | |- leaves _ (glBlendFunc _ _) => apply leaves_gl_call
    | |- leaves _ (glDepthMask _) => apply leaves_gl_call
    | |- leaves _ (glCullFace _) => apply leaves_gl_call
    | |- leaves _ (draw_mesh _) => apply leaves_gl_call
    | |- leaves _ (shader_call (ShaderManager.setBoolValue _ _)) =>
        apply leaves_set_lighting; assumption
    | |- leaves _ (shader_call (ShaderManager.setVec4Value _ _)) =>
        apply leaves_set_color; assumption
    | |- leaves _ (SetTransformations _ _ _ _ _) => apply leaves_SetTransformations; assumption
    | |- leaves _ (SetShaderColor _ _ _ _) => apply leaves_SetShaderColor; assumption
    | |- leaves _ (SetTextureUVScale _ _) => apply leaves_SetTextureUVScale; assumption
    | |- leaves _ (SetShaderTexture _) => apply leaves_SetShaderTexture; assumption
    | |- leaves _ (SetShaderMaterial _) => apply leaves_SetShaderMaterial; assumption
    end.

Lemma leaves_RenderScene (name : string) :
  name ∉ RenderScene_uniforms -> leaves name RenderScene.
Proof.
  intros Hname.
  unfold RenderScene, RenderScene_opaque, RenderScene_glass_shade, RenderScene_bulb_halo.
  cbv zeta. leave_calls.
Qed.

(** X14.  A frame writes nine uniforms and no others: [model],
    [objectColor], [objectTexture], [bUseTexture], [bUseLighting],
    [UVscale] and the three [material] members.  Every other uniform of the
    shader, such as the lights [SetupSceneLights] has configured and the
    view, projection and view position of the camera, has after
    [RenderScene] the value it had before, and [bUseLighting] is left
    switched on. *)
Theorem RenderScene_writes_only_its_uniforms (w : World) (u : gmap string Uniform) :
  wf_textures (this w) ->
  m_pShaderManager (this w) = Some u ->
  exists w' u',
    RenderScene w = OK (tt, w')
    /\ m_pShaderManager (this w') = Some u'
    /\ (forall name, name ∉ RenderScene_uniforms -> u' !! name = u !! name)
    /\ u' !! g_UseLightingName = Some (UBool true).
Proof.
  intros Hwf Hu.
  assert (Hw : renderable w) by (split; [rewrite Hu; discriminate|exact Hwf]).
  destruct (RenderScene_pass_states w Hw)
    as (wa & wb & w' & _ & _ & _ & _ & _ & P & E & [Hs' _]).
  destruct (m_pShaderManager (this w')) as [u'|] eqn:Hu'; [|contradiction].
  exists w', u'. split; [exact E|]. split; [exact Hu'|]. split.
  - intros name Hname.
    destruct (leaves_RenderScene name Hname w Hw) as (w2 & E2 & _ & Hl).
    rewrite E in E2. injection E2 as <-.
    unfold uniform in Hl. rewrite Hu, Hu' in Hl. exact Hl.
  - assert (Hlight : lightingEnabled (pass_state w') = Some true) by now rewrite P.
    unfold pass_state in Hlight. cbn [lightingEnabled] in Hlight.
    unfold lighting_of in Hlight. rewrite Hu' in Hlight.
    destruct (u' !! g_UseLightingName) as [[b| | | | | | |]|]; try discriminate.
    now injection Hlight as ->.
Qed.

Lemma RenderScene_writes_only_its_uniforms_witness :
  exists w' u',
    RenderScene example_world = OK (tt, w')
    /\ m_pShaderManager (this w') = Some u'
    /\ u' !! "view" = None
    /\ u' !! "pointLights[0].position" = None
    /\ u' !! g_UseLightingName = Some (UBool true).
Proof.
  destruct (RenderScene_writes_only_its_uniforms example_world ∅)
    as (w' & u' & E & Hu' & Hother & Hlight).
  - apply example_world_renderable.
  - reflexivity.
  - exists w', u'. split; [exact E|]. split; [exact Hu'|].
    split; [|split; [|exact Hlight]].
    + rewrite Hother; [apply lookup_empty|].
      apply (bool_decide_unpack _). vm_compute. exact I.
    + rewrite Hother; [apply lookup_empty|].
      apply (bool_decide_unpack _). vm_compute. exact I.
Defined.

(** ** The lights *)

Lemma sets_bind (c1 c2 : M unit) (S1 S2 : gmap string Uniform) :
  sets c1 S1 -> sets c2 S2 -> sets (c1 ;; c2) (S2 ∪ S1).
Proof.
  intros H1 H2 w u Hu.
  rewrite (bind_OK _ _ _ _ _ (H1 w u Hu)).
  rewrite (H2 (with_this (with_shader (Some (S1 ∪ u)) (this w)) w) (S1 ∪ u) eq_refl).
  rewrite (assoc_L (∪)). reflexivity.
Qed.

Lemma sets_shader_call (k : string) (x : Uniform)
    (f : gmap string Uniform -> gmap string Uniform) :
  (forall u, f u = <[k := x]> u) -> sets (shader_call f) {[k := x]}.
Proof.
  intros Hf w u Hu. unfold shader_call. rewrite Hu, Hf.
  now rewrite insert_union_singleton_l.
Qed.

Ltac set_calls :=
  repeat lazymatch goal with
    | |- sets (mbind _ _) _ => eapply sets_bind
    | |- sets (shader_call _) _ => eapply sets_shader_call; intros ?; reflexivity
    end.

Ltac lights_none :=
  repeat lazymatch goal with
    | |- (_ ∪ _) !! _ = None => apply lookup_union_None_2
    | |- {[ _ := _ ]} !! _ = None => apply lookup_singleton_ne; discriminate
    end.

Ltac lights_some :=
  repeat lazymatch goal with
    | |- (_ ∪ {[ ?k := _ ]}) !! ?k = Some _ =>
        rewrite lookup_union_r; [apply lookup_singleton_eq|lights_none]
    | |- (_ ∪ _) !! _ = Some _ => apply lookup_union_Some_l
    | |- {[ _ := _ ]} !! _ = Some _ => apply lookup_singleton_eq
    end.

(** The table of uniforms [SetupSceneLights] writes. *)
Lemma sets_SetupSceneLights :
  exists S, sets SetupSceneLights S
    /\ S !! g_UseLightingName = Some (UBool true)
    /\ S !! "directionalLight.bActive" = Some (UBool true)
    /\ S !! "spotLight.bActive" = Some (UBool false)
    /\ S !! "pointLights[0].position" = Some (UVec3 (Vec3 0 10.15 (-3.5)))
    /\ S !! "pointLights[0].bActive" = None
    /\ S !! "pointLights[1].bActive" = Some (UBool true)
    /\ S !! "pointLights[2].bActive" = Some (UBool true)
    /\ S !! "pointLights[3].bActive" = Some (UBool true)
    /\ S !! "pointLights[4].bActive" = Some (UBool true).
Proof.
  eexists. split; [unfold SetupSceneLights; set_calls|].
  unfold g_UseLightingName.
  split; [lights_some|]. split; [lights_some|]. split; [lights_some|].
  split; [lights_some|]. split; [lights_none|]. split; [lights_some|].
  split; [lights_some|]. split; lights_some.
Qed.

(** X15.  [SetupSceneLights] is idempotent.  Its whole effect is to write
    one fixed table of light uniforms over the uniforms of the attached
    shader manager, with lighting switched on and the spot light off; a
    second call in the world the first one left changes nothing at all.  So
    the second call [PrepareScene] makes is harmless, unlike its second
    call of [DefineObjectMaterials].  The registries, the meshes and the
    OpenGL context are as before the call, and so is every uniform the
    table does not name. *)
Theorem SetupSceneLights_idempotent :
  exists lights : gmap string Uniform,
    lights !! g_UseLightingName = Some (UBool true)
    /\ lights !! "spotLight.bActive" = Some (UBool false)
    /\ (forall (w : World) (u : gmap string Uniform),
          m_pShaderManager (this w) = Some u ->
          let w1 := with_this (with_shader (Some (lights ∪ u)) (this w)) w in
          SetupSceneLights w = OK (tt, w1)
          /\ SetupSceneLights w1 = OK (tt, w1)
          /\ (forall name, lights !! name = None -> (lights ∪ u) !! name = u !! name)).
Proof.
  destruct sets_SetupSceneLights as (S & HS & Hon & _ & Hspot & _).
  exists S. split; [exact Hon|]. split; [exact Hspot|].
  intros w u Hu w1.
  pose proof (HS w u Hu) as E1.
  pose proof (HS w1 (S ∪ u) eq_refl) as E2.
  rewrite (assoc_L (∪)), (idemp_L (∪)) in E2.
  split; [exact E1|]. split; [exact E2|].
  intros name Hnone. now apply lookup_union_r.
Qed.

(** ** The uniforms after scene preparation *)

Lemma loadable_load_mesh (p : option (gmap string Uniform)) (k : Z) (m : Mesh) :
  returns (loadable p k) (load_mesh m) (fun _ => loadable p k).
Proof. intros w Hw. eexists tt, _. split; [reflexivity|exact Hw]. Qed.

Lemma loadable_sets (c : M unit) (S u : gmap string Uniform) (k : Z) :
  sets c S -> returns (loadable (Some u) k) c (fun _ => loadable (Some (S ∪ u)) k).
Proof.
  intros HS w (Hu & Hrest). eexists tt, _. split; [exact (HS w u Hu)|].
  split; [reflexivity|exact Hrest].
Qed.

(** The whole effect of [PrepareScene] on the uniforms is the table of
    [SetupSceneLights]. *)
Lemma PrepareScene_uniforms (S u : gmap string Uniform) :
  sets SetupSceneLights S ->
  returns (loadable (Some u) 0) PrepareScene (fun _ => loadable (Some (S ∪ u)) 8).
Proof.
  intros HS. unfold PrepareScene.
  eapply returns_bind;
    [apply (loadable_LoadSceneTextures (Some u) 0); unfold MAX_TEXTURES; cbn; lia|intros ?].
  eapply returns_bind; [apply loadable_DefineObjectMaterials|intros ?].
  eapply returns_bind; [apply (loadable_sets _ S u); exact HS|intros ?].
  do 8 (eapply returns_bind; [apply loadable_load_mesh|intros ?]).
  eapply returns_bind; [apply loadable_DefineObjectMaterials|intros ?].
  eapply returns_weaken;
    [apply (loadable_sets _ S (S ∪ u) (0 + 8)); exact HS|intros w Hw; exact Hw|].
  intros [] w Hw. cbv beta in Hw. rewrite (assoc_L (∪)), (idemp_L (∪)) in Hw. exact Hw.
Qed.

(** X16.  The point light of the lamp bulb is configured but never
    switched on.  [SetupSceneLights] writes position, colours and
    attenuation of [pointLights[0]] and sets [bActive] for the directional
    light and the point lights 1 to 4, but it never writes
    [pointLights[0].bActive], and neither does anything else in
    [PrepareScene] or [RenderScene]: after scene preparation and a frame
    that uniform still has whatever value the shader manager held before. *)
Theorem bulb_point_light_never_activated (w : World) (u : gmap string Uniform) :
  m_pShaderManager (this w) = Some u ->
  length (m_textureIDs (this w)) = MAX_TEXTURES ->
  m_loadedTextures (this w) = 0 ->
  exists w1 w2 u2,
    PrepareScene w = OK (tt, w1)
    /\ RenderScene w1 = OK (tt, w2)
    /\ m_pShaderManager (this w2) = Some u2
    /\ u2 !! "pointLights[0].bActive" = u !! "pointLights[0].bActive"
    /\ u2 !! "pointLights[0].position" = Some (UVec3 (Vec3 0 10.15 (-3.5)))
    /\ u2 !! "pointLights[1].bActive" = Some (UBool true)
    /\ u2 !! "pointLights[2].bActive" = Some (UBool true)
    /\ u2 !! "pointLights[3].bActive" = Some (UBool true)
    /\ u2 !! "pointLights[4].bActive" = Some (UBool true)
    /\ u2 !! "directionalLight.bActive" = Some (UBool true)
    /\ u2 !! "spotLight.bActive" = Some (UBool false).
Proof.
  intros Hu Hlen H0.
  destruct sets_SetupSceneLights
    as (S & HS & _ & Hdir & Hspot & Hpos & Hnone & H1 & H2 & H3 & H4).
  destruct (PrepareScene_uniforms S u HS w) as ([] & w1 & E1 & Hu1 & Hlen1 & Hn1).
  { split; [exact Hu|]. split; [exact Hlen|]. lia. }
  assert (Hwf1 : wf_textures (this w1)).
  { split; [exact Hlen1|]. unfold MAX_TEXTURES. lia. }
  destruct (RenderScene_pass_states w1) as (wa & wb & w2 & _ & _ & _ & _ & _ & _ & E2 & [Hs2 _]).
  { split; [rewrite Hu1; discriminate|exact Hwf1]. }
  destruct (m_pShaderManager (this w2)) as [u2|] eqn:Hu2; [|contradiction].
  assert (Hkeep : forall name, name ∉ RenderScene_uniforms -> u2 !! name = (S ∪ u) !! name).
  { intros name Hname.
    destruct (leaves_RenderScene name Hname w1) as (w2' & E2' & _ & Hl).
    { split; [rewrite Hu1; discriminate|exact Hwf1]. }
    rewrite E2 in E2'. injection E2' as <-.
    unfold uniform in Hl. rewrite Hu1, Hu2 in Hl. exact Hl. }
  assert (Hin : forall name x, S !! name = Some x -> (S ∪ u) !! name = Some x).
  { intros name x Hx. now apply lookup_union_Some_l. }
  exists w1, w2, u2. split; [exact E1|]. split; [exact E2|]. split; [exact Hu2|].
  split; [|split; [|split; [|split; [|split; [|split; [|split]]]]]].
  - rewrite Hkeep by (apply (bool_decide_unpack _); vm_compute; exact I).
    now apply lookup_union_r.
  - rewrite Hkeep by (apply (bool_decide_unpack _); vm_compute; exact I). now apply Hin.
  - rewrite Hkeep by (apply (bool_decide_unpack _); vm_compute; exact I). now apply Hin.
  - rewrite Hkeep by (apply (bool_decide_unpack _); vm_compute; exact I). now apply Hin.
  - rewrite Hkeep by (apply (bool_decide_unpack _); vm_compute; exact I). now apply Hin.
  - rewrite Hkeep by (apply (bool_decide_unpack _); vm_compute; exact I). now apply Hin.
  - rewrite Hkeep by (apply (bool_decide_unpack _); vm_compute; exact I). now apply Hin.
  - rewrite Hkeep by (apply (bool_decide_unpack _); vm_compute; exact I). now apply Hin.
Qed.

Lemma bulb_point_light_never_activated_witness :
  exists w1 w2 u2,
    PrepareScene example_world = OK (tt, w1)
    /\ RenderScene w1 = OK (tt, w2)
    /\ m_pShaderManager (this w2) = Some u2
    /\ u2 !! "pointLights[0].bActive" = None
    /\ u2 !! "pointLights[1].bActive" = Some (UBool true).
Proof.
  destruct (bulb_point_light_never_activated example_world ∅ eq_refl eq_refl eq_refl)
    as (w1 & w2 & u2 & E1 & E2 & Hu2 & Hnone & _ & H1 & _).
  exists w1, w2, u2. split; [exact E1|]. split; [exact E2|]. split; [exact Hu2|].
  split; [|exact H1]. rewrite Hnone. apply lookup_empty.
Defined.

(** ** A frame never reads the uninitialised material *)

Lemma oblivious_bind (c1 c2 : M unit) : oblivious c1 -> oblivious c2 -> oblivious (c1 ;; c2).
Proof.
  intros H1 H2 w Hw.
  destruct (H1 w Hw) as (w1 & E1 & Hw1 & U1).
  destruct (H2 w1 Hw1) as (w2 & E2 & Hw2 & U2).
  exists w2. split; [|split; [exact Hw2|]].
  - rewrite (bind_OK _ _ _ _ _ E1). exact E2.
  - intros m. rewrite (bind_OK _ _ _ _ _ (U1 m)). apply U2.
Qed.

Lemma oblivious_gl_call (g : GLContext -> GLContext) : oblivious (gl_call g).
Proof.
  intros w Hw. exists (with_gl (g (gl w)) w).
  split; [reflexivity|]. split; [exact Hw|]. intros m. reflexivity.
Qed.

(** A computation that only replaces the uniform table, by one that does
    not depend on the uninitialised material. *)
Lemma oblivious_table (c : M unit) :
  (forall w u, materials_defined w -> m_pShaderManager (this w) = Some u ->
     exists u', forall m,
       c (with_uninitialised m w)
       = OK (tt, with_this (with_shader (Some u') (this w)) (with_uninitialised m w))) ->
  oblivious c.
Proof.
  intros H w Hw. pose proof Hw as [[Hu Hwf] Hm].
  destruct (m_pShaderManager (this w)) as [u|] eqn:E; [|contradiction].
  destruct (H w u Hw E) as (u' & Hc).
  exists (with_this (with_shader (Some u') (this w)) w). split; [|split].
  - specialize (Hc (uninitialised w)).
    replace (with_uninitialised (uninitialised w) w) with w in Hc by now destruct w.
    exact Hc.
  - split; [split; [discriminate|exact Hwf]|exact Hm].
  - intros m. rewrite Hc. reflexivity.
Qed.

Lemma oblivious_shader_call (f : gmap string Uniform -> gmap string Uniform) :
  oblivious (shader_call f).
Proof.
  apply oblivious_table. intros w u _ E. exists (f u). intros m.
  unfold shader_call. cbn [this with_uninitialised]. rewrite E. reflexivity.
Qed.

Lemma oblivious_SetTransformations (scaleXYZ : vec3) (rx ry rz : R) (positionXYZ : vec3) :
  oblivious (SetTransformations scaleXYZ rx ry rz positionXYZ).
Proof.
  apply oblivious_table. intros w u _ E. eexists. intros m.
  exact (SetTransformations_attached (with_uninitialised m w) u _ _ _ _ _ E).
Qed.

Lemma oblivious_SetShaderColor (r g b a : R) : oblivious (SetShaderColor r g b a).
Proof.
  apply oblivious_table. intros w u _ E. eexists. intros m.
  exact (SetShaderColor_attached (with_uninitialised m w) u _ _ _ _ E).
Qed.

Lemma oblivious_SetTextureUVScale (a b : R) : oblivious (SetTextureUVScale a b).
Proof.
  apply oblivious_table. intros w u _ E. eexists. intros m.
  exact (SetTextureUVScale_attached (with_uninitialised m w) u _ _ E).
Qed.

Lemma oblivious_SetShaderTexture (textureTag : string) : oblivious (SetShaderTexture textureTag).
Proof.
  apply oblivious_table. intros w u [[_ Hwf] _] E.
  destruct (FindTextureSlot_total (this w) textureTag Hwf) as [slot Hslot].
  eexists. intros m.
  exact (SetShaderTexture_attached (with_uninitialised m w) u _ _ E Hslot).
Qed.

Lemma oblivious_SetShaderMaterial (materialTag : string) :
  materialTag ∈ OBJECT_MATERIAL.tag <$> scene_materials ->
  oblivious (SetShaderMaterial materialTag).
Proof.
  intros Htag. apply oblivious_table. intros w u [_ Hm] E.
  destruct (first_material (m_objectMaterials (this w)) materialTag (Hm _ Htag))
    as (j & e & Hj & He & Hfirst).
  eexists. intros m.
  exact (SetShaderMaterial_found (with_uninitialised m w) u materialTag j e E Hj He Hfirst).
Qed.

Ltac oblivious_calls :=
  repeat lazymatch goal with
    | |- oblivious (mbind _ _) => apply oblivious_bind
    | |- oblivious (gl_call _) => apply oblivious_gl_call
    | |- oblivious (glEnable _) => apply oblivious_gl_call
    | |- oblivious (glDisable _) => apply oblivious_gl_call
    | |- oblivious (glBlendFunc _ _) => apply oblivious_gl_call
    | |- oblivious (glDepthMask _) => apply oblivious_gl_call
    | |- oblivious (glCullFace _) => apply oblivious_gl_call
    | |- oblivious (draw_mesh _) => apply oblivious_gl_call
    | |- oblivious (shader_call _) => apply oblivious_shader_call
    | |- oblivious (SetTransformations _ _ _ _ _) => apply oblivious_SetTransformations
    | |- oblivious (SetShaderColor _ _ _ _) => apply oblivious_SetShaderColor
    | |- oblivious (SetTextureUVScale _ _) => apply oblivious_SetTextureUVScale
    | |- oblivious (SetShaderTexture _) => apply oblivious_SetShaderTexture
    | |- oblivious (SetShaderMaterial _) =>
        apply oblivious_SetShaderMaterial; apply (bool_decide_unpack _); vm_compute; exact I
    end.

Lemma oblivious_RenderScene : oblivious RenderScene.
Proof.
  unfold RenderScene, RenderScene_opaque, RenderScene_glass_shade, RenderScene_bulb_halo.
  cbv zeta. oblivious_calls.
Qed.

(** X17.  The uninitialised material of [SetShaderMaterial] never reaches
    a frame of the prepared scene: every material tag [RenderScene] asks
    for is one that [DefineObjectMaterials] defines, so after
    [PrepareScene] the frame that [RenderScene] renders is the same
    whatever the stack slot of the uninitialised material holds. *)
Theorem frame_never_reads_uninitialised_material (w : World) :
  m_pShaderManager (this w) <> None ->
  length (m_textureIDs (this w)) = MAX_TEXTURES ->
  m_loadedTextures (this w) = 0 ->
  m_objectMaterials (this w) = [] ->
  exists w1 w2,
    PrepareScene w = OK (tt, w1)
    /\ RenderScene w1 = OK (tt, w2)
    /\ forall m : OBJECT_MATERIAL.t,
         RenderScene (with_uninitialised m w1) = OK (tt, with_uninitialised m w2).
Proof.
  intros Hs Hlen H0 Hm.
  destruct (prepared_PrepareScene w) as ([] & w1 & E1 & (Hs1 & Hlen1 & Hn1 & Hm1)).
  { repeat split; try assumption; lia. }
  assert (Hw1 : materials_defined w1).
  { split.
    - split; [exact Hs1|]. split; [exact Hlen1|]. unfold MAX_TEXTURES. lia.
    - intros tag Htag. rewrite Hm1, fmap_app. apply elem_of_app. now left. }
  destruct (oblivious_RenderScene w1 Hw1) as (w2 & E2 & _ & Hany).
  exists w1, w2. split; [exact E1|]. split; [exact E2|exact Hany].
Qed.

Lemma frame_never_reads_uninitialised_material_witness :
  exists w1 w2,
    PrepareScene example_world = OK (tt, w1)
    /\ RenderScene w1 = OK (tt, w2)
    /\ RenderScene
         (with_uninitialised (OBJECT_MATERIAL.make (Vec3 1 1 1) (Vec3 1 1 1) 1%R "x") w1)
       = OK (tt, with_uninitialised
                   (OBJECT_MATERIAL.make (Vec3 1 1 1) (Vec3 1 1 1) 1%R "x") w2).
Proof.
  destruct (frame_never_reads_uninitialised_material example_world)
    as (w1 & w2 & E1 & E2 & Hany).
  - discriminate.
  - reflexivity.
  - reflexivity.
  - reflexivity.
  - exists w1, w2. split; [exact E1|]. split; [exact E2|]. apply Hany.
Defined.

(** * The view manager *)

Section View.
Context `{CameraMethods}.
Import ViewManager.

Lemma vbind_OK {A B : Type} (c : VM A) (k : A -> VM B) (v v' : State) (a : A) :
  c v = OK (a, v') -> (c ≫= k) v = k a v'.
Proof. intros E. unfold mbind, VM_bind. rewrite E. reflexivity. Qed.

Lemma vbind_Fault {A B : Type} (c : VM A) (k : A -> VM B) (v : State) (f : fault) :
  c v = Fault f -> (c ≫= k) v = Fault f.
Proof. intros E. unfold mbind, VM_bind. rewrite E. reflexivity. Qed.

(** The key test on a state with a window. *)
Lemma if_pressed_window (key : Key) (body : VM unit) (v : State) (window : GLFWwindow) :
  m_pWindow v = Some window ->
  if_pressed key body v = if pressed window key then body v else OK (tt, v).
Proof.
  intros Hw. unfold if_pressed.
  rewrite (vbind_OK _ _ v v (pressed window key)).
  - destruct (pressed window key); reflexivity.
  - unfold glfwGetKey_PRESS. rewrite Hw. reflexivity.
Qed.

Lemma camera_call_camera (f : Camera.t CameraOther -> Camera.t CameraOther) (v : State)
    (camera : Camera.t CameraOther) :
  g_pCamera v = Some camera ->
  camera_call f v = OK (tt, with_camera (Some (f camera)) v).
Proof. intros Hc. unfold camera_call. rewrite Hc. reflexivity. Qed.

(** One movement key. *)
Lemma move_step (direction : Camera_Movement) (v : State) (window : GLFWwindow)
    (camera : Camera.t CameraOther) :
  m_pWindow v = Some window ->
  g_pCamera v = Some camera ->
  if_pressed (movement_key direction) (move direction) v
  = OK (tt, with_camera
              (Some (if pressed window (movement_key direction)
                     then ProcessKeyboard direction (gDeltaTime v) camera
                     else camera)) v).
Proof.
  intros Hw Hc. rewrite (if_pressed_window _ _ v window Hw).
  destruct (pressed window (movement_key direction)).
  - unfold move. rewrite (vbind_OK _ _ v v v eq_refl).
    now apply camera_call_camera.
  - f_equal. f_equal. destruct v. cbn in *. now subst.
Qed.

(** The viewpoint keys. *)
Lemma viewpoint_step (key : Key) (flag : bool) (p f u : vec3) (v : State)
    (window : GLFWwindow) (camera : Camera.t CameraOther) :
  m_pWindow v = Some window ->
  g_pCamera v = Some camera ->
  if_pressed key
    (assign (with_orthographic flag) ;;
     camera_call (Camera.set_Position p) ;;
     camera_call (Camera.set_Front f) ;;
     camera_call (Camera.set_Up u)) v
  = OK (tt, with_orthographic (if pressed window key then flag else bOrthographicProjection v)
              (with_camera
                 (Some (if pressed window key
                        then Camera.set_Up u (Camera.set_Front f (Camera.set_Position p camera))
                        else camera)) v)).
Proof.
  intros Hw Hc. rewrite (if_pressed_window _ _ v window Hw).
  destruct (pressed window key).
  - unfold assign, camera_call, mbind, VM_bind.
    cbn [g_pCamera with_orthographic with_camera]. rewrite Hc. reflexivity.
  - f_equal. f_equal. destruct v. cbn in *. now subst.
Qed.

(** The camera after the six movement keys, as the code nests it. *)
Lemma moved_unfold (keys : Key -> bool) (deltaTime : R) (camera : Camera.t CameraOther) :
  moved keys deltaTime camera
  = let step direction c :=
      if keys (movement_key direction) then ProcessKeyboard direction deltaTime c else c in
    step DOWN (step UP (step RIGHT (step LEFT (step BACKWARD (step FORWARD camera))))).
Proof.
  unfold moved. cbv zeta. cbn [movement_key].
  rewrite !filter_cons, filter_nil. cbn [movement_key].
  repeat match goal with
         | |- context [decide (keys ?k = true)] =>
             destruct (keys k); [rewrite decide_True by reflexivity
                                |rewrite decide_False by discriminate]
         end; reflexivity.
Qed.

(** [ProcessKeyboardEvents] with a window and a camera: all it changes is
    the close flag of the window, the camera and the projection flag. *)
Lemma ProcessKeyboardEvents_run (v : State) (window : GLFWwindow)
    (camera : Camera.t CameraOther) :
  m_pWindow v = Some window ->
  g_pCamera v = Some camera ->
  ProcessKeyboardEvents v
  = OK (tt, with_orthographic (flag_after_keys (pressed window) (bOrthographicProjection v))
              (with_camera (Some (after_keys (pressed window) (gDeltaTime v) camera))
                 (with_window (Some (closing window)) v))).
Proof.
  intros Hw Hc. unfold ProcessKeyboardEvents.
  set (v1 := with_window (Some (closing window)) v).
  assert (E1 : if_pressed GLFW_KEY_ESCAPE (glfwSetWindowShouldClose true) v = OK (tt, v1)).
  { rewrite (if_pressed_window _ _ v window Hw). unfold v1, closing.
    destruct (pressed window GLFW_KEY_ESCAPE).
    - unfold glfwSetWindowShouldClose. rewrite Hw. reflexivity.
    - f_equal. f_equal. destruct v, window. cbn in *. now subst. }
  rewrite (vbind_OK _ _ _ _ _ E1).
  rewrite (vbind_OK _ _ v1 v1 v1 eq_refl).
  change (g_pCamera v1) with (g_pCamera v). rewrite Hc. cbn [not_null].
  assert (Hw1 : forall c f, m_pWindow (with_orthographic f (with_camera c v1))
                            = Some (closing window)) by reflexivity.
  assert (Hc1 : forall c f, g_pCamera (with_orthographic f (with_camera (Some c) v1)) = Some c)
    by reflexivity.
  unfold after_keys, flag_after_keys. rewrite moved_unfold. cbv zeta.
  rewrite (vbind_OK _ _ _ _ _ (move_step FORWARD v1 (closing window) camera eq_refl Hc)).
  erewrite vbind_OK; [|apply (move_step BACKWARD _ (closing window)); reflexivity].
  erewrite vbind_OK; [|apply (move_step LEFT _ (closing window)); reflexivity].
  erewrite vbind_OK; [|apply (move_step RIGHT _ (closing window)); reflexivity].
  erewrite vbind_OK; [|apply (move_step UP _ (closing window)); reflexivity].
  erewrite vbind_OK; [|apply (move_step DOWN _ (closing window)); reflexivity].
  erewrite vbind_OK; [|apply (viewpoint_step _ _ _ _ _ _ (closing window)); reflexivity].
  etransitivity; [apply (viewpoint_step _ _ _ _ _ _ (closing window)); reflexivity|].
  cbn [movement_key gDeltaTime with_camera with_orthographic with_window
       bOrthographicProjection pressed closing].
  unfold perspective_viewpoint, orthographic_viewpoint.
  destruct (pressed window GLFW_KEY_O), (pressed window GLFW_KEY_P); reflexivity.
Qed.

Lemma ProcessKeyboardEvents_null_camera (v : State) (window : GLFWwindow) :
  m_pWindow v = Some window ->
  g_pCamera v = None ->
  ProcessKeyboardEvents v = OK (tt, with_window (Some (closing window)) v).
Proof.
  intros Hw Hc. unfold ProcessKeyboardEvents.
  set (v1 := with_window (Some (closing window)) v).
  assert (E1 : if_pressed GLFW_KEY_ESCAPE (glfwSetWindowShouldClose true) v = OK (tt, v1)).
  { rewrite (if_pressed_window _ _ v window Hw). unfold v1, closing.
    destruct (pressed window GLFW_KEY_ESCAPE).
    - unfold glfwSetWindowShouldClose. rewrite Hw. reflexivity.
    - f_equal. f_equal. destruct v, window. cbn in *. now subst. }
  rewrite (vbind_OK _ _ _ _ _ E1), (vbind_OK _ _ v1 v1 v1 eq_refl).
  change (g_pCamera v1) with (g_pCamera v). rewrite Hc. reflexivity.
Qed.

Lemma mouse_callbacks_null_camera (v : State) (x y : R) :
  g_pCamera v = None ->
  Mouse_Position_Callback x y v = Fault NullDereference
  /\ Mouse_Scroll_Callback x y v = Fault NullDereference.
Proof.
  intros Hc. split.
  - unfold Mouse_Position_Callback.
    rewrite (vbind_OK _ _ v v v eq_refl).
    destruct (gFirstMouse v) eqn:Hf.
    + erewrite vbind_OK; [|reflexivity].
      erewrite vbind_OK; [|reflexivity].
      erewrite vbind_OK; [|reflexivity].
      unfold camera_call. cbn [g_pCamera with_mouse]. rewrite Hc. reflexivity.
    + erewrite vbind_OK; [|reflexivity].
      erewrite vbind_OK; [|reflexivity].
      erewrite vbind_OK; [|reflexivity].
      unfold camera_call. cbn [g_pCamera with_mouse]. rewrite Hc. reflexivity.
  - unfold Mouse_Scroll_Callback, camera_call. rewrite Hc. reflexivity.
Qed.

Lemma destroy_ViewManager_run (v : State) :
  exists v', destroy_ViewManager v = OK (tt, v')
             /\ g_pCamera v' = None /\ m_pWindow v' = None /\ m_pShaderManager v' = None.
Proof.
  unfold destroy_ViewManager.
  erewrite vbind_OK; [|reflexivity].
  erewrite vbind_OK; [|reflexivity].
  erewrite vbind_OK; [|reflexivity].
  cbn [g_pCamera with_window with_shader].
  destruct (g_pCamera v) eqn:E; cbn [not_null].
  - eexists. split; [reflexivity|]. repeat split.
  - eexists. split; [reflexivity|]. cbn [g_pCamera with_window with_shader]. now rewrite E.
Qed.

(** X18.  The camera pointer is checked in one place only.  With a
    window and a null camera, [ProcessKeyboardEvents] returns normally,
    having done nothing but look at the escape key; but
    [PrepareSceneView], which calls it, then asks the camera for its view
    matrix and faults, and so do both mouse callbacks.  The destructor
    leaves such a null camera behind, so a mouse callback that GLFW delivers
    after it faults. *)
Theorem camera_pointer_checked_only_by_keyboard (v : State) (window : GLFWwindow) :
  m_pWindow v = Some window ->
  g_pCamera v = None ->
  ProcessKeyboardEvents v = OK (tt, with_window (Some (closing window)) v)
  /\ PrepareSceneView v = Fault NullDereference
  /\ (forall x y, Mouse_Position_Callback x y v = Fault NullDereference)
  /\ (forall x y, Mouse_Scroll_Callback x y v = Fault NullDereference)
  /\ (forall v0 x y,
        exists v', destroy_ViewManager v0 = OK (tt, v')
                   /\ g_pCamera v' = None
                   /\ Mouse_Position_Callback x y v' = Fault NullDereference
                   /\ Mouse_Scroll_Callback x y v' = Fault NullDereference).
Proof.
  intros Hw Hc.
  split; [now apply ProcessKeyboardEvents_null_camera|]. split; [|split; [|split]].
  - unfold PrepareSceneView.
    rewrite (vbind_OK _ _ v v v eq_refl).
    erewrite vbind_OK; [|reflexivity].
    erewrite vbind_OK; [|reflexivity].
    erewrite vbind_OK; [|reflexivity].
    erewrite vbind_OK;
      [|apply (ProcessKeyboardEvents_null_camera _ window); [exact Hw|exact Hc]].
    apply vbind_Fault. unfold camera_read.
    cbn [g_pCamera with_frame with_window]. rewrite Hc. reflexivity.
  - intros x y. now apply mouse_callbacks_null_camera.
  - intros x y. now apply mouse_callbacks_null_camera.
  - intros v0 x y. destruct (destroy_ViewManager_run v0) as (v' & E & Hnull & _).
    exists v'. split; [exact E|]. split; [exact Hnull|].
    now apply mouse_callbacks_null_camera.
Qed.



(** X20.  The order of the keys decides.  With a window and a camera,
    [ProcessKeyboardEvents] returns normally; every movement key that is
    down gets its [ProcessKeyboard] call, in the order W, S, A, D, Q, E and
    with the delta time of the frame, opposite keys included; then P and
    then O reset position, front and up of the camera.  So with O down the
    camera stands at the orthographic viewpoint and the flag is set,
    whatever else is down; with P down and O up it stands at the
    perspective viewpoint and the flag is cleared; in both cases the
    position the movement keys gave is overwritten.  The escape key only
    marks the window for closing; the keys after it are still processed. *)
Theorem ProcessKeyboardEvents_key_order (v : State) (window : GLFWwindow)
    (camera : Camera.t CameraOther) :
  m_pWindow v = Some window ->
  g_pCamera v = Some camera ->
  exists v' camera',
    ProcessKeyboardEvents v = OK (tt, v')
    /\ g_pCamera v' = Some camera'
    /\ m_pWindow v' = Some (closing window)
    /\ m_pShaderManager v' = m_pShaderManager v
    /\ (pressed window GLFW_KEY_O = true ->
        Camera.Position camera' = Vec3 0 7.5 12
        /\ Camera.Front camera' = Vec3 0 0 (-1)
        /\ Camera.Up camera' = Vec3 0 1 0
        /\ bOrthographicProjection v' = true)
    /\ (pressed window GLFW_KEY_O = false -> pressed window GLFW_KEY_P = true ->
        Camera.Position camera' = Vec3 0.5 10.5 22
        /\ Camera.Front camera' = normalize (Vec3 (-0.1) (-0.45) (-1))
        /\ Camera.Up camera' = Vec3 0 1 0
        /\ bOrthographicProjection v' = false)
    /\ (pressed window GLFW_KEY_O = false -> pressed window GLFW_KEY_P = false ->
        camera' = moved (pressed window) (gDeltaTime v) camera
        /\ bOrthographicProjection v' = bOrthographicProjection v)
    /\ Camera.Zoom camera' = Camera.Zoom (moved (pressed window) (gDeltaTime v) camera)
    /\ Camera.other camera' = Camera.other (moved (pressed window) (gDeltaTime v) camera).
Proof.
  intros Hw Hc.
  eexists _, _. split; [exact (ProcessKeyboardEvents_run v window camera Hw Hc)|].
  split; [reflexivity|]. split; [reflexivity|]. split; [reflexivity|].
  cbn [bOrthographicProjection with_orthographic].
  unfold after_keys, flag_after_keys. cbv zeta.
  split; [|split; [|split; [|split]]].
  - intros ->. repeat split.
  - intros -> ->. repeat split.
  - intros -> ->. split; reflexivity.
  - destruct (pressed window GLFW_KEY_O), (pressed window GLFW_KEY_P); reflexivity.
  - destruct (pressed window GLFW_KEY_O), (pressed window GLFW_KEY_P); reflexivity.
Qed.


End View.

(** ** The view manager on the example view *)

Lemma example_view_state (keys : list Key) :
  ViewManager.m_pWindow (example_view keys) = Some (example_display keys)
  /\ ViewManager.g_pCamera (example_view keys) = Some example_viewpoint
  /\ ViewManager.m_pShaderManager (example_view keys) = Some ∅
  /\ ViewManager.bOrthographicProjection (example_view keys) = false.
Proof. repeat split. Qed.

Lemma camera_pointer_checked_only_by_keyboard_witness :
  (exists v', ViewManager.ProcessKeyboardEvents
                (ViewManager.with_camera None (example_view [GLFW_KEY_W])) = OK (tt, v'))
  /\ ViewManager.PrepareSceneView (ViewManager.with_camera None (example_view [GLFW_KEY_W]))
     = Fault NullDereference
  /\ ViewManager.Mouse_Position_Callback 10 20
       (ViewManager.with_camera None (example_view [GLFW_KEY_W]))
     = Fault NullDereference.
Proof.
  destruct (camera_pointer_checked_only_by_keyboard
              (ViewManager.with_camera None (example_view [GLFW_KEY_W]))
              (example_display [GLFW_KEY_W]) eq_refl eq_refl)
    as (Hkeys & Hview & Hmouse & _).
  split; [eexists; exact Hkeys|]. split; [exact Hview|apply Hmouse].
Defined.


Lemma ProcessKeyboardEvents_key_order_witness :
  exists v' camera' window',
    ViewManager.ProcessKeyboardEvents
      (example_view [GLFW_KEY_W; GLFW_KEY_P; GLFW_KEY_O; GLFW_KEY_ESCAPE]) = OK (tt, v')
    /\ ViewManager.g_pCamera v' = Some camera'
    /\ Camera.Position camera' = Vec3 0 7.5 12
    /\ ViewManager.bOrthographicProjection v' = true
    /\ ViewManager.m_pWindow v' = Some window'
    /\ should_close window' = true.
Proof.
  destruct (ProcessKeyboardEvents_key_order
              (example_view [GLFW_KEY_W; GLFW_KEY_P; GLFW_KEY_O; GLFW_KEY_ESCAPE])
              (example_display [GLFW_KEY_W; GLFW_KEY_P; GLFW_KEY_O; GLFW_KEY_ESCAPE])
              example_viewpoint eq_refl eq_refl)
    as (v' & camera' & E & Hc & Hw & _ & HO & _).
  destruct (HO eq_refl) as (Hpos & _ & _ & Hflag).
  exists v', camera'. eexists. split; [exact E|]. split; [exact Hc|]. split; [exact Hpos|].
  split; [exact Hflag|]. split; [exact Hw|reflexivity].
Defined.

